(** * Wavetable Tools (wtt.py): a shallow embedding of the [Wavetable] class

    The development follows [src/wtt.py].  The Python methods of class
    [Wavetable] mutate the instance, read or write one file and emit log
    records; they are embedded as computations of a small state-and-exception
    monad [Py] over a [World] that holds the instance ([self]), the file at
    [file_path] ([disk], with the position of the open handle in [cursor])
    and the log.

    Modelling conventions
    - Python [int] is [Z]; [bytes] is [list byte]; [str] is [string] and
      [.encode(encoding='ansi')] is the byte image of the string (the strings
      the program encodes are ASCII, on which the code page is the identity);
      the vendor comment is taken as its encoded bytes.
    - [None]-able attributes are [option]s: [data_samples] and [wave_count]
      default to [None] in [__init__], and [slicer] tests [wave_size is None].
    - [int(a / b)] is a double-precision quotient truncated towards zero; it
      is embedded as [Z.quot], with [ZeroDivisionError] for a zero divisor.
      The correctly rounded double quotient of two integers truncates to the
      same integer as the exact one whenever the dividend is below 2^53 in
      absolute value, and it cannot overflow there.  Buffer lengths stay far
      below that; where a dividend comes from attributes that a caller or a
      file can set to any integer, the statements carry the bound as a
      hypothesis.
    - A Python exception is the outcome [Raised]; the world it leaves behind
      is kept, since attributes assigned and bytes written before the
      exception stay assigned and written. *)

From Stdlib Require Import Strings.String Strings.Ascii Strings.Byte.
From Stdlib Require Import DecimalString.
From Stdlib Require Import ZArith List Bool Lia.
Import ListNotations.
Local Open Scope Z_scope.

(* ===================================================================== *)
(** ** Python primitives *)
(* ===================================================================== *)

Module Py.

Definition bytes := list byte.

Inductive exn :=
| TypeError | ValueError | OverflowError | ZeroDivisionError
| IndexError | AttributeError | OSError | FileNotFoundError.

(** Result of a pure Python expression that may raise. *)
Inductive res (A : Type) :=
| Val (a : A)
| Exc (e : exn).
Arguments Val {A} a.
Arguments Exc {A} e.

Definition Z_of_byte (b : byte) : Z := Z.of_N (Byte.to_N b).

Definition byte_of_Z (n : Z) : byte :=
  match Byte.of_N (Z.to_N (n mod 256)) with
  | Some b => b
  | None => x00
  end.

Fixpoint bytes_eqb (a b : bytes) : bool :=
  match a, b with
  | [], [] => true
  | x :: a', y :: b' => Byte.eqb x y && bytes_eqb a' b'
  | _, _ => false
  end.

(** [len(x)] *)
Definition len {A} (l : list A) : Z := Z.of_nat (length l).

(** [x[i:j]] for indices [0 <= i], [0 <= j] (the only ones the program
    forms); out-of-range bounds are clamped as Python does. *)
Definition slice {A} (l : list A) (i j : Z) : list A :=
  firstn (Z.to_nat j - Z.to_nat i) (skipn (Z.to_nat i) l).

(** [x[i:]] *)
Definition slice_from {A} (l : list A) (i : Z) : list A :=
  skipn (Z.to_nat i) l.

(** [int.from_bytes(bs, 'little')] (unsigned). *)
Fixpoint int_from_bytes (bs : bytes) : Z :=
  match bs with
  | [] => 0
  | b :: bs' => Z_of_byte b + 256 * int_from_bytes bs'
  end.

Fixpoint le_bytes (n : nat) (x : Z) : bytes :=
  match n with
  | O => []
  | S n' => byte_of_Z x :: le_bytes n' (x / 256)
  end.

(** [x.to_bytes(n, 'little')] (unsigned): [OverflowError] for a negative
    [x] and for one that needs more than [n] bytes. *)
Definition int_to_bytes (x : Z) (n : nat) : res bytes :=
  if x <? 0 then Exc OverflowError
  else if 256 ^ Z.of_nat n <=? x then Exc OverflowError
  else Val (le_bytes n x).

(** [str(x)] for an int: decimal digits, ["-"] in front of a negative. *)
Definition str (x : Z) : string := NilZero.string_of_int (Z.to_int x).

(** [f'{x}'] for an attribute that may be [None]. *)
Definition str_opt (x : option Z) : string :=
  match x with
  | Some z => str z
  | None => "None"%string
  end.

(** [s.encode(encoding='ansi')] on ASCII text. *)
Definition encode (s : string) : bytes := list_byte_of_string s.

(** Whitespace that [int()] strips: space, \t, \n, \v, \f, \r. *)
Definition is_space (b : byte) : bool :=
  match b with
  | x20 | x09 | x0a | x0b | x0c | x0d => true
  | _ => false
  end.

Definition digit_val (b : byte) : option Z :=
  match b with
  | x30 => Some 0 | x31 => Some 1 | x32 => Some 2 | x33 => Some 3
  | x34 => Some 4 | x35 => Some 5 | x36 => Some 6 | x37 => Some 7
  | x38 => Some 8 | x39 => Some 9
  | _ => None
  end.

Fixpoint lstrip (l : bytes) : bytes :=
  match l with
  | b :: l' => if is_space b then lstrip l' else l
  | [] => []
  end.

Definition strip (l : bytes) : bytes := rev (lstrip (rev (lstrip l))).

(** Digits of a decimal literal; a single underscore may sit between two
    digits.  [prev] tells whether the previous character was a digit. *)
Fixpoint parse_digits (acc : Z) (prev : bool) (l : bytes) : option Z :=
  match l with
  | [] => if prev then Some acc else None
  | b :: l' =>
      match digit_val b with
      | Some d => parse_digits (10 * acc + d) true l'
      | None =>
          match b with
          | x5f => if prev then parse_digits acc false l' else None
          | _ => None
          end
      end
  end.

(** [int(bs)] for a bytes object: base 10, surrounding whitespace and an
    optional sign accepted, [ValueError] otherwise. *)
Definition int_of_bytes (bs : bytes) : res Z :=
  match strip bs with
  | x2d :: ds =>
      match parse_digits 0 false ds with
      | Some z => Val (- z)
      | None => Exc ValueError
      end
  | x2b :: ds =>
      match parse_digits 0 false ds with
      | Some z => Val z
      | None => Exc ValueError
      end
  | ds =>
      match parse_digits 0 false ds with
      | Some z => Val z
      | None => Exc ValueError
      end
  end.

(** [int(a / b)]: true division, then truncation towards zero.  Exact for a
    dividend below 2^53 in absolute value (see the conventions above). *)
Definition int_truediv (a b : Z) : res Z :=
  if b =? 0 then Exc ZeroDivisionError else Val (Z.quot a b).

(** [range(start, stop, step)] as the list it iterates over. *)
Definition range (start stop step : Z) : res (list Z) :=
  if step =? 0 then Exc ValueError
  else
    let n :=
      if 0 <? step
      then (if start <? stop then (stop - start + step - 1) / step else 0)
      else (if stop <? start then (start - stop - step - 1) / (- step) else 0)
    in Val (map (fun k => start + Z.of_nat k * step) (seq 0 (Z.to_nat n))).

(** Truth value of an optional int, as [any([...])] tests it. *)
Definition truthy (x : option Z) : bool :=
  match x with
  | Some z => negb (z =? 0)
  | None => false
  end.

End Py.
Import Py.

(* ===================================================================== *)
(** ** The Wavetable record *)
(* ===================================================================== *)

Record Wavetable := mkWavetable {
  data_samples      : option bytes;
  fmt_audio_format  : Z;
  fmt_bits_p_sample : Z;
  fmt_bytes_p_block : Z;
  fmt_bytes_p_sec   : Z;
  fmt_channels      : Z;
  fmt_sample_rate   : Z;
  wave_count        : option Z;
  wave_interp       : Z;
  wave_size         : option Z;
  wave_vendor       : bytes
}.

Definition default_vendor : bytes := encode "wavetable (wavetabletools)".

(** [Wavetable({})]: the defaults of [__init__]. *)
Definition init : Wavetable :=
  {| data_samples := None;
     fmt_audio_format := 1;
     fmt_bits_p_sample := 16;
     fmt_bytes_p_block := 2;
     fmt_bytes_p_sec := 176400;
     fmt_channels := 1;
     fmt_sample_rate := 88200;
     wave_count := None;
     wave_interp := 0;
     wave_size := Some 2048;
     wave_vendor := default_vendor |}.

Definition set_data_samples v (w : Wavetable) :=
  mkWavetable v (fmt_audio_format w) (fmt_bits_p_sample w) (fmt_bytes_p_block w)
    (fmt_bytes_p_sec w) (fmt_channels w) (fmt_sample_rate w) (wave_count w)
    (wave_interp w) (wave_size w) (wave_vendor w).
Definition set_fmt_audio_format v (w : Wavetable) :=
  mkWavetable (data_samples w) v (fmt_bits_p_sample w) (fmt_bytes_p_block w)
    (fmt_bytes_p_sec w) (fmt_channels w) (fmt_sample_rate w) (wave_count w)
    (wave_interp w) (wave_size w) (wave_vendor w).
Definition set_fmt_bits_p_sample v (w : Wavetable) :=
  mkWavetable (data_samples w) (fmt_audio_format w) v (fmt_bytes_p_block w)
    (fmt_bytes_p_sec w) (fmt_channels w) (fmt_sample_rate w) (wave_count w)
    (wave_interp w) (wave_size w) (wave_vendor w).
Definition set_fmt_bytes_p_block v (w : Wavetable) :=
  mkWavetable (data_samples w) (fmt_audio_format w) (fmt_bits_p_sample w) v
    (fmt_bytes_p_sec w) (fmt_channels w) (fmt_sample_rate w) (wave_count w)
    (wave_interp w) (wave_size w) (wave_vendor w).
Definition set_fmt_bytes_p_sec v (w : Wavetable) :=
  mkWavetable (data_samples w) (fmt_audio_format w) (fmt_bits_p_sample w)
    (fmt_bytes_p_block w) v (fmt_channels w) (fmt_sample_rate w) (wave_count w)
    (wave_interp w) (wave_size w) (wave_vendor w).
Definition set_fmt_channels v (w : Wavetable) :=
  mkWavetable (data_samples w) (fmt_audio_format w) (fmt_bits_p_sample w)
    (fmt_bytes_p_block w) (fmt_bytes_p_sec w) v (fmt_sample_rate w) (wave_count w)
    (wave_interp w) (wave_size w) (wave_vendor w).
Definition set_fmt_sample_rate v (w : Wavetable) :=
  mkWavetable (data_samples w) (fmt_audio_format w) (fmt_bits_p_sample w)
    (fmt_bytes_p_block w) (fmt_bytes_p_sec w) (fmt_channels w) v (wave_count w)
    (wave_interp w) (wave_size w) (wave_vendor w).
Definition set_wave_count v (w : Wavetable) :=
  mkWavetable (data_samples w) (fmt_audio_format w) (fmt_bits_p_sample w)
    (fmt_bytes_p_block w) (fmt_bytes_p_sec w) (fmt_channels w) (fmt_sample_rate w) v
    (wave_interp w) (wave_size w) (wave_vendor w).
Definition set_wave_interp v (w : Wavetable) :=
  mkWavetable (data_samples w) (fmt_audio_format w) (fmt_bits_p_sample w)
    (fmt_bytes_p_block w) (fmt_bytes_p_sec w) (fmt_channels w) (fmt_sample_rate w)
    (wave_count w) v (wave_size w) (wave_vendor w).
Definition set_wave_size v (w : Wavetable) :=
  mkWavetable (data_samples w) (fmt_audio_format w) (fmt_bits_p_sample w)
    (fmt_bytes_p_block w) (fmt_bytes_p_sec w) (fmt_channels w) (fmt_sample_rate w)
    (wave_count w) (wave_interp w) v (wave_vendor w).
Definition set_wave_vendor v (w : Wavetable) :=
  mkWavetable (data_samples w) (fmt_audio_format w) (fmt_bits_p_sample w)
    (fmt_bytes_p_block w) (fmt_bytes_p_sec w) (fmt_channels w) (fmt_sample_rate w)
    (wave_count w) (wave_interp w) (wave_size w) v.

(* ===================================================================== *)
(** ** The world and the monad of method bodies *)
(* ===================================================================== *)

Inductive level := INFO | WARNING | ERROR.

Record World := mkWorld {
  self   : Wavetable;           (* the instance *)
  disk   : option bytes;        (* the file at [file_path]; [None]: no file *)
  cursor : nat;                 (* position of the open handle *)
  logged : list (level * string)
}.

Inductive outcome (A : Type) :=
| Returned (a : A)
| Raised (e : exn)
| OutOfFuel.
Arguments Returned {A} a.
Arguments Raised {A} e.
Arguments OutOfFuel {A}.

Definition Py (A : Type) : Type := World -> outcome A * World.

Definition ret {A} (a : A) : Py A := fun w => (Returned a, w).

Definition bind {A B} (c : Py A) (k : A -> Py B) : Py B :=
  fun w =>
    match c w with
    | (Returned a, w') => k a w'
    | (Raised e, w') => (Raised e, w')
    | (OutOfFuel, w') => (OutOfFuel, w')
    end.

Definition raise {A} (e : exn) : Py A := fun w => (Raised e, w).

Definition lift {A} (r : res A) : Py A :=
  match r with
  | Val a => ret a
  | Exc e => raise e
  end.

Declare Scope py_scope.
Delimit Scope py_scope with py.
Notation "x <- c ;; k" := (bind c (fun x => k))
  (at level 61, c at next level, right associativity) : py_scope.
Notation "c ;; k" := (bind c (fun _ => k))
  (at level 61, right associativity) : py_scope.
Local Open Scope py_scope.

(** [self.attr] *)
Definition attr {A} (f : Wavetable -> A) : Py A := fun w => (Returned (f (self w)), w).

(** [self.attr = v], through one of the setters above. *)
Definition assign (f : Wavetable -> Wavetable) : Py unit :=
  fun w => (Returned tt, mkWorld (f (self w)) (disk w) (cursor w) (logged w)).

Definition log_msg (l : level) (m : string) : Py unit :=
  fun w => (Returned tt, mkWorld (self w) (disk w) (cursor w) (logged w ++ [(l, m)])).

(** *** The file handle *)

(** [open(file_path, 'rb')] *)
Definition open_rb : Py unit :=
  fun w =>
    match disk w with
    | Some _ => (Returned tt, mkWorld (self w) (disk w) 0%nat (logged w))
    | None => (Raised FileNotFoundError, w)
    end.

(** [open(file_path, 'wb')]: the file is created or truncated. *)
Definition open_wb : Py unit :=
  fun w => (Returned tt, mkWorld (self w) (Some []) 0%nat (logged w)).

Definition contents (w : World) : bytes :=
  match disk w with
  | Some d => d
  | None => []
  end.

(** [open_file.read(n)] for [n >= 0]: at most [n] bytes, fewer at the end. *)
Definition read (n : Z) : Py bytes :=
  fun w =>
    let got := firstn (Z.to_nat n) (skipn (cursor w) (contents w)) in
    (Returned got, mkWorld (self w) (disk w) (cursor w + length got)%nat (logged w)).

(** [open_file.read(-1)]: everything up to the end. *)
Definition read_all : Py bytes :=
  fun w =>
    let got := skipn (cursor w) (contents w) in
    (Returned got, mkWorld (self w) (disk w) (cursor w + length got)%nat (logged w)).

(** [open_file.seek(k, os.SEEK_CUR)]: a position before the start is an
    [OSError]; one beyond the end is allowed. *)
Definition seek_cur (k : Z) : Py unit :=
  fun w =>
    let p := Z.of_nat (cursor w) + k in
    if p <? 0 then (Raised OSError, w)
    else (Returned tt, mkWorld (self w) (disk w) (Z.to_nat p) (logged w)).

(** [open_file.seek(k, os.SEEK_SET)] *)
Definition seek_set (k : Z) : Py unit :=
  fun w =>
    if k <? 0 then (Raised OSError, w)
    else (Returned tt, mkWorld (self w) (disk w) (Z.to_nat k) (logged w)).

(** [open_file.seek(0, os.SEEK_END)] *)
Definition seek_end : Py unit :=
  fun w => (Returned tt, mkWorld (self w) (disk w) (length (contents w)) (logged w)).

(** [open_file.tell()] *)
Definition tell : Py Z := fun w => (Returned (Z.of_nat (cursor w)), w).

(** [open_file.write(bs)]: overwrite from the cursor on, extending the file
    (with zero bytes over a gap left by a seek beyond the end). *)
Definition write (bs : bytes) : Py unit :=
  fun w =>
    let d := contents w in
    let gap := repeat x00 (cursor w - length d) in
    let d' := firstn (cursor w) d ++ gap ++ bs ++ skipn (cursor w + length bs) d in
    (Returned tt, mkWorld (self w) (Some d') (cursor w + length bs)%nat (logged w)).

(* ===================================================================== *)
(** ** Methods of class Wavetable *)
(* ===================================================================== *)

(** *** Derived fields *)

(** [int(self.fmt_channels * self.fmt_bits_p_sample / 8)] *)
Definition calc_fmt_bytes_p_block : Py Z :=
  c <- attr fmt_channels ;;
  b <- attr fmt_bits_p_sample ;;
  lift (int_truediv (c * b) 8).

(** [int(self.fmt_sample_rate * self.fmt_bytes_p_block)] *)
Definition calc_fmt_bytes_p_sec : Py Z :=
  r <- attr fmt_sample_rate ;;
  b <- attr fmt_bytes_p_block ;;
  ret (r * b).

(** [int(len(self.data_samples) / (self.wave_size * self.fmt_bytes_p_block))];
    [len(None)] and [None * int] are [TypeError]s. *)
Definition calc_wave_count : Py Z :=
  d <- attr data_samples ;;
  n <- match d with
       | Some s => ret (len s)
       | None => raise TypeError
       end ;;
  ws <- attr wave_size ;;
  b <- attr fmt_bytes_p_block ;;
  m <- match ws with
       | Some z => ret (z * b)
       | None => raise TypeError
       end ;;
  lift (int_truediv n m).

(** *** set_data *)

Record set_data_args := mkArgs {
  arg_fmt_audio_format  : option Z;
  arg_fmt_bits_p_sample : option Z;
  arg_fmt_bytes_p_block : option Z;
  arg_fmt_bytes_p_sec   : option Z;
  arg_fmt_channels      : option Z;
  arg_fmt_sample_rate   : option Z;
  arg_wave_count        : option Z;
  arg_wave_interp       : option Z;
  arg_wave_size         : option Z;
  arg_wave_vendor       : option bytes;
  arg_recalc            : bool
}.

(** The keyword defaults of [set_data]. *)
Definition no_args : set_data_args :=
  mkArgs None None None None None None None None None None false.

(** [if x is not None: self.attr = x] *)
Definition when_given {A} (x : option A) (f : A -> Wavetable -> Wavetable) : Py unit :=
  match x with
  | Some v => assign (f v)
  | None => ret tt
  end.

Definition set_data (a : set_data_args) : Py unit :=
  when_given (arg_fmt_audio_format a) set_fmt_audio_format ;;
  when_given (arg_fmt_bits_p_sample a) set_fmt_bits_p_sample ;;
  when_given (arg_fmt_bytes_p_block a) set_fmt_bytes_p_block ;;
  when_given (arg_fmt_bytes_p_sec a) set_fmt_bytes_p_sec ;;
  when_given (arg_fmt_channels a) set_fmt_channels ;;
  when_given (arg_fmt_sample_rate a) set_fmt_sample_rate ;;
  when_given (arg_wave_count a) (fun v => set_wave_count (Some v)) ;;
  when_given (arg_wave_interp a) set_wave_interp ;;
  when_given (arg_wave_size a) (fun v => set_wave_size (Some v)) ;;
  when_given (arg_wave_vendor a) set_wave_vendor ;;
  if arg_recalc a
     && (truthy (arg_fmt_bits_p_sample a) || truthy (arg_fmt_channels a)
         || truthy (arg_fmt_sample_rate a) || truthy (arg_wave_size a))
  then
    (b <- calc_fmt_bytes_p_block ;;
     assign (set_fmt_bytes_p_block b) ;;
     s <- calc_fmt_bytes_p_sec ;;
     assign (set_fmt_bytes_p_sec s) ;;
     c <- calc_wave_count ;;
     assign (set_wave_count (Some c)))
  else ret tt.

(** *** WAVE decode *)

Definition is_riff (chunk_id : bytes) : bool := bytes_eqb chunk_id [x52; x49; x46; x46].
Definition is_fmt (chunk_id : bytes) : bool := bytes_eqb chunk_id [x66; x6d; x74; x20].
Definition is_clm (chunk_id : bytes) : bool := bytes_eqb chunk_id [x63; x6c; x6d; x20].
Definition is_data (chunk_id : bytes) : bool := bytes_eqb chunk_id [x64; x61; x74; x61].
Definition is_junk (chunk_id : bytes) : bool := bytes_eqb chunk_id [x4a; x55; x4e; x4b].

(** [not self.data_samples]: [None] or the empty bytes object. *)
Definition no_samples (d : option bytes) : bool :=
  match d with
  | None | Some [] => true
  | Some (_ :: _) => false
  end.

(** [int.from_bytes(open_file.read(n), 'little')] *)
Definition read_int (n : Z) : Py Z :=
  bs <- read n ;;
  ret (int_from_bytes bs).

(** Returns [true] for Python's [True] (skip the file) and [false] for the
    implicit [None]. *)
Definition wav_parse_chunk (chunk_id : bytes) : Py bool :=
  if is_riff chunk_id then
    log_msg INFO "    Found 'riff' chunk." ;;
    seek_cur 4 ;;
    magic <- read 4 ;;
    if negb (bytes_eqb magic [x57; x41; x56; x45])
    then (log_msg WARNING "File not in WAVE format." ;; ret true)
    else ret false
  else if is_fmt chunk_id then
    log_msg INFO "    Found 'fmt ' chunk." ;;
    seek_cur 4 ;;
    v <- read_int 2 ;; assign (set_fmt_audio_format v) ;;
    v <- read_int 2 ;; assign (set_fmt_channels v) ;;
    v <- read_int 4 ;; assign (set_fmt_sample_rate v) ;;
    v <- read_int 4 ;; assign (set_fmt_bytes_p_sec v) ;;
    v <- read_int 2 ;; assign (set_fmt_bytes_p_block v) ;;
    v <- read_int 2 ;; assign (set_fmt_bits_p_sample v) ;;
    ret false
  else if is_clm chunk_id then
    log_msg INFO "    Found 'clm ' chunk." ;;
    clm_size <- read_int 4 ;;
    clm_data <- read clm_size ;;
    v <- lift (int_of_bytes (slice clm_data 3 7)) ;; assign (set_wave_size (Some v)) ;;
    v <- lift (int_of_bytes (slice clm_data 8 9)) ;; assign (set_wave_interp v) ;;
    assign (set_wave_vendor (slice_from clm_data 17)) ;;
    ret false
  else if is_data chunk_id then
    data_size <- read_int 4 ;;
    d <- attr data_samples ;;
    if no_samples d then
      log_msg INFO "    Found 'data' chunk." ;;
      payload <- read data_size ;;
      assign (set_data_samples (Some payload)) ;;
      ret false
    else
      log_msg WARNING "    Other data tag skipped. Check if correct data was fetched." ;;
      ret false
  else
    seek_cur (-3) ;;
    ret false.

(** The [while True] loop of [wav_import]; [true] is [return True], [false]
    is [break]. *)
Fixpoint wav_import_loop (fuel : nat) : Py bool :=
  match fuel with
  | O => fun w => (OutOfFuel, w)
  | S fuel' =>
      chunk_id <- read 4 ;;
      if negb (length chunk_id =? 4)%nat then ret false
      else
        stop_importing <- wav_parse_chunk chunk_id ;;
        if stop_importing then ret true else wav_import_loop fuel'
  end.

(** Every turn of the loop moves the handle forward by at least one byte, so
    one turn per byte of the file, and one more, is enough fuel. *)
Definition wav_import : Py bool :=
  log_msg INFO "Reading" ;;
  open_rb ;;
  stop <- (fun w => wav_import_loop (S (length (contents w))) w) ;;
  if stop then ret true
  else
    c <- calc_wave_count ;;
    assign (set_wave_count (Some c)) ;;
    ret false.

(** *** WT decode *)

Definition is_sample (flags : Z) : bool := negb (Z.land flags 1 =? 0).
Definition is_looped (flags : Z) : bool := negb (Z.land flags 2 =? 0).
Definition is_int16 (flags : Z) : bool := negb (Z.land flags 4 =? 0).
Definition is_full_range (flags : Z) : bool := negb (Z.land flags 8 =? 0).

Definition wt_parse_flags (flags : Z) : Py bool :=
  if is_sample flags then
    log_msg WARNING "Wavetable is a sample." ;; ret true
  else if is_looped flags then
    log_msg WARNING "Wavetable is a sample." ;; ret true
  else
    (if is_int16 flags
     then assign (set_fmt_bits_p_sample 16)
     else assign (set_fmt_bits_p_sample 32)) ;;
    (if is_full_range flags then ret tt else ret tt) ;;
    ret false.

(** [set_data(recalc=True, fmt_audio_format=1, fmt_channels=1, fmt_sample_rate=88200)] *)
Definition wt_defaults : set_data_args :=
  mkArgs (Some 1) None None None (Some 1) (Some 88200) None None None None true.

Definition wt_import : Py bool :=
  log_msg INFO "Reading" ;;
  open_rb ;;
  seek_set 4 ;;
  v <- read_int 4 ;; assign (set_wave_size (Some v)) ;;
  v <- read_int 2 ;; assign (set_wave_count (Some v)) ;;
  flags <- read_int 2 ;;
  stop_importing <- wt_parse_flags flags ;;
  if stop_importing then ret true
  else
    rest <- read_all ;;
    assign (set_data_samples (Some rest)) ;;
    log_msg INFO "Assume 'fmt ' chunk data, wave_interp = 0, and add wave_vendor b'wavetable (wavetabletools)'." ;;
    set_data wt_defaults ;;
    ret false.

(** *** WAVE encode *)

(** [open_file.write(self.attr.to_bytes(n, 'little'))] *)
Definition write_int (x : Z) (n : nat) : Py unit :=
  b <- lift (int_to_bytes x n) ;;
  write b.

(** The clm payload: the preamble, the vendor bytes, and a zero byte when
    that makes an odd length. *)
Definition clm_payload (s : Wavetable) : bytes :=
  let clm_string :=
    encode ("<!>" ++ str_opt (wave_size s) ++ " " ++ str (wave_interp s) ++ "0000000 ")%string in
  let clm_data := clm_string ++ wave_vendor s in
  if len clm_data mod 2 =? 1 then clm_data ++ [x00] else clm_data.

Definition wav_write : Py unit :=
  clm_data <- attr clm_payload ;;
  log_msg INFO "Writing" ;;
  open_wb ;;
  log_msg INFO "    Writing riff." ;;
  write [x52; x49; x46; x46] ;;
  write [x00; x00; x00; x00] ;;
  write [x57; x41; x56; x45] ;;
  log_msg INFO "    Writing fmt." ;;
  write [x66; x6d; x74; x20] ;;
  write [x10; x00; x00; x00] ;;
  v <- attr fmt_audio_format ;; write_int v 2 ;;
  v <- attr fmt_channels ;; write_int v 2 ;;
  v <- attr fmt_sample_rate ;; write_int v 4 ;;
  v <- attr fmt_bytes_p_sec ;; write_int v 4 ;;
  v <- attr fmt_bytes_p_block ;; write_int v 2 ;;
  v <- attr fmt_bits_p_sample ;; write_int v 2 ;;
  log_msg INFO "    Writing clm." ;;
  write [x63; x6c; x6d; x20] ;;
  write_int (len clm_data) 4 ;;
  write clm_data ;;
  log_msg INFO "    Writing data." ;;
  write [x64; x61; x74; x61] ;;
  d <- attr data_samples ;;
  samples <- match d with
             | Some s => ret s
             | None => raise TypeError
             end ;;
  write_int (len samples) 4 ;;
  write samples ;;
  log_msg INFO "    Calc size." ;;
  seek_end ;;
  p <- tell ;;
  let file_size := p - 8 in
  seek_set 4 ;;
  write_int file_size 4.

(** *** WT encode *)

Definition wt_set_flag (s : Wavetable) (is_sample is_looped is_full_range : bool) : Z :=
  let flag := 0 in
  let flag := if is_sample then Z.lor flag 1 else flag in
  let flag := if is_looped then Z.lor flag 2 else flag in
  if fmt_bits_p_sample s =? 16 then
    let flag := Z.lor flag 4 in
    if is_full_range then Z.lor flag 8 else flag
  else flag.

(** [self.wave_size & (self.wave_size - 1) != 0) or self.wave_size == 0] *)
Definition bad_wave_size (z : Z) : bool :=
  negb (Z.land z (z - 1) =? 0) || (z =? 0).

Definition wt_write (is_sample is_looped is_full_range : bool) : Py unit :=
  ch <- attr fmt_channels ;;
  if negb (ch =? 1) then
    log_msg WARNING "Only 1 channel is supported."
  else
    ws <- attr wave_size ;;
    z <- match ws with
         | Some z => ret z
         | None => raise TypeError
         end ;;
    if bad_wave_size z then
      log_msg WARNING "Wave size must be a power of 2."
    else
      open_wb ;;
      log_msg INFO "Writing" ;;
      write [x76; x61; x77; x74] ;;
      write_int z 4 ;;
      wc <- attr wave_count ;;
      c <- match wc with
           | Some c => ret c
           | None => raise AttributeError
           end ;;
      write_int c 2 ;;
      flag <- attr (fun s => wt_set_flag s is_sample is_looped is_full_range) ;;
      write_int flag 2 ;;
      d <- attr data_samples ;;
      match d with
      | Some s => write s
      | None => raise TypeError
      end.

(** *** Cycle transforms *)

Definition slicer : Py (list bytes) :=
  ws0 <- attr wave_size ;;
  match ws0 with
  | None =>
      log_msg WARNING "wave_size not in wavetable. 2048 samples is assumed. Use --wavesize to supply a different wave_size." ;;
      assign (set_wave_size (Some 2048))
  | Some _ => ret tt
  end ;;
  d <- attr data_samples ;;
  n <- match d with
       | Some s => ret (len s)
       | None => raise TypeError
       end ;;
  ws <- attr wave_size ;;
  b <- attr fmt_bytes_p_block ;;
  step <- match ws with
          | Some z => ret (z * b)
          | None => raise TypeError
          end ;;
  starts <- lift (range 0 n step) ;;
  let s := match d with Some s => s | None => [] end in
  ret (map (fun i => slice s i (i + step)) starts).

(** The [for] loop of [deduplicator]: [cycles_dedupe[-1]] is the last
    element of the list built so far. *)
Definition dedupe_step (cycles_dedupe : list bytes) (cycle : bytes) : list bytes :=
  if negb (bytes_eqb cycle (last cycles_dedupe []))
  then cycles_dedupe ++ [cycle]
  else cycles_dedupe.

(** Returns [true] for Python's [True] (no duplicates found) and [false] for
    the implicit [None]. *)
Definition deduplicator : Py bool :=
  cycles_all <- slicer ;;
  first <- match cycles_all with
           | c :: _ => ret c
           | [] => raise IndexError
           end ;;
  let cycles_dedupe := fold_left dedupe_step (tl cycles_all) [first] in
  if (length cycles_all =? length cycles_dedupe)%nat then
    log_msg INFO "No duplicates found." ;;
    ret true
  else
    log_msg INFO "Set data_samples:" ;;
    assign (set_data_samples (Some (concat cycles_dedupe))) ;;
    assign (set_wave_interp 0) ;;
    assign (set_wave_count (Some (len cycles_dedupe))) ;;
    log_msg INFO "Set clm data:" ;;
    wi <- attr wave_interp ;;
    log_msg INFO ("    wave_interp: " ++ str wi) ;;
    wc <- attr wave_count ;;
    log_msg INFO ("    wave_count: " ++ str_opt wc) ;;
    ret false.

(* ===================================================================== *)
(** ** More methods of class Wavetable *)
(* ===================================================================== *)

(** [x[:k]]: a negative [k] counts from the end. *)
Definition slice_to {A} (l : list A) (k : Z) : list A :=
  if k <? 0 then firstn (Z.to_nat (len l + k)) l else firstn (Z.to_nat k) l.

(** [x[start::step]] for [0 <= start] and [0 < step]: the elements at the
    indices of [range(start, len(x), step)]. *)
Definition slice_step {A} (l : list A) (start step : Z) : list A :=
  match range start (len l) step with
  | Val indices =>
      flat_map (fun i => match nth_error l (Z.to_nat i) with
                         | Some x => [x]
                         | None => []
                         end) indices
  | Exc _ => []
  end.

(** [trim]: the first [wave_count * wave_size * block_align] bytes. *)
Definition trim : Py unit :=
  d <- attr data_samples ;;
  wc <- attr wave_count ;;
  ws <- attr wave_size ;;
  b <- attr fmt_bytes_p_block ;;
  k <- match wc, ws with
       | Some c, Some z => ret (c * z * b)
       | _, _ => raise TypeError
       end ;;
  match d with
  | Some s => assign (set_data_samples (Some (slice_to s k)))
  | None => raise TypeError
  end.

(** [set_data(recalc=True, fmt_channels=1)] *)
Definition to_mono : set_data_args :=
  mkArgs None None None None (Some 1) None None None None None true.

(** [choose_channel(right)]: [true] is Python's [True] (more than two
    channels), [false] the implicit [None]. *)
Definition choose_channel (right : bool) : Py bool :=
  ch <- attr fmt_channels ;;
  if ch =? 1 then
    log_msg INFO "Sample is mono." ;;
    ret false
  else if ch =? 2 then
    blk <- attr fmt_bytes_p_block ;;
    bytes_p_sample <- lift (int_truediv blk ch) ;;
    d <- attr data_samples ;;
    s <- match d with
         | Some s => ret s
         | None => raise TypeError
         end ;;
    total_num_samples <- lift (int_truediv (len s) bytes_p_sample) ;;
    block_nums <- lift (range 0 total_num_samples 1) ;;
    let samples_list :=
      map (fun block_num =>
             slice s (block_num * bytes_p_sample) ((block_num + 1) * bytes_p_sample))
        block_nums in
    offsets <- lift (range 0 ch 1) ;;
    let channels := map (fun offset => slice_step samples_list offset ch) offsets in
    set_data to_mono ;;
    (if right then
       match nth_error channels 1 with
       | Some c =>
           assign (set_data_samples (Some (concat c))) ;;
           log_msg INFO "Keep right channel data."
       | None => raise IndexError
       end
     else
       match nth_error channels 0 with
       | Some c =>
           assign (set_data_samples (Some (concat c))) ;;
           log_msg INFO "Keep left channel data."
       | None => raise IndexError
       end) ;;
    set_data to_mono ;;
    ret false
  else
    log_msg ERROR "Samples with more than 2 channels are not supported." ;;
    ret true.

(** The file that the handle was opened on, as it is now. *)
Definition written : Py (option bytes) := fun w => (Returned (disk w), w).

(** The [for] loop of [wav_export_cycles].  [wav_write] opens the file
    [outpath_folder/<cycle_num>.wav] of its own in every turn; the files are
    collected in the order of their numbers. *)
Fixpoint wav_export_loop (cycles : list bytes) : Py (list (option bytes)) :=
  match cycles with
  | [] => ret []
  | cycles_data :: more =>
      assign (set_data_samples (Some cycles_data)) ;;
      wav_write ;;
      file <- written ;;
      files <- wav_export_loop more ;;
      ret (file :: files)
  end.

(** [wav_export_cycles]: returns the files [0.wav], [1.wav], ... *)
Definition wav_export_cycles : Py (list (option bytes)) :=
  data_samples_total_temp <- attr data_samples ;;
  cycles <- slicer ;;
  files <- wav_export_loop cycles ;;
  assign (set_data_samples data_samples_total_temp) ;;
  ret files.

(* ===================================================================== *)
(** ** Reference definitions and sample inputs for the statements *)
(* ===================================================================== *)

(** The record [wt_import] leaves behind when the flags are accepted:
    [size] and [count] are the header fields, [int16] is bit 2 of the flags
    and [samples] the rest of the file.  The count of the header survives
    only when the recalculation divides by zero. *)
Definition wt_decoded (s : Wavetable) (size count : Z) (int16 : bool)
    (samples : bytes) : Wavetable :=
  let block := if int16 then 2 else 4 in
  {| data_samples := Some samples;
     fmt_audio_format := 1;
     fmt_bits_p_sample := if int16 then 16 else 32;
     fmt_bytes_p_block := block;
     fmt_bytes_p_sec := 88200 * block;
     fmt_channels := 1;
     fmt_sample_rate := 88200;
     wave_count :=
       if size =? 0 then Some count else Some (Z.quot (len samples) (size * block));
     wave_interp := wave_interp s;
     wave_size := Some size;
     wave_vendor := wave_vendor s |}.

(** A world with instance [s], the file [d] (if any) and an empty log. *)
Definition world_of (s : Wavetable) (d : option bytes) : World :=
  mkWorld s d 0 [].

(** A WT file with wave size 2048, wave count 1, flags 0b0100 and four
    sample bytes. *)
Definition wt_file_0100 : bytes :=
  [x76; x61; x77; x74] ++ [x00; x08; x00; x00] ++ [x01; x00] ++ [x04; x00]
  ++ [x10; x20; x30; x40].

(** [given x f s]: the record after [if x is not None: self.attr = x]. *)
Definition given {A} (x : option A) (f : A -> Wavetable -> Wavetable)
    (s : Wavetable) : Wavetable :=
  match x with
  | Some v => f v s
  | None => s
  end.

(** The record after the ten conditional assignments of [set_data]. *)
Definition set_fields (a : set_data_args) (s : Wavetable) : Wavetable :=
  given (arg_wave_vendor a) set_wave_vendor
    (given (arg_wave_size a) (fun v => set_wave_size (Some v))
      (given (arg_wave_interp a) set_wave_interp
        (given (arg_wave_count a) (fun v => set_wave_count (Some v))
          (given (arg_fmt_sample_rate a) set_fmt_sample_rate
            (given (arg_fmt_channels a) set_fmt_channels
              (given (arg_fmt_bytes_p_sec a) set_fmt_bytes_p_sec
                (given (arg_fmt_bytes_p_block a) set_fmt_bytes_p_block
                  (given (arg_fmt_bits_p_sample a) set_fmt_bits_p_sample
                    (given (arg_fmt_audio_format a) set_fmt_audio_format s))))))))).

(** The test [recalc is True and any([...])] of [set_data]. *)
Definition recalc_requested (a : set_data_args) : bool :=
  arg_recalc a
  && (truthy (arg_fmt_bits_p_sample a) || truthy (arg_fmt_channels a)
      || truthy (arg_fmt_sample_rate a) || truthy (arg_wave_size a)).

(** The record after the first two recalculations of [set_data]. *)
Definition with_block_recalculated (s : Wavetable) : Wavetable :=
  let b := Z.quot (fmt_channels s * fmt_bits_p_sample s) 8 in
  set_fmt_bytes_p_sec (fmt_sample_rate s * b) (set_fmt_bytes_p_block b s).

(** Five bytes of samples against a cycle of [-1 * 2] bytes. *)
Definition negative_cycle : Wavetable :=
  set_wave_size (Some (-1))
    (set_data_samples (Some [x01; x02; x03; x04; x05]) init).

(** Five bytes of samples in cycles of [1 * 2] bytes. *)
Definition five_bytes : Wavetable :=
  set_wave_size (Some 1)
    (set_data_samples (Some [x01; x02; x03; x04; x05]) init).

(** [set_data(recalc=True, wave_size=1)] *)
Definition resize_to_1 : set_data_args :=
  mkArgs None None None None None None None None (Some 1) None true.

(** The world [slicer] leaves: an absent [wave_size] is set to 2048, with a
    warning. *)
Definition wave_size_defaulted (w : World) : World :=
  match wave_size (self w) with
  | Some _ => w
  | None =>
      mkWorld (set_wave_size (Some 2048) (self w)) (disk w) (cursor w)
        (logged w ++ [(WARNING, "wave_size not in wavetable. 2048 samples is assumed. Use --wavesize to supply a different wave_size."%string)])
  end.

(** Bytes per cycle, [wave_size * block_align], as [slicer] uses it. *)
Definition cycle_bytes (s : Wavetable) : Z :=
  match wave_size s with
  | Some z => z * fmt_bytes_p_block s
  | None => 2048 * fmt_bytes_p_block s
  end.

(** Eight bytes of samples in cycles of [2 * 2] bytes: two whole cycles. *)
Definition two_cycles : Wavetable :=
  set_wave_size (Some 2)
    (set_data_samples (Some [x01; x02; x03; x04; x05; x06; x07; x08]) init).

(** Ten bytes of samples in cycles of [2 * 2] bytes: two whole cycles and a
    rest of two bytes. *)
Definition two_cycles_and_rest : Wavetable :=
  set_wave_size (Some 2)
    (set_data_samples
       (Some [x01; x02; x03; x04; x05; x06; x07; x08; x09; x0a]) init).

(** The slices deduplication keeps, in the words of the specification: the
    first slice, then each slice that differs from the most recently kept
    one. *)
Fixpoint keep_after (prev : bytes) (cycles : list bytes) : list bytes :=
  match cycles with
  | [] => []
  | c :: cs =>
      if list_eq_dec byte_eq_dec c prev
      then keep_after prev cs
      else c :: keep_after c cs
  end.

(** What is kept of the slices [first :: rest]. *)
Definition kept_cycles (first : bytes) (rest : list bytes) : list bytes :=
  first :: keep_after first rest.

(** The scenario of the specification: [wave_size = 4], [block_align = 2],
    three identical cycles of eight bytes and a different fourth one. *)
Definition three_alike_one_other : Wavetable :=
  set_wave_size (Some 4)
    (set_data_samples
       (Some ([x01; x02; x03; x04; x05; x06; x07; x08]
              ++ [x01; x02; x03; x04; x05; x06; x07; x08]
              ++ [x01; x02; x03; x04; x05; x06; x07; x08]
              ++ [x11; x12; x13; x14; x15; x16; x17; x18])) init).

(** Two bytes of samples with the wave size [-512], as a clm chunk that
    reads [<!>-512 ...] leaves it. *)
Definition negative_wave_size : Wavetable :=
  set_wave_size (Some (-512)) (set_data_samples (Some [x01; x02]) init).

(** No sample bytes and a block align of zero. *)
Definition empty_zero_block : Wavetable :=
  set_fmt_bytes_p_block 0 (set_data_samples (Some []) init).

(** No sample bytes, default format. *)
Definition empty_samples : Wavetable :=
  set_data_samples (Some []) init.

(** The WT container: tag, wave size, wave count, flags, samples. *)
Definition wt_container (z c flag : Z) (smp : bytes) : bytes :=
  [x76; x61; x77; x74] ++ le_bytes 4 z ++ le_bytes 2 c ++ le_bytes 2 flag ++ smp.

(** A mono record with wave size 3000. *)
Definition wave_size_3000 : Wavetable :=
  set_wave_count (Some 0)
    (set_wave_size (Some 3000) (set_data_samples (Some [x01; x02]) init)).

(** A stereo record. *)
Definition stereo : Wavetable :=
  set_wave_count (Some 0)
    (set_fmt_channels 2 (set_data_samples (Some [x01; x02; x03; x04]) init)).

(** A mono record of one cycle of [2 * 2] bytes. *)
Definition one_cycle : Wavetable :=
  set_wave_count (Some 1)
    (set_wave_size (Some 2) (set_data_samples (Some [x01; x02; x03; x04]) init)).

(** A mono record with the wave size 2^32, as
    [maketable --wt --wavesize 4294967296] leaves it. *)
Definition wave_size_2_32 : Wavetable :=
  set_wave_count (Some 0)
    (set_wave_size (Some 4294967296) (set_data_samples (Some [x01; x02]) init)).

(** The WAVE container as the specification lays it out: [RIFF], the file
    size less 8, [WAVE]; the 16-byte [fmt ] chunk; the [clm ] chunk; the
    [data] chunk. *)
Definition wav_container (s : Wavetable) (smp : bytes) : bytes :=
  [x52; x49; x46; x46]
  ++ le_bytes 4 (36 + (8 + len (clm_payload s)) + (8 + len smp) - 8)
  ++ [x57; x41; x56; x45]
  ++ [x66; x6d; x74; x20] ++ [x10; x00; x00; x00]
  ++ le_bytes 2 (fmt_audio_format s) ++ le_bytes 2 (fmt_channels s)
  ++ le_bytes 4 (fmt_sample_rate s) ++ le_bytes 4 (fmt_bytes_p_sec s)
  ++ le_bytes 2 (fmt_bytes_p_block s) ++ le_bytes 2 (fmt_bits_p_sample s)
  ++ [x63; x6c; x6d; x20] ++ le_bytes 4 (len (clm_payload s)) ++ clm_payload s
  ++ [x64; x61; x74; x61] ++ le_bytes 4 (len smp) ++ smp.

(** The fields of a record fit the fields of the [fmt ] chunk. *)
Definition fmt_fits (s : Wavetable) : Prop :=
  0 <= fmt_audio_format s < 2 ^ 16
  /\ 0 <= fmt_channels s < 2 ^ 16
  /\ 0 <= fmt_sample_rate s < 2 ^ 32
  /\ 0 <= fmt_bytes_p_sec s < 2 ^ 32
  /\ 0 <= fmt_bytes_p_block s < 2 ^ 16
  /\ 0 <= fmt_bits_p_sample s < 2 ^ 16.

(** The log of a complete [wav_write]. *)
Definition wav_write_log : list (level * string) :=
  [(INFO, "Writing"%string); (INFO, "    Writing riff."%string);
   (INFO, "    Writing fmt."%string); (INFO, "    Writing clm."%string);
   (INFO, "    Writing data."%string); (INFO, "    Calc size."%string)].

(** A stream of two [data] chunks with two bytes of payload each. *)
Definition two_data_chunks : bytes :=
  [x64; x61; x74; x61] ++ [x02; x00; x00; x00] ++ [xaa; xbb]
  ++ [x64; x61; x74; x61] ++ [x02; x00; x00; x00] ++ [xcc; xdd].

(** The import of [two_data_chunks] after its first chunk: the handle
    stands behind the second [data] tag. *)
Definition after_first_data_chunk : World :=
  mkWorld (set_data_samples (Some [xaa; xbb]) init) (Some two_data_chunks) 14
    [(INFO, "Reading"%string); (INFO, "    Found 'data' chunk."%string)].

(** A stream of two [data] chunks, the first one with an empty payload. *)
Definition empty_then_data : bytes :=
  [x64; x61; x74; x61] ++ [x00; x00; x00; x00]
  ++ [x64; x61; x74; x61] ++ [x02; x00; x00; x00] ++ [xcc; xdd].

(** The warning for a [data] tag that is skipped. *)
Definition data_skipped : level * string :=
  (WARNING, "    Other data tag skipped. Check if correct data was fetched."%string).

(** [f'{x}'] gives [n] digits that [int()] reads back as [x]. *)
Definition digits_read_back (n : nat) (x : Z) : bool :=
  let ds := encode (str x) in
  (length ds =? n)%nat
  && match int_of_bytes ds with
     | Val z => z =? x
     | Exc _ => false
     end.

(** The zero byte that pads a clm payload of odd length: the preamble has
    17 bytes, so the payload is odd when the vendor length is even. *)
Definition clm_pad (vendor : bytes) : bytes :=
  if Z.even (len vendor) then [x00] else [].

(** The record [wav_import] leaves when it reads the container written from
    [s] with samples [smp] and wave size [ws]: every attribute is set from
    the file. *)
Definition wav_decoded (s : Wavetable) (ws : Z) (smp : bytes) : Wavetable :=
  {| data_samples := Some smp;
     fmt_audio_format := fmt_audio_format s;
     fmt_bits_p_sample := fmt_bits_p_sample s;
     fmt_bytes_p_block := fmt_bytes_p_block s;
     fmt_bytes_p_sec := fmt_bytes_p_sec s;
     fmt_channels := fmt_channels s;
     fmt_sample_rate := fmt_sample_rate s;
     wave_count := Some (Z.quot (len smp) (ws * fmt_bytes_p_block s));
     wave_interp := wave_interp s;
     wave_size := Some ws;
     wave_vendor := wave_vendor s ++ clm_pad (wave_vendor s) |}.

(** The log of a complete [wav_import] of such a container. *)
Definition wav_import_log : list (level * string) :=
  [(INFO, "Reading"%string); (INFO, "    Found 'riff' chunk."%string);
   (INFO, "    Found 'fmt ' chunk."%string);
   (INFO, "    Found 'clm ' chunk."%string);
   (INFO, "    Found 'data' chunk."%string)].

(** The default record with eight bytes of samples. *)
Definition default_with_samples : Wavetable :=
  set_data_samples (Some [x01; x02; x03; x04; x05; x06; x07; x08]) init.

(** The default record with eight bytes of samples and the wave size [ws]. *)
Definition with_wave_size (ws : Z) : Wavetable :=
  set_wave_size (Some ws) default_with_samples.

(** Writing the record [s] and importing the file into a fresh record. *)
Definition written_then_imported (s : Wavetable) : outcome bool * World :=
  wav_import (world_of init (disk (snd (wav_write (world_of s None))))).
(* ===================================================================== *)
(** ** Reference definitions for the further properties *)
(* ===================================================================== *)

(** What [wav_write] has written when it reaches the samples: everything up
    to and with the [data] tag, the size field of the RIFF header still
    zero. *)
Definition wav_unfinished (s : Wavetable) : bytes :=
  [x52; x49; x46; x46] ++ [x00; x00; x00; x00] ++ [x57; x41; x56; x45]
  ++ [x66; x6d; x74; x20] ++ [x10; x00; x00; x00]
  ++ le_bytes 2 (fmt_audio_format s) ++ le_bytes 2 (fmt_channels s)
  ++ le_bytes 4 (fmt_sample_rate s) ++ le_bytes 4 (fmt_bytes_p_sec s)
  ++ le_bytes 2 (fmt_bytes_p_block s) ++ le_bytes 2 (fmt_bits_p_sample s)
  ++ [x63; x6c; x6d; x20] ++ le_bytes 4 (len (clm_payload s)) ++ clm_payload s
  ++ [x64; x61; x74; x61].

(** Stereo samples as a list of frames: the bytes of the left sample and
    the bytes of the right sample of each frame. *)
Definition interleaved (frames : list (bytes * bytes)) : bytes :=
  flat_map (fun frame => fst frame ++ snd frame) frames.

(** The samples of one channel of the frames, joined. *)
Definition channel (right : bool) (frames : list (bytes * bytes)) : bytes :=
  flat_map (fun frame => if right then snd frame else fst frame) frames.

(** Every sample of every frame has [n] bytes. *)
Definition frames_of (n : nat) (frames : list (bytes * bytes)) : Prop :=
  Forall (fun frame => length (fst frame) = n /\ length (snd frame) = n) frames.

(** The samples of the frames one by one: left, right, left, right, ... *)
Definition pairs_flat (frames : list (bytes * bytes)) : list bytes :=
  flat_map (fun frame => [fst frame; snd frame]) frames.

(** The record after [set_data(recalc=True, fmt_channels=1)] has found the
    wave count [n]: one channel, block align and byte rate recalculated for
    it. *)
Definition made_mono (s : Wavetable) (n : Z) : Wavetable :=
  let block := Z.quot (fmt_bits_p_sample s) 8 in
  set_wave_count (Some n)
    (set_fmt_bytes_p_sec (fmt_sample_rate s * block)
       (set_fmt_bytes_p_block block (set_fmt_channels 1 s))).

(** The slices of [smp] in cycles of [b] bytes, as the slicer returns them
    for a positive cycle length. *)
Definition cycles_of (b : nat) (smp : bytes) : list bytes :=
  map (fun k => firstn b (skipn (k * b) smp))
    (seq 0 (Z.to_nat ((len smp + Z.of_nat b - 1) / Z.of_nat b))).

(** A list of cycles of [b] bytes: every one but the last has [b] bytes,
    the last one has at least one byte and at most [b]. *)
Fixpoint chunked (b : nat) (cycles : list bytes) : Prop :=
  match cycles with
  | [] => True
  | x :: rest =>
      match rest with
      | [] => (0 < length x <= b)%nat
      | _ :: _ => length x = b /\ chunked b rest
      end
  end.

(** The outcome [o] is a return, or one of the exceptions [allowed]. *)
Definition returns_or_raises {A} (allowed : list exn) (o : outcome A) : Prop :=
  match o with
  | Returned _ => True
  | Raised e => In e allowed
  | OutOfFuel => False
  end.

(* ===================================================================== *)
(** ** Facts about the primitives *)
(* ===================================================================== *)

Section Bits.

(** The flag tests [flags & 2^k != 0] read bit [k] of the flags. *)
Variable flags : Z.

Lemma land_pow2_testbit (k : Z) :
  0 <= k -> negb (Z.land flags (2 ^ k) =? 0) = Z.testbit flags k.
Proof.
  intros Hk.
  destruct (Z.testbit flags k) eqn:Hb.
  - apply negb_true_iff, Z.eqb_neq. intros H0.
    assert (Ht : Z.testbit (Z.land flags (2 ^ k)) k = true).
    { rewrite Z.land_spec, Hb, Z.pow2_bits_true by assumption. reflexivity. }
    rewrite H0, Z.bits_0 in Ht. discriminate.
  - apply negb_false_iff, Z.eqb_eq, Z.bits_inj'. intros n Hn.
    rewrite Z.land_spec, Z.bits_0, Z.pow2_bits_eqb by assumption.
    destruct (Z.eqb_spec k n) as [->|_].
    + rewrite Hb. reflexivity.
    + apply andb_false_r.
Qed.

Lemma is_sample_bit : is_sample flags = Z.testbit flags 0.
Proof. exact (land_pow2_testbit 0 ltac:(lia)). Qed.

Lemma is_looped_bit : is_looped flags = Z.testbit flags 1.
Proof. exact (land_pow2_testbit 1 ltac:(lia)). Qed.

Lemma is_int16_bit : is_int16 flags = Z.testbit flags 2.
Proof. exact (land_pow2_testbit 2 ltac:(lia)). Qed.

Lemma is_full_range_bit : is_full_range flags = Z.testbit flags 3.
Proof. exact (land_pow2_testbit 3 ltac:(lia)). Qed.

End Bits.

(** *** Symbolic execution of method bodies *)

Ltac norm_nat :=
  repeat match goal with
  | |- context [Z.to_nat (Zpos ?p)] =>
      let n := eval vm_compute in (Z.to_nat (Zpos p)) in
      change (Z.to_nat (Zpos p)) with n
  end.

Ltac run :=
  cbv [bind ret raise lift attr assign log_msg open_rb open_wb read read_all
       read_int seek_cur seek_set seek_end tell write write_int contents
       self disk cursor logged when_given
       data_samples fmt_audio_format fmt_bits_p_sample fmt_bytes_p_block
       fmt_bytes_p_sec fmt_channels fmt_sample_rate wave_count wave_interp
       wave_size wave_vendor
       set_data_samples set_fmt_audio_format set_fmt_bits_p_sample
       set_fmt_bytes_p_block set_fmt_bytes_p_sec set_fmt_channels
       set_fmt_sample_rate set_wave_count set_wave_interp set_wave_size
       set_wave_vendor
       arg_fmt_audio_format arg_fmt_bits_p_sample arg_fmt_bytes_p_block
       arg_fmt_bytes_p_sec arg_fmt_channels arg_fmt_sample_rate arg_wave_count
       arg_wave_interp arg_wave_size arg_wave_vendor arg_recalc];
  norm_nat;
  cbn [firstn skipn length app Nat.add Z.ltb Z.compare fst snd].

Ltac explode_list l H :=
  repeat (destruct l as [|? l]; cbn [length] in H; try discriminate H);
  clear H.

Lemma mul_eqb_0_l (z k : Z) : k <> 0 -> (z * k =? 0) = (z =? 0).
Proof.
  intros Hk. destruct (Z.eqb_spec z 0) as [->|Hz].
  - reflexivity.
  - apply Z.eqb_neq. nia.
Qed.

(** *** Closed forms of the small methods *)

Lemma when_given_run {A} (x : option A) (f : A -> Wavetable -> Wavetable)
    s d c l :
  when_given x f (mkWorld s d c l) = (Returned tt, mkWorld (given x f s) d c l).
Proof. destruct x; reflexivity. Qed.

Lemma calc_wave_count_run (w : World) :
  calc_wave_count w =
    match data_samples (self w), wave_size (self w) with
    | Some smp, Some z =>
        if z * fmt_bytes_p_block (self w) =? 0
        then (Raised ZeroDivisionError, w)
        else (Returned (Z.quot (len smp) (z * fmt_bytes_p_block (self w))), w)
    | _, _ => (Raised TypeError, w)
    end.
Proof.
  destruct w as [[smp ? ? blk ? ? ? ? ? ws ?] d c l].
  unfold calc_wave_count, int_truediv. run.
  destruct smp as [smp|]; [|reflexivity].
  destruct ws as [z|]; [|reflexivity].
  cbv beta iota. destruct (z * blk =? 0); reflexivity.
Qed.

Lemma set_data_run (a : set_data_args) s d c l :
  set_data a (mkWorld s d c l) =
    if recalc_requested a then
      let s1 := with_block_recalculated (set_fields a s) in
      match calc_wave_count (mkWorld s1 d c l) with
      | (Returned n, _) => (Returned tt, mkWorld (set_wave_count (Some n) s1) d c l)
      | (Raised e, _) => (Raised e, mkWorld s1 d c l)
      | (OutOfFuel, _) => (OutOfFuel, mkWorld s1 d c l)
      end
    else (Returned tt, mkWorld (set_fields a s) d c l).
Proof.
  unfold set_data.
  repeat (unfold bind at 1; rewrite when_given_run; cbv beta iota).
  fold (set_fields a s). fold (recalc_requested a).
  destruct (recalc_requested a); [|reflexivity].
  generalize (set_fields a s).
  intros [smp af bits blk sec ch rate wc wi ws v].
  unfold calc_fmt_bytes_p_block, calc_fmt_bytes_p_sec, calc_wave_count,
    with_block_recalculated, int_truediv.
  run. cbn [Z.eqb].
  destruct smp as [smp|]; [|reflexivity].
  destruct ws as [z|]; [|reflexivity].
  cbv beta iota. destruct (z * _ =? 0); reflexivity.
Qed.

(** *** The slicer *)

Lemma slicer_run (w : World) :
  slicer w =
    match data_samples (self w) with
    | None => (Raised TypeError, wave_size_defaulted w)
    | Some smp =>
        match range 0 (len smp) (cycle_bytes (self w)) with
        | Exc e => (Raised e, wave_size_defaulted w)
        | Val starts =>
            (Returned (map (fun i => slice smp i (i + cycle_bytes (self w))) starts),
             wave_size_defaulted w)
        end
    end.
Proof.
  destruct w as [[smp af bits blk sec ch rate wc wi ws v] d c l].
  unfold slicer, wave_size_defaulted, cycle_bytes.
  destruct ws as [z|]; run; (destruct smp as [smp|]; [|reflexivity]);
    cbv beta iota; (destruct (range 0 (len smp) _); reflexivity).
Qed.

Lemma range_from_0 (stop step : Z) :
  0 < step -> 0 <= stop ->
  range 0 stop step
  = Val (map (fun k => 0 + Z.of_nat k * step)
           (seq 0 (Z.to_nat ((stop + step - 1) / step)))).
Proof.
  intros Hstep Hstop. unfold range.
  destruct (Z.eqb_spec step 0); [lia|].
  destruct (Z.ltb_spec 0 step); [|lia].
  destruct (Z.ltb_spec 0 stop).
  - rewrite Z.sub_0_r. reflexivity.
  - assert (stop = 0) by lia. subst stop.
    rewrite Z.div_small by lia. reflexivity.
Qed.

Lemma cycle_count (B N r : Z) :
  0 < B -> 0 <= N -> 0 <= r < B ->
  (B * N + r + B - 1) / B = if r =? 0 then N else N + 1.
Proof.
  intros HB HN Hr.
  replace (B * N + r + B - 1) with (N * B + (r + B - 1)) by ring.
  rewrite Z.div_add_l by lia.
  destruct (Z.eqb_spec r 0) as [->|Hr0].
  - rewrite Z.div_small by lia. lia.
  - assert (E : (r + B - 1) / B = 1)
      by (symmetry; apply (Z.div_unique (r + B - 1) B 1 (r - 1)); lia).
    rewrite E. reflexivity.
Qed.

Lemma nth_error_seq_0 (n k : nat) :
  nth_error (seq 0 n) k = if (k <? n)%nat then Some k else None.
Proof.
  destruct (Nat.ltb_spec k n) as [H|H].
  - rewrite (nth_error_nth' _ 0%nat) by (rewrite length_seq; exact H).
    rewrite seq_nth by exact H. reflexivity.
  - apply nth_error_None. rewrite length_seq. exact H.
Qed.

Lemma firstn_plus {A} (a c : nat) (l : list A) :
  firstn (a + c) l = firstn a l ++ firstn c (skipn a l).
Proof.
  revert l. induction a as [|a IH]; intros l.
  - reflexivity.
  - destruct l as [|x l].
    + cbn. rewrite firstn_nil. reflexivity.
    + cbn. rewrite IH. reflexivity.
Qed.

Lemma concat_chunks {A} (l : list A) (b n start : nat) :
  concat (map (fun k => firstn b (skipn (k * b) l)) (seq start n))
  = firstn (n * b) (skipn (start * b) l).
Proof.
  revert start. induction n as [|n IH]; intros start.
  - reflexivity.
  - cbn [seq map concat]. rewrite IH.
    replace (S n * b)%nat with (b + n * b)%nat by lia.
    rewrite firstn_plus, skipn_skipn.
    replace (S start * b)%nat with (b + start * b)%nat by lia.
    reflexivity.
Qed.

Lemma slice_chunk (smp : bytes) (B : Z) (k : nat) :
  0 < B ->
  slice smp (0 + Z.of_nat k * B) (0 + Z.of_nat k * B + B)
  = firstn (Z.to_nat B) (skipn (k * Z.to_nat B) smp).
Proof.
  intros HB. unfold slice.
  replace (Z.to_nat (0 + Z.of_nat k * B + B) - Z.to_nat (0 + Z.of_nat k * B))%nat
    with (Z.to_nat B) by nia.
  replace (Z.to_nat (0 + Z.of_nat k * B)) with (k * Z.to_nat B)%nat by nia.
  reflexivity.
Qed.

(** With a positive cycle length the slicer returns the chunks of
    [cycle_bytes] bytes at the offsets [0, B, 2B, ...] below the length. *)
Lemma slicer_positive (w : World) (smp : bytes) :
  data_samples (self w) = Some smp ->
  0 < cycle_bytes (self w) ->
  slicer w =
    (Returned
       (map (fun k => firstn (Z.to_nat (cycle_bytes (self w)))
                        (skipn (k * Z.to_nat (cycle_bytes (self w))) smp))
          (seq 0 (Z.to_nat ((len smp + cycle_bytes (self w) - 1)
                            / cycle_bytes (self w))))),
     wave_size_defaulted w).
Proof.
  intros Hs HB. rewrite slicer_run, Hs.
  rewrite range_from_0 by (unfold len; lia).
  rewrite map_map. f_equal. f_equal.
  apply map_ext. intros k. apply slice_chunk. exact HB.
Qed.

(** *** Deduplication *)

Lemma bytes_eqb_eq (a b : bytes) : bytes_eqb a b = true <-> a = b.
Proof.
  revert b. induction a as [|x a IH]; intros [|y b]; cbn; try (split; congruence).
  rewrite andb_true_iff, IH. split.
  - intros [Hxy ->]. apply byte_dec_bl in Hxy. congruence.
  - intros E. injection E as -> ->. split; [apply byte_dec_lb|]; reflexivity.
Qed.

Lemma dedupe_step_last (pre : list bytes) (p c : bytes) :
  dedupe_step (pre ++ [p]) c
  = if list_eq_dec byte_eq_dec c p then pre ++ [p] else (pre ++ [p]) ++ [c].
Proof.
  unfold dedupe_step. rewrite last_last.
  destruct (list_eq_dec byte_eq_dec c p) as [E|E].
  - apply bytes_eqb_eq in E. rewrite E. reflexivity.
  - destruct (bytes_eqb c p) eqn:Eb; [|reflexivity].
    apply bytes_eqb_eq in Eb. contradiction.
Qed.

(** The loop of [deduplicator] computes the kept slices. *)
Lemma fold_dedupe_step (rest pre : list bytes) (p : bytes) :
  fold_left dedupe_step rest (pre ++ [p]) = pre ++ p :: keep_after p rest.
Proof.
  revert pre p. induction rest as [|c rest IH]; intros pre p; cbn [fold_left keep_after].
  - reflexivity.
  - rewrite dedupe_step_last.
    destruct (list_eq_dec byte_eq_dec c p) as [E|E].
    + apply IH.
    + rewrite IH, <- app_assoc. reflexivity.
Qed.

Lemma deduplicator_run (w : World) :
  deduplicator w =
    match slicer w with
    | (Returned [], w1) => (Raised IndexError, w1)
    | (Returned (first :: rest), w1) =>
        let kept := first :: keep_after first rest in
        if (length (first :: rest) =? length kept)%nat
        then (Returned true,
              mkWorld (self w1) (disk w1) (cursor w1)
                (logged w1 ++ [(INFO, "No duplicates found."%string)]))
        else (Returned false,
              mkWorld
                (set_wave_count (Some (len kept))
                   (set_wave_interp 0
                      (set_data_samples (Some (concat kept)) (self w1))))
                (disk w1) (cursor w1)
                (logged w1
                 ++ [(INFO, "Set data_samples:"%string);
                     (INFO, "Set clm data:"%string);
                     (INFO, ("    wave_interp: " ++ str 0)%string);
                     (INFO, ("    wave_count: " ++ str (len kept))%string)]))
    | (Raised e, w1) => (Raised e, w1)
    | (OutOfFuel, w1) => (OutOfFuel, w1)
    end.
Proof.
  unfold deduplicator. unfold bind at 1.
  destruct (slicer w) as [[cycles|e|] [s1 d1 c1 l1]]; try reflexivity.
  destruct cycles as [|first rest]; [reflexivity|].
  unfold bind at 1. unfold ret at 1. cbn [tl].
  change [first] with ([] ++ [first]).
  rewrite (fold_dedupe_step rest [] first). cbn [app].
  cbv zeta.
  destruct (length (first :: rest) =? length (first :: keep_after first rest))%nat.
  - reflexivity.
  - destruct s1. run. rewrite <- !app_assoc. reflexivity.
Qed.

(** *** Integers as little-endian bytes *)

Lemma Z_of_byte_of_Z (x : Z) : Z_of_byte (byte_of_Z x) = x mod 256.
Proof.
  unfold Z_of_byte, byte_of_Z.
  assert (Hm : 0 <= x mod 256 < 256) by (apply Z.mod_pos_bound; lia).
  destruct (Byte.of_N (Z.to_N (x mod 256))) as [b|] eqn:E.
  - apply Byte.to_of_N in E. rewrite E. apply Z2N.id. lia.
  - apply Byte.of_N_None_iff in E. lia.
Qed.

Lemma int_from_le_bytes (n : nat) (x : Z) :
  0 <= x < 256 ^ Z.of_nat n -> int_from_bytes (le_bytes n x) = x.
Proof.
  revert x. induction n as [|n IH]; intros x Hx.
  - cbn in *. lia.
  - cbn [le_bytes int_from_bytes].
    rewrite Z_of_byte_of_Z, IH.
    + symmetry. rewrite Z.add_comm. apply Z.div_mod. lia.
    + rewrite Nat2Z.inj_succ, Z.pow_succ_r in Hx by lia.
      split; [apply Z.div_pos; lia|].
      apply Z.div_lt_upper_bound; lia.
Qed.

Lemma length_le_bytes (n : nat) (x : Z) : length (le_bytes n x) = n.
Proof. revert x. induction n as [|n IH]; intros x; cbn; [|rewrite IH]; reflexivity. Qed.

Lemma int_to_bytes_ok (x : Z) (n : nat) :
  0 <= x < 256 ^ Z.of_nat n -> int_to_bytes x n = Val (le_bytes n x).
Proof.
  intros Hx. unfold int_to_bytes.
  destruct (Z.ltb_spec x 0); [lia|].
  destruct (Z.leb_spec (256 ^ Z.of_nat n) x); [lia|]. reflexivity.
Qed.

(** *** Powers of two *)

(** The test of [wt_write] accepts exactly the powers of two. *)
Lemma bad_wave_size_false (z : Z) :
  bad_wave_size z = false <-> exists k, 0 <= k /\ z = 2 ^ k.
Proof.
  unfold bad_wave_size. rewrite orb_false_iff, negb_false_iff, !Z.eqb_eq, Z.eqb_neq.
  split.
  - intros [Hland Hz].
    assert (Hpos : 0 < z).
    { destruct (Z.lt_trichotomy z 0) as [Hneg|[E|Hp]]; [|contradiction|exact Hp].
      assert (Z.land z (z - 1) < 0) by (apply Z.land_neg; lia). lia. }
    exists (Z.log2 z). split; [apply Z.log2_nonneg|].
    destruct (Z.log2_spec z Hpos) as [Hlo Hhi].
    destruct (Z.eq_dec z (2 ^ Z.log2 z)) as [E|E]; [exact E|].
    exfalso.
    assert (Hlog : Z.log2 (z - 1) = Z.log2 z).
    { apply Z.log2_unique; [apply Z.log2_nonneg|].
      lia. }
    assert (Hb1 : Z.testbit z (Z.log2 z) = true) by (apply Z.bit_log2; lia).
    assert (Hb2 : Z.testbit (z - 1) (Z.log2 z) = true).
    { rewrite <- Hlog. apply Z.bit_log2.
      pose proof (Z.pow_pos_nonneg 2 (Z.log2 z) ltac:(lia) (Z.log2_nonneg z)). lia. }
    assert (Hb : Z.testbit (Z.land z (z - 1)) (Z.log2 z) = true)
      by (rewrite Z.land_spec, Hb1, Hb2; reflexivity).
    rewrite Hland, Z.bits_0 in Hb. discriminate.
  - intros (k & Hk & ->). split.
    + apply Z.bits_inj'. intros n Hn.
      rewrite Z.land_spec, Z.bits_0, Z.pow2_bits_eqb by assumption.
      destruct (Z.eqb_spec k n) as [->|_]; [|reflexivity].
      replace (2 ^ n - 1) with (Z.ones n) by (rewrite Z.ones_equiv; lia).
      rewrite Z.ones_spec_high by lia. reflexivity.
    + pose proof (Z.pow_pos_nonneg 2 k ltac:(lia) Hk). lia.
Qed.

(** *** The flags on the way out *)

Lemma wt_set_flag_testbits (s : Wavetable) (sample looped full_range : bool) :
  let flag := wt_set_flag s sample looped full_range in
  Z.testbit flag 3 = (fmt_bits_p_sample s =? 16) && full_range
  /\ Z.testbit flag 2 = (fmt_bits_p_sample s =? 16)
  /\ Z.testbit flag 1 = looped
  /\ Z.testbit flag 0 = sample
  /\ 0 <= flag < 16.
Proof.
  unfold wt_set_flag.
  destruct (fmt_bits_p_sample s =? 16), sample, looped, full_range;
    cbv; repeat split; (reflexivity || discriminate).
Qed.

(** *** WT encode *)

Ltac run_write := run; cbn [le_bytes repeat Nat.sub]; run.

Lemma wt_flag_to_bytes (s : Wavetable) (sample looped full_range : bool) :
  int_to_bytes (wt_set_flag s sample looped full_range) 2
  = Val (le_bytes 2 (wt_set_flag s sample looped full_range)).
Proof.
  apply int_to_bytes_ok.
  pose proof (wt_set_flag_testbits s sample looped full_range) as H.
  cbv zeta in H. change (256 ^ Z.of_nat 2) with 65536. lia.
Qed.

Lemma skipn_length_nil {A} (n : nat) : skipn n (@nil A) = [].
Proof. destruct n; reflexivity. Qed.

Lemma wt_write_written (sample looped full_range : bool) s d c l z cnt smp :
  fmt_channels s = 1 -> wave_size s = Some z -> bad_wave_size z = false ->
  0 <= z < 2 ^ 32 -> wave_count s = Some cnt -> 0 <= cnt < 2 ^ 16 ->
  data_samples s = Some smp ->
  wt_write sample looped full_range (mkWorld s d c l)
  = (Returned tt,
     mkWorld s (Some (wt_container z cnt (wt_set_flag s sample looped full_range) smp))
       (12 + length smp) (l ++ [(INFO, "Writing"%string)])).
Proof.
  intros Hch Hws Hbad Hz Hwc Hc Hs.
  destruct s as [smp' af bits blk sec ch rate wc wi ws v].
  cbn [fmt_channels wave_size wave_count data_samples] in *. subst.
  unfold wt_write, wt_container. run. cbn [Z.eqb Pos.eqb negb].
  rewrite Hbad. run_write.
  rewrite (int_to_bytes_ok z 4) by exact Hz. run_write.
  rewrite (int_to_bytes_ok cnt 2) by exact Hc. run_write.
  rewrite wt_flag_to_bytes. run_write.
  rewrite skipn_length_nil, app_nil_r. reflexivity.
Qed.

(** *** WT decode *)

Lemma wt_parse_flags_closed (flags : Z) (w : World) :
  wt_parse_flags flags w =
    if Z.testbit flags 0 || Z.testbit flags 1
    then (Returned true,
          mkWorld (self w) (disk w) (cursor w)
            (logged w ++ [(WARNING, "Wavetable is a sample."%string)]))
    else (Returned false,
          mkWorld (set_fmt_bits_p_sample (if Z.testbit flags 2 then 16 else 32) (self w))
            (disk w) (cursor w) (logged w)).
Proof.
  unfold wt_parse_flags.
  rewrite is_sample_bit, is_looped_bit, is_int16_bit.
  destruct (Z.testbit flags 0); [reflexivity|].
  destruct (Z.testbit flags 1); [reflexivity|].
  destruct (Z.testbit flags 2), (is_full_range flags); reflexivity.
Qed.

Lemma wt_import_closed (s : Wavetable) (c : nat) (l : list (level * string))
    (tag size count flags samples : bytes) :
  length tag = 4%nat -> length size = 4%nat ->
  length count = 2%nat -> length flags = 2%nat ->
  let file := tag ++ size ++ count ++ flags ++ samples in
  let f := int_from_bytes flags in
  let ws := int_from_bytes size in
  let wc := int_from_bytes count in
  wt_import (mkWorld s (Some file) c l) =
    if Z.testbit f 0 || Z.testbit f 1
    then (Returned true,
          mkWorld (set_wave_count (Some wc) (set_wave_size (Some ws) s))
            (Some file) 12
            (l ++ [(INFO, "Reading"%string); (WARNING, "Wavetable is a sample."%string)]))
    else (if ws =? 0 then Raised ZeroDivisionError else Returned false,
          mkWorld (wt_decoded s ws wc (Z.testbit f 2) samples)
            (Some file) (length file)
            (l ++ [(INFO, "Reading"%string);
                   (INFO, "Assume 'fmt ' chunk data, wave_interp = 0, and add wave_vendor b'wavetable (wavetabletools)'."%string)])).
Proof.
  intros Ht Hs Hc Hf.
  explode_list tag Ht. explode_list size Hs. explode_list count Hc. explode_list flags Hf.
  intros file f ws wc. subst file. destruct s.
  unfold wt_import. run.
  rewrite wt_parse_flags_closed. fold f ws wc.
  destruct (Z.testbit f 0 || Z.testbit f 1).
  - run. rewrite <- app_assoc. reflexivity.
  - run. unfold set_data, wt_defaults, calc_fmt_bytes_p_block, calc_fmt_bytes_p_sec, calc_wave_count, wt_decoded. run.
    cbn [truthy andb orb Z.eqb negb].
    rewrite <- app_assoc.
    destruct (Z.testbit f 2).
    + change (int_truediv (1 * 16) 8) with (@Val Z 2). run.
      unfold int_truediv. rewrite mul_eqb_0_l by discriminate.
      destruct (ws =? 0); reflexivity.
    + change (int_truediv (1 * 32) 8) with (@Val Z 4). run.
      unfold int_truediv. rewrite mul_eqb_0_l by discriminate.
      destruct (ws =? 0); reflexivity.
Qed.

(** *** WAVE encode *)

Lemma bind_attr {A B} (f : Wavetable -> A) (k : A -> Py B) (w : World) :
  bind (attr f) k w = k (f (self w)) w.
Proof. reflexivity. Qed.

Lemma bind_log {B} (lv : level) (m : string) (k : unit -> Py B) s d c l :
  bind (log_msg lv m) k (mkWorld s d c l) = k tt (mkWorld s d c (l ++ [(lv, m)])).
Proof. reflexivity. Qed.

Lemma bind_open_wb {B} (k : unit -> Py B) s d c l :
  bind open_wb k (mkWorld s d c l) = k tt (mkWorld s (Some []) (length (@nil byte)) l).
Proof. reflexivity. Qed.

Lemma bind_write_end {B} (bs : bytes) (k : unit -> Py B) s d l :
  bind (write bs) k (mkWorld s (Some d) (length d) l)
  = k tt (mkWorld s (Some (d ++ bs)) (length (d ++ bs)) l).
Proof.
  unfold bind, write. cbn [contents disk cursor self logged].
  rewrite firstn_all, Nat.sub_diag, skipn_all2 by lia.
  cbn [repeat app]. rewrite app_nil_r, length_app. reflexivity.
Qed.

Lemma bind_write_int_end {B} (x : Z) (n : nat) (k : unit -> Py B) s d l :
  0 <= x < 256 ^ Z.of_nat n ->
  bind (write_int x n) k (mkWorld s (Some d) (length d) l)
  = k tt (mkWorld s (Some (d ++ le_bytes n x)) (length (d ++ le_bytes n x)) l).
Proof.
  intros Hx. unfold write_int. unfold bind at 1. unfold bind at 1.
  rewrite int_to_bytes_ok by exact Hx. cbn [lift]. unfold ret at 1.
  exact (bind_write_end (le_bytes n x) k s d l).
Qed.

Lemma backpatch (a z tail : bytes) s c l :
  length a = 4%nat -> length z = 4%nat ->
  0 <= len (a ++ z ++ tail) - 8 < 2 ^ 32 ->
  (seek_end ;; p <- tell ;; seek_set 4 ;; write_int (p - 8) 4)
    (mkWorld s (Some (a ++ z ++ tail)) c l)
  = (Returned tt,
     mkWorld s (Some (a ++ le_bytes 4 (len (a ++ z ++ tail) - 8) ++ tail)) 8 l).
Proof.
  intros Ha Hz Hr.
  unfold bind at 1. unfold seek_end at 1. cbn [contents disk self cursor logged].
  unfold bind at 1. unfold tell at 1. cbn [cursor].
  unfold bind at 1. unfold seek_set at 1. cbn [Z.ltb Z.compare self disk cursor logged].
  unfold write_int, bind.
  change (Z.of_nat (length (a ++ z ++ tail))) with (len (a ++ z ++ tail)).
  rewrite int_to_bytes_ok by exact Hr. cbn [lift]. unfold ret, write.
  cbn [contents disk self cursor logged].
  generalize (len (a ++ z ++ tail) - 8) as x. intros x.
  explode_list a Ha. explode_list z Hz.
  norm_nat. cbn [le_bytes length app firstn skipn Nat.add Nat.sub repeat].
  reflexivity.
Qed.

Lemma wav_write_written s d c l smp :
  data_samples s = Some smp -> fmt_fits s ->
  len (clm_payload s) < 2 ^ 32 -> len smp < 2 ^ 32 ->
  36 + (8 + len (clm_payload s)) + (8 + len smp) - 8 < 2 ^ 32 ->
  wav_write (mkWorld s d c l)
  = (Returned tt, mkWorld s (Some (wav_container s smp)) 8 (l ++ wav_write_log)).
Proof.
  intros Hs (Haf & Hch & Hsr & Hps & Hblk & Hbits) Hclm Hsmp Htot.
  assert (Hclm0 : 0 <= len (clm_payload s)) by (unfold len; lia).
  assert (Hsmp0 : 0 <= len smp) by (unfold len; lia).
  unfold wav_write.
  rewrite bind_attr. cbn [self].
  rewrite bind_log, bind_open_wb.
  rewrite bind_log, !bind_write_end.
  rewrite bind_log, !bind_write_end.
  do 6 (rewrite bind_attr; cbn [self]; rewrite bind_write_int_end by assumption).
  rewrite bind_log, bind_write_end.
  rewrite bind_write_int_end by (change (256 ^ Z.of_nat 4) with (2 ^ 32); lia).
  rewrite bind_write_end.
  rewrite bind_log, bind_write_end.
  rewrite bind_attr. cbn [self]. rewrite Hs.
  unfold bind at 1. unfold ret at 1.
  rewrite bind_write_int_end by (change (256 ^ Z.of_nat 4) with (2 ^ 32); lia).
  rewrite bind_write_end, bind_log.
  rewrite <- !app_assoc. cbn [app].
  match goal with
  | |- _ {| self := _; disk := Some (?r0 :: ?r1 :: ?r2 :: ?r3 :: ?z0 :: ?z1 :: ?z2 :: ?z3 :: ?tail);
            cursor := _; logged := _ |} = _ =>
      change (r0 :: r1 :: r2 :: r3 :: z0 :: z1 :: z2 :: z3 :: tail)
        with ([r0; r1; r2; r3] ++ [z0; z1; z2; z3] ++ tail);
      assert (Hlen : len ([r0; r1; r2; r3] ++ [z0; z1; z2; z3] ++ tail) - 8
                     = 36 + (8 + len (clm_payload s)) + (8 + len smp) - 8)
  end.
  { unfold len. cbn [app length].
    repeat (rewrite length_app || rewrite length_le_bytes || cbn [length]). lia. }
  rewrite backpatch by (try reflexivity; rewrite Hlen; lia).
  rewrite Hlen. reflexivity.
Qed.

(** *** WAVE decode, chunk by chunk *)

Lemma skipn_at {A} (d rem : list A) (c n : nat) :
  skipn c d = rem -> skipn (c + n) d = skipn n rem.
Proof. intros <-. rewrite skipn_skipn, Nat.add_comm. reflexivity. Qed.

Lemma skipn_app_length {A} (a b : list A) : skipn (length a) (a ++ b) = b.
Proof. rewrite skipn_app, skipn_all, Nat.sub_diag. reflexivity. Qed.

Lemma firstn_app_length {A} (a b : list A) : firstn (length a) (a ++ b) = a.
Proof. rewrite firstn_app, firstn_all, Nat.sub_diag. cbn. apply app_nil_r. Qed.

(** Reading from a handle whose remaining bytes are [rem]. *)
Ltac stream Hsk :=
  repeat (first [ rewrite Hsk
                | rewrite (skipn_at _ _ _ _ Hsk)
                | progress (cbn [firstn skipn length app])
                | progress (rewrite <- !Nat.add_assoc; cbn [Nat.add]) ]).

Ltac dispatch :=
  unfold wav_parse_chunk;
  repeat match goal with
  | |- context [is_riff ?t] =>
      let b := eval vm_compute in (is_riff t) in change (is_riff t) with b
  | |- context [is_fmt ?t] =>
      let b := eval vm_compute in (is_fmt t) in change (is_fmt t) with b
  | |- context [is_clm ?t] =>
      let b := eval vm_compute in (is_clm t) in change (is_clm t) with b
  | |- context [is_data ?t] =>
      let b := eval vm_compute in (is_data t) in change (is_data t) with b
  end;
  cbv iota.

Lemma seek_cur_forward (k : Z) s d c l :
  0 <= k ->
  seek_cur k (mkWorld s d c l) = (Returned tt, mkWorld s d (c + Z.to_nat k) l).
Proof.
  intros Hk. unfold seek_cur. cbn [self disk cursor logged].
  destruct (Z.ltb_spec (Z.of_nat c + k) 0); [lia|].
  rewrite Z2Nat.inj_add, Nat2Z.id by lia. reflexivity.
Qed.

Lemma bind_seek_cur_forward {B} (k : Z) (f : unit -> Py B) s d c l :
  0 <= k ->
  bind (seek_cur k) f (mkWorld s d c l) = f tt (mkWorld s d (c + Z.to_nat k) l).
Proof. intros Hk. unfold bind. rewrite seek_cur_forward by exact Hk. reflexivity. Qed.

Lemma wav_parse_chunk_riff s d c l (sz rest : bytes) :
  skipn c d = sz ++ [x57; x41; x56; x45] ++ rest -> length sz = 4%nat ->
  wav_parse_chunk [x52; x49; x46; x46] (mkWorld s (Some d) c l)
  = (Returned false,
     mkWorld s (Some d) (c + 8)
       (l ++ [(INFO, "    Found 'riff' chunk."%string)])).
Proof.
  intros Hsk Hsz. explode_list sz Hsz.
  dispatch. rewrite bind_log, bind_seek_cur_forward by discriminate.
  run. stream Hsk.
  change (bytes_eqb _ _) with true. reflexivity.
Qed.

Lemma wav_parse_chunk_fmt s d c l (sz af ch sr ps blk bits rest : bytes) :
  skipn c d = sz ++ af ++ ch ++ sr ++ ps ++ blk ++ bits ++ rest ->
  length sz = 4%nat -> length af = 2%nat -> length ch = 2%nat ->
  length sr = 4%nat -> length ps = 4%nat -> length blk = 2%nat ->
  length bits = 2%nat ->
  wav_parse_chunk [x66; x6d; x74; x20] (mkWorld s (Some d) c l)
  = (Returned false,
     mkWorld
       (set_fmt_bits_p_sample (int_from_bytes bits)
          (set_fmt_bytes_p_block (int_from_bytes blk)
             (set_fmt_bytes_p_sec (int_from_bytes ps)
                (set_fmt_sample_rate (int_from_bytes sr)
                   (set_fmt_channels (int_from_bytes ch)
                      (set_fmt_audio_format (int_from_bytes af) s))))))
       (Some d) (c + 20)
       (l ++ [(INFO, "    Found 'fmt ' chunk."%string)])).
Proof.
  intros Hsk Hsz Haf Hch Hsr Hps Hblk Hbits.
  explode_list sz Hsz. explode_list af Haf. explode_list ch Hch.
  explode_list sr Hsr. explode_list ps Hps. explode_list blk Hblk.
  explode_list bits Hbits.
  dispatch. rewrite bind_log, bind_seek_cur_forward by discriminate.
  destruct s.
  run. stream Hsk. reflexivity.
Qed.

Lemma wav_parse_chunk_clm s d c l (sz clm_data rest : bytes) (ws wi : Z) :
  skipn c d = sz ++ clm_data ++ rest -> length sz = 4%nat ->
  int_from_bytes sz = len clm_data ->
  int_of_bytes (slice clm_data 3 7) = Val ws ->
  int_of_bytes (slice clm_data 8 9) = Val wi ->
  wav_parse_chunk [x63; x6c; x6d; x20] (mkWorld s (Some d) c l)
  = (Returned false,
     mkWorld
       (set_wave_vendor (slice_from clm_data 17)
          (set_wave_interp wi (set_wave_size (Some ws) s)))
       (Some d) (c + (4 + length clm_data))
       (l ++ [(INFO, "    Found 'clm ' chunk."%string)])).
Proof.
  intros Hsk Hsz Hlen Hws Hwi.
  assert (Hn : Z.to_nat (int_from_bytes sz) = length clm_data)
    by (rewrite Hlen; apply Nat2Z.id).
  assert (Hrd : firstn 4 (skipn c d) = sz)
    by (rewrite Hsk, <- Hsz; apply firstn_app_length).
  assert (Hsk' : skipn (c + 4) d = clm_data ++ rest)
    by (rewrite (skipn_at _ _ _ _ Hsk), <- Hsz; apply skipn_app_length).
  dispatch. rewrite bind_log.
  unfold read_int. unfold bind at 1. unfold bind at 1. unfold read at 1.
  cbn [contents disk self cursor logged]. norm_nat. rewrite Hrd. unfold ret at 1.
  rewrite Hsz.
  unfold bind at 1. unfold read at 1. cbn [contents disk self cursor logged].
  rewrite Hn, Hsk', firstn_app_length, Hws. cbn [lift].
  unfold ret at 1. unfold bind at 1. unfold assign at 1.
  cbn [contents disk self cursor logged].
  rewrite Hwi. cbn [lift]. unfold bind at 1. unfold ret at 1.
  unfold bind at 1. unfold assign at 1. cbn [contents disk self cursor logged].
  unfold bind at 1. unfold assign at 1. cbn [contents disk self cursor logged].
  unfold ret. rewrite Nat.add_assoc. reflexivity.
Qed.

Lemma wav_parse_chunk_data_first s d c l (sz payload rest : bytes) :
  no_samples (data_samples s) = true ->
  skipn c d = sz ++ payload ++ rest -> length sz = 4%nat ->
  int_from_bytes sz = len payload ->
  wav_parse_chunk [x64; x61; x74; x61] (mkWorld s (Some d) c l)
  = (Returned false,
     mkWorld (set_data_samples (Some payload) s)
       (Some d) (c + (4 + length payload))
       (l ++ [(INFO, "    Found 'data' chunk."%string)])).
Proof.
  intros Hno Hsk Hsz Hlen.
  assert (Hn : Z.to_nat (int_from_bytes sz) = length payload)
    by (rewrite Hlen; apply Nat2Z.id).
  assert (Hrd : firstn 4 (skipn c d) = sz)
    by (rewrite Hsk, <- Hsz; apply firstn_app_length).
  assert (Hsk' : skipn (c + 4) d = payload ++ rest)
    by (rewrite (skipn_at _ _ _ _ Hsk), <- Hsz; apply skipn_app_length).
  dispatch.
  unfold read_int. unfold bind at 1. unfold bind at 1. unfold read at 1.
  cbn [contents disk self cursor logged]. norm_nat. rewrite Hrd. unfold ret at 1.
  rewrite Hsz, bind_attr. cbn [self]. rewrite Hno, bind_log.
  unfold bind at 1. unfold read at 1. cbn [contents disk self cursor logged].
  rewrite Hn, Hsk', firstn_app_length.
  unfold bind at 1. unfold assign at 1. cbn [contents disk self cursor logged].
  unfold ret. rewrite Nat.add_assoc. reflexivity.
Qed.

(** A [data] tag met when samples are already held: the size field is
    read, the payload is not, and the record stays as it is. *)
Lemma wav_parse_chunk_data_again s d c l :
  no_samples (data_samples s) = false ->
  wav_parse_chunk [x64; x61; x74; x61] (mkWorld s d c l)
  = (Returned false,
     mkWorld s d
       (c + length (firstn 4 (skipn c (contents (mkWorld s d c l)))))
       (l ++ [(WARNING, "    Other data tag skipped. Check if correct data was fetched."%string)])).
Proof.
  intros Hno. dispatch.
  unfold read_int. unfold bind at 1. unfold bind at 1. unfold read at 1.
  cbn [self disk cursor logged]. norm_nat. unfold ret at 1.
  rewrite bind_attr. cbn [self]. rewrite Hno. reflexivity.
Qed.

(** *** The chunk loop *)

Lemma wav_import_loop_chunk (fuel : nat) s d c l (tag rest : bytes) :
  skipn c d = tag ++ rest -> length tag = 4%nat ->
  wav_import_loop (S fuel) (mkWorld s (Some d) c l)
  = match wav_parse_chunk tag (mkWorld s (Some d) (c + 4) l) with
    | (Returned true, w') => (Returned true, w')
    | (Returned false, w') => wav_import_loop fuel w'
    | (Raised e, w') => (Raised e, w')
    | (OutOfFuel, w') => (OutOfFuel, w')
    end.
Proof.
  intros Hsk Htag.
  assert (Hrd : firstn 4 (skipn c d) = tag)
    by (rewrite Hsk, <- Htag; apply firstn_app_length).
  cbn [wav_import_loop]. unfold bind at 1. unfold read at 1.
  cbn [contents disk self cursor logged]. norm_nat. rewrite Hrd, Htag.
  cbn [Nat.eqb negb]. unfold bind.
  destruct (wav_parse_chunk tag _) as [[[|]|e|] w']; reflexivity.
Qed.

Lemma wav_import_loop_end (fuel : nat) s d c l :
  skipn c d = [] ->
  wav_import_loop (S fuel) (mkWorld s (Some d) c l)
  = (Returned false, mkWorld s (Some d) (c + 0) l).
Proof.
  intros Hsk. cbn [wav_import_loop]. unfold bind at 1. unfold read at 1.
  cbn [contents disk self cursor logged]. rewrite Hsk. reflexivity.
Qed.

(** *** What the chunk loop leaves alone *)

Lemma no_samples_false (dsm : option bytes) :
  no_samples dsm = false <-> exists smp, dsm = Some smp /\ smp <> [].
Proof.
  destruct dsm as [[|b smp]|]; cbn; split; try discriminate.
  - intros (smp & E & Hne). injection E as <-. contradiction.
  - intros _. exists (b :: smp). split; [reflexivity | discriminate].
  - intros (smp' & E & _). reflexivity.
  - intros (smp & E & _). discriminate.
Qed.

(** Once samples are held, no chunk changes them, whatever its tag and
    whatever its outcome. *)
Lemma wav_parse_chunk_keeps_samples (chunk_id : bytes) (w : World) :
  no_samples (data_samples (self w)) = false ->
  data_samples (self (snd (wav_parse_chunk chunk_id w)))
  = data_samples (self w).
Proof.
  intros Hno. destruct w as [s d c l]. cbn [self] in *.
  unfold wav_parse_chunk.
  destruct (is_riff chunk_id).
  { destruct s. run.
    destruct (Z.of_nat c + 4 <? 0); [reflexivity|].
    cbv beta iota. destruct (negb _); reflexivity. }
  destruct (is_fmt chunk_id).
  { destruct s. run.
    destruct (Z.of_nat c + 4 <? 0); reflexivity. }
  destruct (is_clm chunk_id).
  { destruct s. run.
    destruct (int_of_bytes (slice _ 3 7)); [|reflexivity]. cbv beta iota.
    destruct (int_of_bytes (slice _ 8 9)); reflexivity. }
  destruct (is_data chunk_id).
  { fold (wav_parse_chunk [x64; x61; x74; x61]).
    unfold read_int. unfold bind at 1. unfold bind at 1. unfold read at 1.
    cbn [self disk cursor logged]. unfold ret at 1.
    rewrite bind_attr. cbn [self]. rewrite Hno. reflexivity. }
  run. destruct (Z.of_nat c + -3 <? 0); reflexivity.
Qed.

Lemma wav_import_loop_keeps_samples (fuel : nat) (w : World) :
  no_samples (data_samples (self w)) = false ->
  data_samples (self (snd (wav_import_loop fuel w))) = data_samples (self w).
Proof.
  revert w. induction fuel as [|fuel IH]; intros w Hno.
  - reflexivity.
  - cbn [wav_import_loop]. unfold bind at 1. unfold read at 1.
    set (w1 := mkWorld (self w) (disk w) _ (logged w)).
    destruct (negb _); [reflexivity|].
    pose proof (wav_parse_chunk_keeps_samples
                  (firstn (Z.to_nat 4) (skipn (cursor w) (contents w))) w1 Hno) as Hk.
    unfold bind.
    destruct (wav_parse_chunk _ w1) as [[[|]|e|] w2]; cbn [snd fst self] in *;
      try exact Hk.
    rewrite IH by (rewrite Hk; exact Hno). exact Hk.
Qed.

(** *** The chunk loop terminates *)

Lemma wav_parse_chunk_progress (chunk_id : bytes) (w : World) :
  fst (wav_parse_chunk chunk_id w) <> OutOfFuel
  /\ disk (snd (wav_parse_chunk chunk_id w)) = disk w
  /\ (cursor w <= cursor (snd (wav_parse_chunk chunk_id w)) + 3)%nat.
Proof.
  destruct w as [s d c l]. unfold wav_parse_chunk.
  destruct (is_riff chunk_id).
  { destruct s. run.
    destruct (Z.ltb_spec (Z.of_nat c + 4) 0);
      [cbn [fst snd disk cursor]; repeat split; first [discriminate | reflexivity | lia]|].
    cbv beta iota. destruct (negb _); cbn [fst snd disk cursor];
      repeat split; first [discriminate | reflexivity | lia]. }
  destruct (is_fmt chunk_id).
  { destruct s. run.
    destruct (Z.ltb_spec (Z.of_nat c + 4) 0); cbn [fst snd disk cursor];
      repeat split; first [discriminate | reflexivity | lia]. }
  destruct (is_clm chunk_id).
  { destruct s. run.
    destruct (int_of_bytes (slice _ 3 7));
      [|cbn [fst snd disk cursor]; repeat split; first [discriminate | reflexivity | lia]].
    cbv beta iota.
    destruct (int_of_bytes (slice _ 8 9)); cbn [fst snd disk cursor];
      repeat split; first [discriminate | reflexivity | lia]. }
  destruct (is_data chunk_id).
  { destruct s. run.
    destruct (no_samples _); cbn [fst snd disk cursor];
      repeat split; first [discriminate | reflexivity | lia]. }
  run. destruct (Z.ltb_spec (Z.of_nat c + -3) 0); cbn [fst snd disk cursor];
    repeat split; first [discriminate | reflexivity | lia].
Qed.

Lemma wav_import_loop_total (fuel : nat) (w : World) :
  (length (contents w) - cursor w < fuel)%nat ->
  fst (wav_import_loop fuel w) <> OutOfFuel.
Proof.
  revert w. induction fuel as [|fuel IH]; intros w Hfuel; [lia|].
  cbn [wav_import_loop]. unfold bind at 1. unfold read at 1.
  set (got := firstn (Z.to_nat 4) (skipn (cursor w) (contents w))).
  set (w1 := mkWorld (self w) (disk w) (cursor w + length got) (logged w)).
  destruct (Nat.eqb_spec (length got) 4) as [Hgot|Hgot]; cbn [negb];
    [|discriminate].
  assert (Hlen : (cursor w + 4 <= length (contents w))%nat).
  { unfold got in Hgot. rewrite length_firstn, length_skipn in Hgot.
    change (Z.to_nat 4) with 4%nat in Hgot. lia. }
  destruct (wav_parse_chunk_progress got w1) as (Hof & Hdisk & Hcur).
  unfold bind.
  destruct (wav_parse_chunk got w1) as [[[|]|e|] w2]; cbn [fst snd] in *;
    try discriminate; try contradiction.
  apply IH. unfold contents in *. rewrite Hdisk.
  subst w1. cbn [cursor disk] in *. rewrite Hgot in Hcur. lia.
Qed.

(** [wav_import] has fuel enough for every file. *)
Lemma wav_import_total (w : World) : fst (wav_import w) <> OutOfFuel.
Proof.
  destruct w as [s d c l]. unfold wav_import.
  rewrite bind_log. unfold bind at 1. unfold open_rb at 1. cbn [disk].
  destruct d as [d|]; [|discriminate].
  cbn [self disk cursor logged]. unfold bind at 1.
  pose proof (wav_import_loop_total (S (length d))
                (mkWorld s (Some d) 0 (l ++ [(INFO, "Reading"%string)]))) as Ht.
  cbn [contents disk cursor] in *.
  destruct (wav_import_loop _ _) as [[[|]|e|] w2]; cbn [fst] in *;
    try discriminate.
  - unfold bind. rewrite calc_wave_count_run.
    destruct (data_samples (self w2)); [|discriminate].
    destruct (wave_size (self w2)); [|discriminate].
    destruct (_ =? 0); discriminate.
  - apply Ht. lia.
Qed.

(** *** The clm payload *)

Lemma encode_app (a b : string) : encode (a ++ b) = encode a ++ encode b.
Proof.
  unfold encode, list_byte_of_string.
  induction a as [|ch a IH]; cbn; [reflexivity|].
  f_equal. exact IH.
Qed.

Lemma four_digits_checked :
  forallb (digits_read_back 4) (map (fun k => 1000 + Z.of_nat k) (seq 0 (Z.to_nat 9000))) = true.
Proof. vm_compute. reflexivity. Qed.

Lemma one_digit_checked :
  forallb (digits_read_back 1) (map (fun k => 0 + Z.of_nat k) (seq 0 (Z.to_nat 10))) = true.
Proof. vm_compute. reflexivity. Qed.

Lemma digits_in_range (n : nat) (lo count x : Z) :
  forallb (digits_read_back n)
    (map (fun k => lo + Z.of_nat k) (seq 0 (Z.to_nat count))) = true ->
  lo <= x < lo + count ->
  length (encode (str x)) = n /\ int_of_bytes (encode (str x)) = Val x.
Proof.
  intros Hall Hx. rewrite forallb_forall in Hall.
  assert (Hin : In x (map (fun k => lo + Z.of_nat k) (seq 0 (Z.to_nat count)))).
  { apply in_map_iff. exists (Z.to_nat (x - lo)). split; [lia|].
    apply in_seq. lia. }
  specialize (Hall x Hin). unfold digits_read_back in Hall.
  apply andb_true_iff in Hall. destruct Hall as [Hlen Hval].
  apply Nat.eqb_eq in Hlen. split; [exact Hlen|].
  destruct (int_of_bytes (encode (str x))) as [z|e]; [|discriminate].
  apply Z.eqb_eq in Hval. subst z. reflexivity.
Qed.

Lemma four_digits (ws : Z) :
  1000 <= ws <= 9999 ->
  exists a b c d, encode (str ws) = [a; b; c; d]
                  /\ int_of_bytes [a; b; c; d] = Val ws.
Proof.
  intros Hws.
  destruct (digits_in_range 4 1000 9000 ws four_digits_checked) as [Hlen Hval];
    [lia|].
  destruct (encode (str ws)) as [|a [|b [|c [|d [|? ?]]]]]; try discriminate Hlen.
  exists a, b, c, d. split; [reflexivity | exact Hval].
Qed.

Lemma one_digit (wi : Z) :
  0 <= wi <= 9 ->
  exists e, encode (str wi) = [e] /\ int_of_bytes [e] = Val wi.
Proof.
  intros Hwi.
  destruct (digits_in_range 1 0 10 wi one_digit_checked) as [Hlen Hval]; [lia|].
  destruct (encode (str wi)) as [|e [|? ?]]; try discriminate Hlen.
  exists e. split; [reflexivity | exact Hval].
Qed.

Lemma odd_after_17 (n : Z) : ((17 + n) mod 2 =? 1) = Z.even n.
Proof.
  rewrite Zeven_mod. replace (17 + n) with (n + 1 + 8 * 2) by ring.
  rewrite Z_mod_plus_full, Zplus_mod.
  pose proof (Z.mod_pos_bound n 2 ltac:(lia)) as Hb.
  assert (Hc : n mod 2 = 0 \/ n mod 2 = 1) by lia.
  destruct Hc as [-> | ->]; reflexivity.
Qed.

(** With a wave size of four digits and an interpolation code of one, the
    payload is the 17-byte preamble, the vendor bytes and the pad. *)
Lemma clm_payload_shape (s : Wavetable) (ws : Z) :
  wave_size s = Some ws -> 1000 <= ws <= 9999 -> 0 <= wave_interp s <= 9 ->
  exists a b c d e,
    clm_payload s
    = [x3c; x21; x3e; a; b; c; d; x20; e;
       x30; x30; x30; x30; x30; x30; x30; x20]
      ++ wave_vendor s ++ clm_pad (wave_vendor s)
    /\ int_of_bytes [a; b; c; d] = Val ws
    /\ int_of_bytes [e] = Val (wave_interp s).
Proof.
  intros Hws Hr Hi.
  destruct (four_digits ws Hr) as (a & b & c & d & Ea & Va).
  destruct (one_digit (wave_interp s) Hi) as (e & Ee & Ve).
  exists a, b, c, d, e. split; [|split; assumption].
  unfold clm_payload. rewrite Hws. cbn [str_opt].
  rewrite !encode_app, Ea, Ee.
  change (encode "<!>") with [x3c; x21; x3e].
  change (encode " ") with [x20].
  change (encode "0000000 ") with [x30; x30; x30; x30; x30; x30; x30; x20].
  cbn [app].
  set (pre := x3c :: _).
  assert (Hlen : len pre = 17 + len (wave_vendor s))
    by (unfold pre, len; cbn [length]; lia).
  rewrite Hlen, odd_after_17. unfold clm_pad, pre.
  destruct (Z.even (len (wave_vendor s))); [reflexivity|].
  rewrite app_nil_r. reflexivity.
Qed.
Lemma wav_import_container (s0 s : Wavetable) (c0 : nat) l0 (smp : bytes) (ws : Z) :
  wave_size s = Some ws -> 1000 <= ws <= 9999 -> 0 <= wave_interp s <= 9 ->
  fmt_fits s -> fmt_bytes_p_block s <> 0 ->
  len (clm_payload s) < 2 ^ 32 -> len smp < 2 ^ 32 ->
  no_samples (data_samples s0) = true ->
  wav_import (mkWorld s0 (Some (wav_container s smp)) c0 l0)
  = (Returned false,
     mkWorld (wav_decoded s ws smp) (Some (wav_container s smp))
       (length (wav_container s smp)) (l0 ++ wav_import_log)).
Proof.
  intros Hws Hr Hi (Haf & Hch & Hsr & Hps & Hblk & Hbits) Hblk0 Hclm Hsmp Hno.
  destruct (clm_payload_shape s ws Hws Hr Hi) as (a & b & c & d & e & Hshape & Va & Ve).
  assert (Hclm0 : 0 <= len (clm_payload s)) by (unfold len; lia).
  assert (Hsmp0 : 0 <= len smp) by (unfold len; lia).
  unfold wav_import. rewrite bind_log.
  unfold bind at 1. unfold open_rb at 1. cbn [disk self cursor logged contents].
  unfold bind at 1. cbn [contents disk].
  set (file := wav_container s smp).
  assert (Hfuel : exists n, length file = (4 + n)%nat).
  { unfold file, wav_container. cbn [app length]. eexists. reflexivity. }
  destruct Hfuel as [n Hn]. rewrite Hn. cbn [Nat.add].
  (* RIFF *)
  erewrite (wav_import_loop_chunk _ _ _ _ _ [x52; x49; x46; x46]);
    [|unfold file, wav_container; cbn [skipn]; reflexivity|reflexivity].
  erewrite (wav_parse_chunk_riff _ _ _ _ (le_bytes 4 _));
    [|unfold file, wav_container; cbn [skipn app Nat.add le_bytes]; reflexivity
     |reflexivity].
  (* fmt *)
  erewrite (wav_import_loop_chunk _ _ _ _ _ [x66; x6d; x74; x20]);
    [|unfold file, wav_container; cbn [skipn app Nat.add le_bytes]; reflexivity
     |reflexivity].
  erewrite (wav_parse_chunk_fmt _ _ _ _ [x10; x00; x00; x00]
              (le_bytes 2 _) (le_bytes 2 _) (le_bytes 4 _) (le_bytes 4 _)
              (le_bytes 2 _) (le_bytes 2 _));
    [|unfold file, wav_container; cbn [skipn app Nat.add le_bytes]; reflexivity
     |reflexivity..].
  (* clm *)
  erewrite (wav_import_loop_chunk _ _ _ _ _ [x63; x6c; x6d; x20]);
    [|unfold file, wav_container; cbn [skipn app Nat.add le_bytes]; reflexivity
     |reflexivity].
  erewrite (wav_parse_chunk_clm _ _ _ _ (le_bytes 4 (len (clm_payload s)))
              (clm_payload s) _ ws (wave_interp s));
    [|unfold file, wav_container; cbn [skipn app Nat.add le_bytes]; reflexivity
     |reflexivity
     |apply int_from_le_bytes; change (256 ^ Z.of_nat 4) with (2 ^ 32); lia
     |rewrite Hshape; exact Va
     |rewrite Hshape; exact Ve].
  (* data *)
  erewrite (wav_import_loop_chunk _ _ _ _ _ [x64; x61; x74; x61]);
    [|unfold file, wav_container; cbn [skipn app Nat.add le_bytes];
      rewrite skipn_app_length; reflexivity
     |reflexivity].
  erewrite (wav_parse_chunk_data_first _ _ _ _ (le_bytes 4 (len smp)) smp []);
    [|exact Hno
     |unfold file, wav_container; cbn [skipn app Nat.add le_bytes];
      rewrite (skipn_at _ _ _ _ (skipn_app_length _ _));
      cbn [skipn]; rewrite app_nil_r; reflexivity
     |reflexivity
     |apply int_from_le_bytes; change (256 ^ Z.of_nat 4) with (2 ^ 32); lia].
  (* end of file *)
  assert (Hcur : (0 + 4 + 8 + 4 + 20 + 4 + (4 + length (clm_payload s)) + 4
                  + (4 + length smp))%nat = length file).
  { unfold file, wav_container.
    repeat (rewrite length_app || rewrite length_le_bytes || cbn [length]). lia. }
  rewrite Hcur, wav_import_loop_end by apply skipn_all.
  (* the final recalculation *)
  unfold bind at 1. rewrite calc_wave_count_run.
  rewrite !int_from_le_bytes
    by (first [ change (256 ^ Z.of_nat 4) with (2 ^ 32)
              | change (256 ^ Z.of_nat 2) with (2 ^ 16) ]; lia).
  rewrite Hshape. destruct s0.
  destruct s as [smp' af bits blk sec ch rate wc wi wsz v].
  cbn [wave_size wave_interp fmt_bytes_p_block] in *. subst wsz.
  run. norm_nat. cbn [skipn].
  destruct (Z.eqb_spec (ws * blk) 0) as [E|_]; [nia|].
  unfold wav_decoded, wav_import_log. run.
  rewrite Nat.add_0_r, Hn, <- !app_assoc. reflexivity.
Qed.

(* ===================================================================== *)
(** ** WAVE round trip *)
(* ===================================================================== *)

Lemma len_clm_payload (s : Wavetable) (ws : Z) :
  wave_size s = Some ws -> 1000 <= ws <= 9999 -> 0 <= wave_interp s <= 9 ->
  len (clm_payload s) <= 18 + len (wave_vendor s).
Proof.
  intros Hws Hr Hi.
  destruct (clm_payload_shape s ws Hws Hr Hi) as (a & b & c & d & e & Hshape & _).
  rewrite Hshape. unfold len, clm_pad.
  repeat (rewrite length_app || cbn [length]).
  destruct (Z.even _); cbn [length]; lia.
Qed.

(** C1, as the code has it.  Take a record with samples, a wave size of
    four decimal digits, an interpolation code of one digit, format fields
    that fit the fields of the [fmt ] chunk, a non-zero block align and a
    size below 2^32.  [wav_write] writes its container, and [wav_import] of
    that file into a record that holds no samples returns a record with the
    same samples, [wave_size], [wave_interp] and format fields; the vendor
    bytes are the original ones followed by the zero pad byte of the clm
    chunk when their length is even, and [wave_count] is recalculated. *)
Theorem wav_round_trip (w w0 : World) (smp : bytes) (ws : Z) :
  data_samples (self w) = Some smp ->
  wave_size (self w) = Some ws ->
  1000 <= ws <= 9999 ->
  0 <= wave_interp (self w) <= 9 ->
  fmt_fits (self w) ->
  fmt_bytes_p_block (self w) <> 0 ->
  len (wave_vendor (self w)) + len smp + 62 < 2 ^ 32 ->
  no_samples (data_samples (self w0)) = true ->
  disk w0 = disk (snd (wav_write w)) ->
  let r := wav_import w0 in
  fst (wav_write w) = Returned tt
  /\ fst r = Returned false
  /\ data_samples (self (snd r)) = Some smp
  /\ wave_size (self (snd r)) = Some ws
  /\ wave_interp (self (snd r)) = wave_interp (self w)
  /\ wave_vendor (self (snd r))
     = wave_vendor (self w) ++ clm_pad (wave_vendor (self w))
  /\ fmt_audio_format (self (snd r)) = fmt_audio_format (self w)
  /\ fmt_channels (self (snd r)) = fmt_channels (self w)
  /\ fmt_sample_rate (self (snd r)) = fmt_sample_rate (self w)
  /\ fmt_bytes_p_sec (self (snd r)) = fmt_bytes_p_sec (self w)
  /\ fmt_bytes_p_block (self (snd r)) = fmt_bytes_p_block (self w)
  /\ fmt_bits_p_sample (self (snd r)) = fmt_bits_p_sample (self w)
  /\ wave_count (self (snd r))
     = Some (Z.quot (len smp) (ws * fmt_bytes_p_block (self w))).
Proof.
  intros Hs Hws Hr Hi Hfit Hblk Hsize Hno Hdisk r. subst r.
  destruct w as [s d c l]. destruct w0 as [s0 d0 c0 l0]. cbn [self disk] in *.
  pose proof (len_clm_payload s ws Hws Hr Hi) as Hclm.
  assert (Hsmp0 : 0 <= len smp) by (unfold len; lia).
  assert (Hv0 : 0 <= len (wave_vendor s)) by (unfold len; lia).
  rewrite (wav_write_written s d c l smp) in * by (try assumption; lia).
  cbn [fst snd disk] in *. subst d0.
  rewrite (wav_import_container s0 s c0 l0 smp ws) by (try assumption; lia).
  cbn [fst snd self]. unfold wav_decoded.
  cbn [data_samples wave_size wave_interp wave_vendor fmt_audio_format
       fmt_channels fmt_sample_rate fmt_bytes_p_sec fmt_bytes_p_block
       fmt_bits_p_sample wave_count].
  repeat split.
Qed.

Lemma wav_round_trip_witness :
  let w := world_of default_with_samples None in
  let r := wav_import (world_of init (disk (snd (wav_write w)))) in
  fst r = Returned false
  /\ data_samples (self (snd r)) = Some [x01; x02; x03; x04; x05; x06; x07; x08]
  /\ wave_size (self (snd r)) = Some 2048
  /\ wave_interp (self (snd r)) = 0
  /\ wave_vendor (self (snd r)) = default_vendor ++ [x00].
Proof.
  destruct (wav_round_trip (world_of default_with_samples None)
              (world_of init
                 (disk (snd (wav_write (world_of default_with_samples None)))))
              [x01; x02; x03; x04; x05; x06; x07; x08] 2048)
    as (_ & H1 & H2 & H3 & H4 & H5 & _);
    [reflexivity | reflexivity | split; discriminate | split; discriminate
    | repeat split; (discriminate || reflexivity) | discriminate
    | reflexivity | reflexivity | reflexivity | ].
  cbv zeta. rewrite H1, H2, H3, H4, H5. repeat split.
Defined.

(** C1 as stated fails on the default record: its vendor comment has 26
    bytes, the clm payload gets a zero pad byte, and the decoder takes the
    pad as the last vendor byte. *)
Lemma wav_round_trip_pads_vendor :
  let w := world_of default_with_samples None in
  let r := wav_import (world_of init (disk (snd (wav_write w)))) in
  fst (wav_write w) = Returned tt
  /\ fst r = Returned false
  /\ wave_vendor (self w) = default_vendor
  /\ wave_vendor (self (snd r)) = default_vendor ++ [x00]
  /\ wave_vendor (self (snd r)) <> wave_vendor (self w).
Proof.
  cbv zeta. repeat split; try (vm_compute; reflexivity).
  vm_compute. discriminate.
Qed.

(** Why the wave size has four digits in [wav_round_trip]: the decoder
    reads the wave size at the fixed offsets 3 to 6 of the clm payload and
    the interpolation code at offset 8, and the encoder does not pad.  With
    the wave size 4 the decoder raises [ValueError]; with 256 it reads the
    wave size back but drops the first vendor byte; with 16384 it reads 1638
    and then raises [ValueError]. *)
Lemma wav_round_trip_other_wave_sizes :
  fst (written_then_imported (with_wave_size 4)) = Raised ValueError
  /\ fst (written_then_imported (with_wave_size 256)) = Returned false
  /\ wave_size (self (snd (written_then_imported (with_wave_size 256)))) = Some 256
  /\ wave_vendor (self (snd (written_then_imported (with_wave_size 256))))
     = tl default_vendor
  /\ fst (written_then_imported (with_wave_size 16384)) = Raised ValueError
  /\ wave_size (self (snd (written_then_imported (with_wave_size 16384))))
     = Some 1638.
Proof.
  repeat split; vm_compute; reflexivity.
Qed.

(* ===================================================================== *)
(** ** WT round trip *)
(* ===================================================================== *)

(** C2, as the code has it.  For a mono record whose [wave_size] is a power
    of two below 2^32, whose [wave_count] is present and below 2^16 and
    which holds samples, [wt_import] on the file that [wt_write] wrote
    (with [is_sample] and [is_looped] false) returns with the same samples
    and the same [wave_size]; the block align is recalculated from the
    16-bit flag (2 or 4 bytes), and [wave_count] is the floor of
    [len(samples) / (wave_size * block_align)] for that block align. *)
Theorem wt_round_trip (w w0 : World) (full_range : bool) (z k cnt : Z)
    (smp : bytes) :
  fmt_channels (self w) = 1 ->
  wave_size (self w) = Some z ->
  0 <= k < 32 -> z = 2 ^ k ->
  wave_count (self w) = Some cnt -> 0 <= cnt < 2 ^ 16 ->
  data_samples (self w) = Some smp ->
  disk w0 = disk (snd (wt_write false false full_range w)) ->
  let r := wt_import w0 in
  fst r = Returned false
  /\ data_samples (self (snd r)) = Some smp
  /\ wave_size (self (snd r)) = Some z
  /\ fmt_bytes_p_block (self (snd r))
     = (if fmt_bits_p_sample (self w) =? 16 then 2 else 4)
  /\ wave_count (self (snd r))
     = Some (len smp / (z * fmt_bytes_p_block (self (snd r)))).
Proof.
  intros Hch Hws Hk Hz Hwc Hcnt Hs Hdisk r. subst r.
  assert (Hzr : 0 < z < 2 ^ 32).
  { subst z. split; [apply Z.pow_pos_nonneg; lia | apply Z.pow_lt_mono_r; lia]. }
  destruct w as [s d c l]. destruct w0 as [s0 d0 c0 l0]. cbn [self disk] in *.
  rewrite (wt_write_written false false full_range s d c l z cnt smp) in Hdisk;
    try assumption; try lia;
    [|apply bad_wave_size_false; exists k; split; [lia | exact Hz]].
  cbn [snd disk] in Hdisk. subst d0. unfold wt_container.
  pose proof (wt_set_flag_testbits s false false full_range) as Hbits.
  cbv zeta in Hbits. destruct Hbits as (_ & Hb2 & Hb1 & Hb0 & Hrange).
  rewrite wt_import_closed by (try apply length_le_bytes; reflexivity).
  rewrite !int_from_le_bytes
    by (first [ change (256 ^ Z.of_nat 4) with (2 ^ 32)
              | change (256 ^ Z.of_nat 2) with (2 ^ 16) ]; lia).
  rewrite Hb0, Hb1, Hb2. cbn [orb fst snd self].
  unfold wt_decoded. cbn [data_samples wave_size fmt_bytes_p_block wave_count].
  destruct (Z.eqb_spec z 0) as [E|_]; [lia|].
  repeat split.
  f_equal. apply Z.quot_div_nonneg; [unfold len; lia|].
  destruct (fmt_bits_p_sample s =? 16); lia.
Qed.

Lemma wt_round_trip_witness :
  let r := wt_import (world_of init
                        (disk (snd (wt_write false false true
                                      (world_of one_cycle None))))) in
  fst r = Returned false
  /\ data_samples (self (snd r)) = Some [x01; x02; x03; x04]
  /\ wave_size (self (snd r)) = Some 2
  /\ wave_count (self (snd r)) = Some 1.
Proof.
  destruct (wt_round_trip (world_of one_cycle None)
              (world_of init (disk (snd (wt_write false false true
                                           (world_of one_cycle None)))))
              true 2 1 1 [x01; x02; x03; x04])
    as (H1 & H2 & H3 & H4 & H5);
    [reflexivity | reflexivity | split; [discriminate | reflexivity]
    | reflexivity | reflexivity | split; [discriminate | reflexivity]
    | reflexivity | reflexivity | ].
  cbv zeta. rewrite H1, H2, H3. rewrite H5. rewrite H4.
  repeat split.
Defined.

(** C2 as stated fails: a mono record with the wave size 2^32, a nonzero
    power of two, makes [wt_write] raise [OverflowError] after the tag; the
    file it leaves does not decode to the record's samples. *)
Lemma wt_round_trip_overflows :
  let w := world_of wave_size_2_32 None in
  let written := snd (wt_write false false true w) in
  let r := wt_import (world_of init (disk written)) in
  fmt_channels (self w) = 1
  /\ wave_size (self w) = Some (2 ^ 32)
  /\ data_samples (self w) = Some [x01; x02]
  /\ fst (wt_write false false true w) = Raised OverflowError
  /\ disk written = Some [x76; x61; x77; x74]
  /\ fst r = Raised ZeroDivisionError
  /\ data_samples (self (snd r)) = Some []
  /\ data_samples (self (snd r)) <> data_samples (self w).
Proof.
  cbv zeta. repeat split; try (vm_compute; reflexivity).
  vm_compute. discriminate.
Qed.

(* ===================================================================== *)
(** ** Recalculating the wave count *)
(* ===================================================================== *)

(** C3, as the code has it.  Whenever [wave_count] is recalculated, by
    [calc_wave_count] directly or by [set_data] with [recalc], and the
    record holds samples and [wave_size * block_align] is positive, the
    count is the floor of [len(samples) / (wave_size * block_align)].
    [set_data] recalculates the block align first, as
    [int(channels * bits / 8)]: there the product [channels * bits] of the
    record is taken below 2^53 in absolute value, where that quotient is
    exact and cannot overflow, so that the recalculation is reached. *)
Theorem wave_count_recalculated :
  (forall (w : World) (s : bytes) (ws : Z),
      data_samples (self w) = Some s ->
      wave_size (self w) = Some ws ->
      0 < ws * fmt_bytes_p_block (self w) ->
      calc_wave_count w
      = (Returned (len s / (ws * fmt_bytes_p_block (self w))), w))
  /\ (forall (a : set_data_args) (w : World) (s : bytes) (ws : Z),
      recalc_requested a = true ->
      let w' := snd (set_data a w) in
      Z.abs (fmt_channels (self w') * fmt_bits_p_sample (self w')) < 2 ^ 53 ->
      data_samples (self w') = Some s ->
      wave_size (self w') = Some ws ->
      0 < ws * fmt_bytes_p_block (self w') ->
      fst (set_data a w) = Returned tt
      /\ wave_count (self w')
         = Some (len s / (ws * fmt_bytes_p_block (self w')))).
Proof.
  split.
  - intros w s ws Hs Hws Hpos.
    rewrite calc_wave_count_run, Hs, Hws.
    destruct (Z.eqb_spec (ws * fmt_bytes_p_block (self w)) 0) as [E|_]; [lia|].
    rewrite Z.quot_div_nonneg by (unfold len; lia). reflexivity.
  - intros a [s0 d c l] s ws Hreq. rewrite set_data_run, Hreq. cbv zeta.
    rewrite calc_wave_count_run. cbn [self].
    generalize (with_block_recalculated (set_fields a s0)).
    intros [smp af bits blk sec ch rate wc wi wsz v].
    cbn [data_samples wave_size fmt_bytes_p_block].
    destruct smp as [smp|]; [|cbn; intros _; discriminate].
    destruct wsz as [z|]; [|cbn; intros _ _; discriminate].
    destruct (Z.eqb_spec (z * blk) 0) as [E|_].
    + cbn. intros _ _ Hz Hpos. injection Hz as ->. lia.
    + cbn. intros _ Hs Hz Hpos. injection Hs as ->. injection Hz as ->.
      rewrite Z.quot_div_nonneg by (unfold len; lia). split; reflexivity.
Qed.

Lemma wave_count_recalculated_witness :
  calc_wave_count (world_of five_bytes None)
  = (Returned 2, world_of five_bytes None)
  /\ wave_count (self (snd (set_data resize_to_1 (world_of five_bytes None))))
     = Some 2.
Proof.
  split.
  - exact (proj1 wave_count_recalculated (world_of five_bytes None)
             [x01; x02; x03; x04; x05] 1 eq_refl eq_refl eq_refl).
  - exact (proj2 (proj2 wave_count_recalculated resize_to_1
                    (world_of five_bytes None) [x01; x02; x03; x04; x05] 1
                    eq_refl eq_refl eq_refl eq_refl eq_refl)).
Defined.

(** C3 as stated fails for a negative [wave_size * block_align]: [int()]
    truncates towards zero, so five bytes against [-2] count [-2] waves,
    while the floor of [5 / -2] is [-3]. *)
Lemma wave_count_truncates :
  let w := world_of negative_cycle None in
  data_samples (self w) = Some [x01; x02; x03; x04; x05]
  /\ wave_size (self w) = Some (-1)
  /\ (-1) * fmt_bytes_p_block (self w) = -2
  /\ calc_wave_count w = (Returned (-2), w)
  /\ len [x01; x02; x03; x04; x05] / ((-1) * fmt_bytes_p_block (self w)) = -3
  /\ fst (calc_wave_count w)
     <> Returned (len [x01; x02; x03; x04; x05]
                  / ((-1) * fmt_bytes_p_block (self w))).
Proof.
  cbv zeta. repeat split. discriminate.
Qed.

(* ===================================================================== *)
(** ** Deduplication *)
(* ===================================================================== *)

Lemma slicer_world (w : World) : snd (slicer w) = wave_size_defaulted w.
Proof.
  rewrite slicer_run.
  destruct (data_samples (self w)); [|reflexivity].
  destruct (range 0 (len b) (cycle_bytes (self w))); reflexivity.
Qed.

Lemma wave_size_defaulted_disk (w : World) : disk (wave_size_defaulted w) = disk w.
Proof. unfold wave_size_defaulted. destruct (wave_size (self w)); reflexivity. Qed.

(** C4.  When the samples slice into [first :: rest], the deduplicator
    keeps [first] and then every slice that differs from the most recently
    kept one ([kept_cycles]).  When nothing is dropped it returns [True],
    logs "No duplicates found." and leaves the record as the slicer left
    it.  The slicer leaves every record that has a wave size as it is
    (last part), so nothing is mutated; only a record without one, which no
    import hands over, would keep the slicer's default.  Otherwise
    [samples] becomes the kept
    slices joined, [wave_interp] becomes 0 and [wave_count] the number of
    kept slices.  No file is touched. *)
Theorem deduplicator_keeps (w : World) (first : bytes) (rest : list bytes) :
  fst (slicer w) = Returned (first :: rest) ->
  let kept := kept_cycles first rest in
  let w1 := wave_size_defaulted w in
  let r := deduplicator w in
  (if (length (first :: rest) =? length kept)%nat
   then fst r = Returned true
        /\ self (snd r) = self w1
        /\ In (INFO, "No duplicates found."%string) (logged (snd r))
   else fst r = Returned false
        /\ self (snd r)
           = set_wave_count (Some (len kept))
               (set_wave_interp 0
                  (set_data_samples (Some (concat kept)) (self w1))))
  /\ disk (snd r) = disk w
  /\ (forall z, wave_size (self w) = Some z -> self w1 = self w).
Proof.
  intros Hsl kept w1 r. subst r.
  rewrite deduplicator_run.
  pose proof (slicer_world w) as Hw.
  destruct (slicer w) as [o w']. cbn [fst snd] in Hsl, Hw. subst o w'.
  fold w1. cbv zeta. fold (kept_cycles first rest). fold kept.
  split; [|split].
  - destruct (length (first :: rest) =? length kept)%nat; cbn [fst snd self logged].
    + repeat split. apply in_or_app. right. left. reflexivity.
    + split; reflexivity.
  - destruct (length (first :: rest) =? length kept)%nat; cbn [snd disk];
      apply wave_size_defaulted_disk.
  - intros z Hz. unfold w1, wave_size_defaulted. rewrite Hz. reflexivity.
Qed.

(** The scenario of the specification: three identical cycles and a fourth
    one give two cycles, [wave_count = 2] and [wave_interp = 0]. *)
Lemma deduplicator_keeps_witness :
  let r := deduplicator (world_of three_alike_one_other None) in
  fst r = Returned false
  /\ data_samples (self (snd r))
     = Some ([x01; x02; x03; x04; x05; x06; x07; x08]
             ++ [x11; x12; x13; x14; x15; x16; x17; x18])
  /\ wave_count (self (snd r)) = Some 2
  /\ wave_interp (self (snd r)) = 0.
Proof.
  pose proof (deduplicator_keeps (world_of three_alike_one_other None)
                [x01; x02; x03; x04; x05; x06; x07; x08]
                [[x01; x02; x03; x04; x05; x06; x07; x08];
                 [x01; x02; x03; x04; x05; x06; x07; x08];
                 [x11; x12; x13; x14; x15; x16; x17; x18]]
                eq_refl) as H.
  cbv zeta in H. destruct H as [H _].
  change (length _ =? length _)%nat with false in H.
  destruct H as [H1 H2].
  cbv zeta. rewrite H1, H2. repeat split.
Defined.

(* ===================================================================== *)
(** ** Slicing into cycles *)
(* ===================================================================== *)

Lemma chunk_full (b n q k total : nat) :
  total = (n * b + q)%nat -> (k < n)%nat -> Nat.min b (total - k * b) = b.
Proof.
  intros -> Hk.
  assert (H : (S k * b <= n * b)%nat) by (apply Nat.mul_le_mono_r; lia).
  cbn [Nat.mul] in H. lia.
Qed.

Lemma chunk_last (b n q total : nat) :
  total = (n * b + q)%nat -> (q < b)%nat -> Nat.min b (total - n * b) = q.
Proof. intros -> Hq. lia. Qed.

(** C5.  With [B = wave_size * block_align > 0], slicing a buffer of
    [B*N + r] bytes, [0 <= r < B], leaves the record alone and returns [N]
    slices when [r = 0] and [N + 1] slices otherwise; the first [N] slices
    have [B] bytes each, and when [0 < r] the last one has [r] bytes.  The
    slices, joined, are the buffer. *)
Theorem slicer_lengths (w : World) (smp : bytes) (ws N r : Z) :
  data_samples (self w) = Some smp ->
  wave_size (self w) = Some ws ->
  0 < ws * fmt_bytes_p_block (self w) ->
  0 <= N ->
  0 <= r < ws * fmt_bytes_p_block (self w) ->
  len smp = ws * fmt_bytes_p_block (self w) * N + r ->
  exists cycles : list bytes,
    slicer w = (Returned cycles, w)
    /\ len cycles = (if r =? 0 then N else N + 1)
    /\ (forall k, (k < Z.to_nat N)%nat ->
          exists c, nth_error cycles k = Some c
                    /\ len c = ws * fmt_bytes_p_block (self w))
    /\ (0 < r -> exists c, nth_error cycles (Z.to_nat N) = Some c /\ len c = r)
    /\ concat cycles = smp.
Proof.
  intros Hs Hws HB HN Hr Hlen.
  assert (Hcb : cycle_bytes (self w) = ws * fmt_bytes_p_block (self w))
    by (unfold cycle_bytes; rewrite Hws; reflexivity).
  assert (Hw : wave_size_defaulted w = w)
    by (unfold wave_size_defaulted; rewrite Hws; reflexivity).
  set (B := ws * fmt_bytes_p_block (self w)) in *.
  eexists. split.
  { rewrite (slicer_positive w smp Hs) by lia. rewrite Hw, Hcb. reflexivity. }
  rewrite Hlen, cycle_count by lia.
  assert (Hn : length smp = (Z.to_nat N * Z.to_nat B + Z.to_nat r)%nat).
  { unfold len in Hlen. apply Nat2Z.inj.
    rewrite Hlen, Nat2Z.inj_add, Nat2Z.inj_mul, !Z2Nat.id by lia. ring. }
  assert (Hb : Z.of_nat (Z.to_nat B) = B) by (apply Z2Nat.id; lia).
  assert (Hq : (Z.to_nat r < Z.to_nat B)%nat) by lia.
  split; [|split; [|split]].
  - unfold len. rewrite length_map, length_seq.
    destruct (r =? 0); lia.
  - intros k Hk. eexists. split.
    + rewrite nth_error_map, nth_error_seq_0.
      destruct (Nat.ltb_spec k (Z.to_nat (if r =? 0 then N else N + 1))) as [_|Hge].
      * reflexivity.
      * destruct (r =? 0); lia.
    + unfold len. rewrite length_firstn, length_skipn.
      rewrite (chunk_full _ _ _ _ _ Hn Hk). exact Hb.
  - intros Hr0. eexists. split.
    + rewrite nth_error_map, nth_error_seq_0.
      destruct (Z.eqb_spec r 0) as [E|_]; [lia|].
      destruct (Nat.ltb_spec (Z.to_nat N) (Z.to_nat (N + 1))) as [_|Hge]; [|lia].
      reflexivity.
    + unfold len. rewrite length_firstn, length_skipn.
      rewrite (chunk_last _ _ _ _ Hn Hq). lia.
  - rewrite concat_chunks. cbn [Nat.mul skipn].
    apply firstn_all2. rewrite Hn.
    destruct (Z.eqb_spec r 0) as [E|E].
    + subst r. lia.
    + rewrite Z2Nat.inj_add by lia.
      change (Z.to_nat 1) with 1%nat.
      rewrite Nat.mul_add_distr_r. lia.
Qed.


Lemma slicer_lengths_witness :
  (exists cycles : list bytes,
      slicer (world_of two_cycles None) = (Returned cycles, world_of two_cycles None)
      /\ len cycles = 2)
  /\ (exists cycles : list bytes,
        slicer (world_of two_cycles_and_rest None)
        = (Returned cycles, world_of two_cycles_and_rest None)
        /\ len cycles = 3
        /\ exists c, nth_error cycles 2 = Some c /\ len c = 2).
Proof.
  split.
  - destruct (slicer_lengths (world_of two_cycles None)
                [x01; x02; x03; x04; x05; x06; x07; x08] 2 2 0)
      as (cycles & Hrun & Hlen & _);
      [reflexivity | reflexivity | reflexivity | discriminate
      | split; [discriminate | reflexivity] | reflexivity | ].
    exists cycles. split; assumption.
  - destruct (slicer_lengths (world_of two_cycles_and_rest None)
                [x01; x02; x03; x04; x05; x06; x07; x08; x09; x0a] 2 2 2)
      as (cycles & Hrun & Hlen & _ & Hlast & _);
      [reflexivity | reflexivity | reflexivity | discriminate
      | split; [discriminate | reflexivity] | reflexivity | ].
    exists cycles. split; [assumption|]. split; [assumption|].
    apply Hlast. reflexivity.
Defined.

(* ===================================================================== *)
(** ** WT encode: validation *)
(* ===================================================================== *)

Lemma wt_write_not_mono (sample looped full_range : bool) (w : World) :
  fmt_channels (self w) <> 1 ->
  wt_write sample looped full_range w
  = (Returned tt,
     mkWorld (self w) (disk w) (cursor w)
       (logged w ++ [(WARNING, "Only 1 channel is supported."%string)])).
Proof.
  intros Hch. destruct w as [s d c l].
  unfold wt_write. unfold bind at 1, attr at 1. cbn [self disk cursor logged].
  destruct (Z.eqb_spec (fmt_channels s) 1) as [E|_]; [contradiction|].
  reflexivity.
Qed.

Lemma wt_write_bad_size (sample looped full_range : bool) (w : World) (z : Z) :
  fmt_channels (self w) = 1 -> wave_size (self w) = Some z ->
  bad_wave_size z = true ->
  wt_write sample looped full_range w
  = (Returned tt,
     mkWorld (self w) (disk w) (cursor w)
       (logged w ++ [(WARNING, "Wave size must be a power of 2."%string)])).
Proof.
  intros Hch Hws Hbad. destruct w as [s d c l]. cbn [self disk cursor logged] in *.
  unfold wt_write. unfold bind at 1, attr at 1. cbn [self]. rewrite Hch.
  cbn [Z.eqb Pos.eqb negb]. unfold bind at 1, attr at 1. cbn [self]. rewrite Hws.
  unfold bind at 1, ret at 1. rewrite Hbad. reflexivity.
Qed.

(** C6, as the code has it.  [wt_write] logs a warning, returns and leaves
    the file alone when [channels != 1], and when [channels == 1] and
    [wave_size] is zero or not a power of two.  When [channels == 1],
    [wave_size] is a power of two below 2^32, [wave_count] is present and
    below 2^16 and samples are present, it writes the container: tag, wave
    size, wave count, flags, samples. *)
Theorem wt_write_validates (w : World) (sample looped full_range : bool) :
  (fmt_channels (self w) <> 1 ->
   wt_write sample looped full_range w
   = (Returned tt,
      mkWorld (self w) (disk w) (cursor w)
        (logged w ++ [(WARNING, "Only 1 channel is supported."%string)])))
  /\ (forall z,
        fmt_channels (self w) = 1 -> wave_size (self w) = Some z ->
        z = 0 \/ ~ (exists k, 0 <= k /\ z = 2 ^ k) ->
        wt_write sample looped full_range w
        = (Returned tt,
           mkWorld (self w) (disk w) (cursor w)
             (logged w ++ [(WARNING, "Wave size must be a power of 2."%string)])))
  /\ (forall z k cnt smp,
        fmt_channels (self w) = 1 -> wave_size (self w) = Some z ->
        0 <= k < 32 -> z = 2 ^ k ->
        wave_count (self w) = Some cnt -> 0 <= cnt < 2 ^ 16 ->
        data_samples (self w) = Some smp ->
        fst (wt_write sample looped full_range w) = Returned tt
        /\ disk (snd (wt_write sample looped full_range w))
           = Some (wt_container z cnt
                     (wt_set_flag (self w) sample looped full_range) smp)).
Proof.
  split; [|split].
  - apply wt_write_not_mono.
  - intros z Hch Hws Hz. apply (wt_write_bad_size _ _ _ w z Hch Hws).
    destruct (bad_wave_size z) eqn:E; [reflexivity|].
    apply bad_wave_size_false in E. destruct Hz as [->|Hz].
    + destruct E as (k & Hk & E).
      pose proof (Z.pow_pos_nonneg 2 k ltac:(lia) Hk). lia.
    + contradiction.
  - intros z k cnt smp Hch Hws Hk -> Hwc Hcnt Hs.
    destruct w as [s d c l]. cbn [self] in *.
    rewrite (wt_write_written sample looped full_range s d c l (2 ^ k) cnt smp);
      try assumption.
    + split; reflexivity.
    + apply bad_wave_size_false. exists k. split; [lia | reflexivity].
    + split; [apply Z.pow_nonneg; lia | apply Z.pow_lt_mono_r; lia].
Qed.

(** The scenarios of the specification: wave size 3000 and two channels are
    rejected and nothing is written; a mono record of wave size 2 is. *)
Lemma wt_write_validates_witness :
  disk (snd (wt_write false false true (world_of wave_size_3000 None))) = None
  /\ disk (snd (wt_write false false true (world_of stereo None))) = None
  /\ disk (snd (wt_write false false true (world_of one_cycle None)))
     = Some ([x76; x61; x77; x74] ++ [x02; x00; x00; x00] ++ [x01; x00]
             ++ [x0c; x00] ++ [x01; x02; x03; x04]).
Proof.
  split; [|split].
  - rewrite (proj1 (proj2 (wt_write_validates (world_of wave_size_3000 None)
                             false false true)) 3000 eq_refl eq_refl).
    + reflexivity.
    + right. intros (k & Hk & E).
      assert (Hk' : k < 12).
      { apply (Z.pow_lt_mono_r_iff 2); [lia | lia |]. rewrite <- E. reflexivity. }
      assert (Hcases : k = 0 \/ k = 1 \/ k = 2 \/ k = 3 \/ k = 4 \/ k = 5 \/ k = 6
                       \/ k = 7 \/ k = 8 \/ k = 9 \/ k = 10 \/ k = 11) by lia.
      repeat (destruct Hcases as [->|Hcases]; [discriminate E|]).
      subst k. discriminate E.
  - rewrite (proj1 (wt_write_validates (world_of stereo None) false false true)).
    + reflexivity.
    + discriminate.
  - apply (proj2 (proj2 (wt_write_validates (world_of one_cycle None)
                           false false true)) 2 1 1 [x01; x02; x03; x04]);
      try reflexivity; split; (discriminate || reflexivity).
Defined.

(** C6 as stated fails in its last clause: with [channels == 1] and the
    wave size 2^32, a power of two, [wt_write] passes the validation, opens
    the file, writes the tag and raises [OverflowError] on the four-byte
    wave size; the file holds the tag alone. *)
Lemma wt_write_overflows :
  let w := world_of wave_size_2_32 None in
  fmt_channels (self w) = 1
  /\ wave_size (self w) = Some (2 ^ 32)
  /\ bad_wave_size (2 ^ 32) = false
  /\ fst (wt_write false false true w) = Raised OverflowError
  /\ disk (snd (wt_write false false true w)) = Some [x76; x61; x77; x74].
Proof.
  cbv zeta. repeat split.
Qed.

(* ===================================================================== *)
(** ** WT decode: the flags *)
(* ===================================================================== *)

(** C7.  WT decode reads the flags bit by bit.  On a WT container
    [tag ++ size ++ count ++ flags ++ samples] it returns [True] (the file
    is skipped, with a warning, and no samples are taken) when bit 0
    (is-sample) or bit 1 (is-looped) of the flags is set.  Otherwise
    [bits_per_sample] becomes 16 when bit 2 is set and 32 when it is clear,
    and [audio_format], [channels] and [sample_rate] are forced to 1, 1 and
    88200.  Bit 3 has no effect: a second container that differs from the
    first only in bit 3 of the flags decodes to the same outcome and the
    same record. *)
Theorem wt_import_flags (w : World) (tag size count flags samples : bytes)
    (Htag : length tag = 4%nat) (Hsize : length size = 4%nat)
    (Hcount : length count = 2%nat) (Hflags : length flags = 2%nat)
    (Hdisk : disk w = Some (tag ++ size ++ count ++ flags ++ samples)) :
  let f := int_from_bytes flags in
  let r := wt_import w in
  (if Z.testbit f 0 || Z.testbit f 1
   then fst r = Returned true
        /\ data_samples (self (snd r)) = data_samples (self w)
        /\ fmt_bits_p_sample (self (snd r)) = fmt_bits_p_sample (self w)
        /\ In (WARNING, "Wavetable is a sample."%string) (logged (snd r))
   else fst r = (if int_from_bytes size =? 0
                 then Raised ZeroDivisionError else Returned false)
        /\ data_samples (self (snd r)) = Some samples
        /\ fmt_bits_p_sample (self (snd r)) = (if Z.testbit f 2 then 16 else 32)
        /\ fmt_audio_format (self (snd r)) = 1
        /\ fmt_channels (self (snd r)) = 1
        /\ fmt_sample_rate (self (snd r)) = 88200)
  /\ (forall (w' : World) (flags' : bytes),
        length flags' = 2%nat ->
        self w' = self w ->
        disk w' = Some (tag ++ size ++ count ++ flags' ++ samples) ->
        (forall i, i <> 3 ->
           Z.testbit (int_from_bytes flags') i = Z.testbit f i) ->
        fst (wt_import w') = fst r
        /\ self (snd (wt_import w')) = self (snd r)).
Proof.
  intros f r. subst r.
  destruct w as [s dk c l]. cbn [disk self] in *. subst dk.
  rewrite wt_import_closed by assumption. fold f.
  split.
  - destruct (Z.testbit f 0 || Z.testbit f 1); cbn [fst snd self logged].
    + repeat split.
      apply in_or_app. right. right. left. reflexivity.
    + repeat split.
  - intros [s' dk' c' l'] flags' Hl Hs Hd Hbits. cbn [disk self] in *. subst s' dk'.
    rewrite wt_import_closed by assumption.
    rewrite !Hbits by discriminate.
    destruct (Z.testbit f 0 || Z.testbit f 1); split; reflexivity.
Qed.

(** The scenario of the specification: flags 0b0100. *)
Lemma wt_import_flags_0100 :
  let r := wt_import (world_of init (Some wt_file_0100)) in
  fst r = Returned false
  /\ fmt_bits_p_sample (self (snd r)) = 16
  /\ fmt_audio_format (self (snd r)) = 1
  /\ fmt_channels (self (snd r)) = 1
  /\ fmt_sample_rate (self (snd r)) = 88200.
Proof.
  pose proof (wt_import_flags (world_of init (Some wt_file_0100))
                [x76; x61; x77; x74] [x00; x08; x00; x00] [x01; x00] [x04; x00]
                [x10; x20; x30; x40]
                eq_refl eq_refl eq_refl eq_refl eq_refl) as H.
  cbv zeta in H. destruct H as [H _].
  change (Z.testbit (int_from_bytes [x04; x00]) 0
          || Z.testbit (int_from_bytes [x04; x00]) 1) with false in H.
  change (Z.testbit (int_from_bytes [x04; x00]) 2) with true in H.
  change (int_from_bytes [x00; x08; x00; x00] =? 0) with false in H.
  cbv zeta. cbv iota in H.
  destruct H as (H1 & _ & H2 & H3 & H4 & H5).
  repeat split; assumption.
Defined.

(* ===================================================================== *)
(** ** WAVE decode: a second data chunk *)
(* ===================================================================== *)

(** C8, as the code has it.  Once the record holds a non-empty sample
    payload, a [data] tag is skipped: its size field is read, a warning is
    logged, the chunk handler returns without asking to stop, and the record
    is unchanged.  No chunk, whatever its tag, and no run of the chunk loop,
    whatever the rest of the stream, changes the samples after that: the
    first non-empty payload wins. *)
Theorem second_data_chunk_ignored (w : World) (smp : bytes) :
  data_samples (self w) = Some smp ->
  smp <> [] ->
  wav_parse_chunk [x64; x61; x74; x61] w
  = (Returned false,
     mkWorld (self w) (disk w)
       (cursor w + length (firstn 4 (skipn (cursor w) (contents w))))
       (logged w ++ [data_skipped]))
  /\ (forall chunk_id,
        data_samples (self (snd (wav_parse_chunk chunk_id w))) = Some smp)
  /\ (forall fuel,
        data_samples (self (snd (wav_import_loop fuel w))) = Some smp).
Proof.
  intros Hs Hne.
  assert (Hno : no_samples (data_samples (self w)) = false)
    by (apply no_samples_false; exists smp; split; assumption).
  split; [|split].
  - destruct w as [s d c l]. cbn [self disk cursor logged contents] in *.
    apply wav_parse_chunk_data_again. exact Hno.
  - intros chunk_id. rewrite wav_parse_chunk_keeps_samples by exact Hno. exact Hs.
  - intros fuel. rewrite wav_import_loop_keeps_samples by exact Hno. exact Hs.
Qed.

(** A stream of two [data] chunks: the import keeps the payload of the
    first and logs the warning for the second. *)
Lemma second_data_chunk_ignored_witness :
  wav_import_loop 15 (world_of init (Some two_data_chunks))
  = wav_import_loop 14
      (mkWorld (set_data_samples (Some [xaa; xbb]) init) (Some two_data_chunks)
         10 [(INFO, "    Found 'data' chunk."%string)])
  /\ fst (wav_parse_chunk [x64; x61; x74; x61] after_first_data_chunk)
     = Returned false
  /\ self (snd (wav_parse_chunk [x64; x61; x74; x61] after_first_data_chunk))
     = self after_first_data_chunk
  /\ data_samples (self (snd (wav_import (world_of init (Some two_data_chunks)))))
     = Some [xaa; xbb]
  /\ In data_skipped (logged (snd (wav_import (world_of init (Some two_data_chunks))))).
Proof.
  destruct (second_data_chunk_ignored after_first_data_chunk [xaa; xbb])
    as (Htag & _ & _); [reflexivity | discriminate |].
  split; [reflexivity|].
  rewrite Htag. split; [reflexivity|]. split; [reflexivity|].
  split; [vm_compute; reflexivity|].
  vm_compute. right. right. left. reflexivity.
Defined.

(** C8 as stated fails when the first [data] chunk is empty: its empty
    payload is captured, and the second [data] chunk is then read, not
    skipped; the samples are the second payload and no warning is logged. *)
Lemma empty_data_chunk_loses :
  let w0 := mkWorld init (Some empty_then_data) 4 [] in
  let w1 := snd (wav_parse_chunk [x64; x61; x74; x61] w0) in
  let w2 := mkWorld (self w1) (disk w1) 12 (logged w1) in
  let w3 := snd (wav_parse_chunk [x64; x61; x74; x61] w2) in
  data_samples (self w1) = Some []
  /\ cursor w1 = 8%nat
  /\ data_samples (self w3) = Some [xcc; xdd]
  /\ logged w3 = [(INFO, "    Found 'data' chunk."%string);
                  (INFO, "    Found 'data' chunk."%string)]
  /\ fst (wav_import (world_of init (Some empty_then_data))) = Returned false
  /\ data_samples (self (snd (wav_import (world_of init (Some empty_then_data)))))
     = Some [xcc; xdd].
Proof.
  cbv zeta. repeat split; vm_compute; reflexivity.
Qed.

(* ===================================================================== *)
(** ** When deduplication completes *)
(* ===================================================================== *)

Lemma seq_0_pos (n : nat) : (0 < n)%nat -> seq 0 n = 0%nat :: seq 1 (n - 1).
Proof.
  destruct n as [|n]; [lia|]. intros _.
  cbn [seq]. rewrite Nat.sub_succ, Nat.sub_0_r. reflexivity.
Qed.

Lemma deduplicator_returns (w : World) (first : bytes) (rest : list bytes) :
  fst (slicer w) = Returned (first :: rest) ->
  fst (deduplicator w) = Returned true \/ fst (deduplicator w) = Returned false.
Proof.
  intros H. rewrite deduplicator_run.
  destruct (slicer w) as [o w1]. cbn [fst] in H. subst o. cbv zeta.
  destruct (length (first :: rest) =? length (first :: keep_after first rest))%nat;
    [left|right]; reflexivity.
Qed.

(** C9, as the code has it.  With a positive cycle length
    ([wave_size * block_align], an absent [wave_size] counting as 2048) and
    a non-empty sample buffer the slicer returns at least one slice, so the
    first-slice access of the deduplicator is in range and the deduplicator
    returns.  With an empty sample buffer and a non-zero cycle length the
    slicer returns the empty list and the deduplicator raises [IndexError]
    at the first-slice access. *)
Theorem deduplicator_total_on_samples (w : World) (smp : bytes) :
  data_samples (self w) = Some smp ->
  (smp <> [] -> 0 < cycle_bytes (self w) ->
   (exists first rest, fst (slicer w) = Returned (first :: rest))
   /\ (fst (deduplicator w) = Returned true
       \/ fst (deduplicator w) = Returned false))
  /\ (smp = [] -> cycle_bytes (self w) <> 0 ->
      fst (slicer w) = Returned []
      /\ fst (deduplicator w) = Raised IndexError).
Proof.
  intros Hs. split.
  - intros Hne HB.
    assert (Hsl : exists first rest, fst (slicer w) = Returned (first :: rest)).
    { rewrite (slicer_positive w smp Hs HB). cbn [fst].
      assert (Hlen : 0 < len smp)
        by (destruct smp; [contradiction | unfold len; cbn [length]; lia]).
      assert (Hn : 1 <= (len smp + cycle_bytes (self w) - 1) / cycle_bytes (self w)).
      { apply Z.div_le_lower_bound; lia. }
      rewrite seq_0_pos by lia. cbn [map]. eauto. }
    split; [exact Hsl|].
    destruct Hsl as (first & rest & Hsl). exact (deduplicator_returns w _ _ Hsl).
  - intros -> HB.
    assert (Hsl : fst (slicer w) = Returned []).
    { rewrite slicer_run, Hs. change (len (@nil byte)) with 0.
      unfold range. destruct (Z.eqb_spec (cycle_bytes (self w)) 0); [contradiction|].
      rewrite Z.ltb_irrefl. destruct (0 <? cycle_bytes (self w)); reflexivity. }
    split; [exact Hsl|].
    rewrite deduplicator_run.
    destruct (slicer w) as [o w1]. cbn [fst] in Hsl. subst o. reflexivity.
Qed.

Lemma deduplicator_total_on_samples_witness :
  fst (deduplicator (world_of two_cycles None)) = Returned true
  /\ fst (deduplicator (world_of empty_samples None)) = Raised IndexError.
Proof.
  split.
  - destruct (proj1 (deduplicator_total_on_samples (world_of two_cycles None)
                       [x01; x02; x03; x04; x05; x06; x07; x08] eq_refl))
      as [_ [H|H]]; [discriminate | reflexivity | exact H | discriminate H].
  - apply (proj2 (deduplicator_total_on_samples (world_of empty_samples None)
                    [] eq_refl)); [reflexivity | discriminate].
Defined.

(** C9 as stated fails: a non-empty buffer does not make the first-slice
    access safe.  With the wave size [-512] the range of slice offsets is
    empty and the deduplicator raises [IndexError]; and an empty buffer
    with a zero cycle length makes the slicer itself raise [ValueError]
    instead of returning the empty list. *)
Lemma deduplicator_fails_on_samples :
  (let w := world_of negative_wave_size None in
   data_samples (self w) = Some [x01; x02]
   /\ fst (slicer w) = Returned []
   /\ fst (deduplicator w) = Raised IndexError)
  /\ (let w := world_of empty_zero_block None in
      data_samples (self w) = Some []
      /\ fst (slicer w) = Raised ValueError
      /\ fst (deduplicator w) = Raised ValueError).
Proof.
  cbv zeta. repeat split.
Qed.

(* ===================================================================== *)
(** ** WT encode: the flags *)
(* ===================================================================== *)

(** C10.  For every record and every choice of the [is_sample],
    [is_looped] and [is_full_range] arguments, bit 3 (full range) of the
    flags that [wt_set_flag] returns is set exactly when [bits_per_sample]
    is 16 and [is_full_range] is true, and bit 2 exactly when
    [bits_per_sample] is 16; so for a record whose [bits_per_sample] is not
    16 bits 2 and 3 are both clear, whatever [is_full_range] is.  Bits 1
    and 0 are the [is_looped] and [is_sample] arguments. *)
Theorem wt_set_flag_bits (s : Wavetable) (sample looped full_range : bool) :
  let flag := wt_set_flag s sample looped full_range in
  Z.testbit flag 3 = (fmt_bits_p_sample s =? 16) && full_range
  /\ Z.testbit flag 2 = (fmt_bits_p_sample s =? 16)
  /\ Z.testbit flag 1 = looped
  /\ Z.testbit flag 0 = sample
  /\ is_full_range flag = (fmt_bits_p_sample s =? 16) && full_range
  /\ is_int16 flag = (fmt_bits_p_sample s =? 16)
  /\ (if fmt_bits_p_sample s =? 16 then True
      else Z.testbit flag 2 = false /\ Z.testbit flag 3 = false).
Proof.
  unfold wt_set_flag.
  destruct (fmt_bits_p_sample s =? 16), sample, looped, full_range;
    cbv; repeat split; reflexivity.
Qed.

(* ===================================================================== *)
(** ** Further properties of the code *)
(* ===================================================================== *)

(** *** The outcomes of the chunk loop *)

(** [int()] raises nothing but [ValueError]. *)
Lemma int_of_bytes_raises (bs : bytes) (e : exn) :
  int_of_bytes bs = Exc e -> e = ValueError.
Proof.
  unfold int_of_bytes. intros E.
  repeat match type of E with
         | match ?x with _ => _ end = _ => destruct x; try discriminate E
         end; congruence.
Qed.

(** With at least three bytes behind the handle, as after the read of a
    tag, a chunk handler returns or raises [ValueError] (from [int()] in the
    clm chunk). *)
Lemma wav_parse_chunk_outcome (chunk_id : bytes) (w : World) :
  (3 <= cursor w)%nat ->
  (exists b, fst (wav_parse_chunk chunk_id w) = Returned b)
  \/ fst (wav_parse_chunk chunk_id w) = Raised ValueError.
Proof.
  intros Hc. destruct w as [s d c l]. cbn [cursor] in Hc. unfold wav_parse_chunk.
  destruct (is_riff chunk_id).
  { destruct s. run.
    destruct (Z.ltb_spec (Z.of_nat c + 4) 0); [lia|].
    cbv beta iota. destruct (negb _); left; eexists; reflexivity. }
  destruct (is_fmt chunk_id).
  { destruct s. run.
    destruct (Z.ltb_spec (Z.of_nat c + 4) 0); [lia|].
    left; eexists; reflexivity. }
  destruct (is_clm chunk_id).
  { destruct s. run.
    destruct (int_of_bytes (slice _ 3 7)) as [v|e] eqn:E1.
    - cbv beta iota.
      destruct (int_of_bytes (slice _ 8 9)) as [v'|e'] eqn:E2.
      + left; eexists; reflexivity.
      + right. cbn [fst]. f_equal. exact (int_of_bytes_raises _ _ E2).
    - right. cbn [fst]. f_equal. exact (int_of_bytes_raises _ _ E1). }
  destruct (is_data chunk_id).
  { destruct s. run. destruct (no_samples _); left; eexists; reflexivity. }
  run. destruct (Z.ltb_spec (Z.of_nat c + -3) 0); [lia|].
  left; eexists; reflexivity.
Qed.

Lemma wav_import_loop_outcome (fuel : nat) (w : World) :
  (length (contents w) - cursor w < fuel)%nat ->
  (exists b, fst (wav_import_loop fuel w) = Returned b)
  \/ fst (wav_import_loop fuel w) = Raised ValueError.
Proof.
  revert w. induction fuel as [|fuel IH]; intros w Hfuel; [lia|].
  specialize (fun w H => IH w H).
  remember (fst (wav_import_loop (S fuel) w)) as o eqn:Ho.
  cbn [wav_import_loop] in Ho. unfold bind at 1 in Ho. unfold read at 1 in Ho.
  set (got := firstn (Z.to_nat 4) (skipn (cursor w) (contents w))) in Ho.
  set (w1 := mkWorld (self w) (disk w) (cursor w + length got) (logged w)) in Ho.
  destruct (Nat.eqb_spec (length got) 4) as [Hgot|Hgot]; cbn [negb] in Ho;
    [|left; eexists; exact Ho].
  assert (Hlen : (cursor w + 4 <= length (contents w))%nat).
  { unfold got in Hgot. rewrite length_firstn, length_skipn in Hgot.
    change (Z.to_nat 4) with 4%nat in Hgot. lia. }
  destruct (wav_parse_chunk_progress got w1) as (_ & Hdisk & Hcur).
  assert (H3 : (3 <= cursor w1)%nat) by (unfold w1; cbn [cursor]; lia).
  pose proof (wav_parse_chunk_outcome got w1 H3) as Hout.
  unfold bind in Ho.
  destruct (wav_parse_chunk got w1) as [o1 w2]. cbn [fst snd] in *.
  destruct Hout as [[b Hb]|Hv]; subst o1.
  - destruct b; [left; eexists; exact Ho|].
    subst o. apply IH. unfold contents in *. rewrite Hdisk.
    subst w1. cbn [cursor disk] in *. rewrite Hgot in Hcur. lia.
  - right. exact Ho.
Qed.

(* ===================================================================== *)
(** ** WAVE decode: outcomes and edge cases *)
(* ===================================================================== *)

(** X1.  [wav_import] comes to an end on every file and every record: the
    chunk loop never runs out of the fuel given to it, and the import
    either returns or raises one of [FileNotFoundError] (no file),
    [ValueError] (a clm chunk whose digits [int()] cannot read),
    [TypeError] (no samples or no wave size at the final recalculation) or
    [ZeroDivisionError] (a zero cycle length there). *)
Theorem wav_import_outcomes (w : World) :
  (exists b, fst (wav_import w) = Returned b)
  \/ fst (wav_import w) = Raised FileNotFoundError
  \/ fst (wav_import w) = Raised ValueError
  \/ fst (wav_import w) = Raised TypeError
  \/ fst (wav_import w) = Raised ZeroDivisionError.
Proof.
  remember (fst (wav_import w)) as o eqn:Ho.
  destruct w as [s d c l]. unfold wav_import in Ho.
  rewrite bind_log in Ho. unfold bind at 1 in Ho. unfold open_rb at 1 in Ho.
  cbn [disk] in Ho.
  destruct d as [d|]; [|right; left; exact Ho].
  cbn [self disk cursor logged] in Ho. unfold bind at 1 in Ho.
  pose proof (wav_import_loop_outcome (S (length d))
                (mkWorld s (Some d) 0 (l ++ [(INFO, "Reading"%string)]))) as Hout.
  cbn [contents disk cursor] in *.
  destruct (wav_import_loop _ _) as [o1 w2]. cbn [fst] in Hout.
  destruct Hout as [[b Hb]|Hv]; [lia | |]; subst o1.
  - destruct b; [left; eexists; exact Ho|].
    unfold bind in Ho. rewrite calc_wave_count_run in Ho.
    destruct (data_samples (self w2)); [|right; right; right; left; exact Ho].
    destruct (wave_size (self w2)); [|right; right; right; left; exact Ho].
    destruct (_ =? 0); [right; right; right; right; exact Ho|].
    left; eexists; exact Ho.
  - right; right; left; exact Ho.
Qed.

(* ===================================================================== *)
(** ** set_data: what it touches and what it recalculates *)
(* ===================================================================== *)

Lemma given_keeps {A B} (p : Wavetable -> B) (x : option A)
    (f : A -> Wavetable -> Wavetable) (s : Wavetable) :
  (forall v t, p (f v t) = p t) -> p (given x f s) = p s.
Proof. intros H. destruct x; cbn [given]; auto. Qed.

Lemma set_fields_samples (a : set_data_args) (s : Wavetable) :
  data_samples (set_fields a s) = data_samples s.
Proof.
  unfold set_fields.
  repeat (rewrite (given_keeps data_samples); [|intros; reflexivity]).
  reflexivity.
Qed.

(** X2.  [set_data] has no parameter for the samples and does no I/O:
    whatever the arguments, and whether the recalculation returns or
    raises, it leaves [data_samples], the file, the handle and the log as
    they were. *)
Theorem set_data_frame (a : set_data_args) (w : World) :
  let w' := snd (set_data a w) in
  data_samples (self w') = data_samples (self w)
  /\ disk w' = disk w /\ cursor w' = cursor w /\ logged w' = logged w.
Proof.
  destruct w as [s d c l]. cbv zeta. rewrite set_data_run.
  destruct (recalc_requested a); cbv zeta.
  - rewrite calc_wave_count_run. cbn [self].
    assert (Hs : data_samples (with_block_recalculated (set_fields a s))
                 = data_samples s) by apply set_fields_samples.
    set (s1 := with_block_recalculated (set_fields a s)) in *.
    destruct (data_samples s1) eqn:E1;
      [destruct (wave_size s1); [destruct (_ =? 0)|]|];
      cbn [snd self disk cursor logged set_wave_count data_samples];
      rewrite ?E1; auto.
  - cbn [snd self disk cursor logged]. auto using set_fields_samples.
Qed.

(** X3.  When [set_data] is asked to recalculate (and one of the four
    trigger arguments is truthy), and the product [channels * bits] of the
    record it leaves is below 2^53 in absolute value (where
    [int(channels * bits / 8)] is exact and cannot overflow), that record
    has [fmt_bytes_p_block = int(channels * bits / 8)] and
    [fmt_bytes_p_sec = sample_rate * fmt_bytes_p_block] for its own
    channels, bits and rate: a block align or byte rate passed in the same
    call is overwritten, and the two fields are recalculated even when the
    count recalculation that follows raises. *)
Theorem set_data_derived_fields (a : set_data_args) (w : World) :
  recalc_requested a = true ->
  let s' := self (snd (set_data a w)) in
  Z.abs (fmt_channels s' * fmt_bits_p_sample s') < 2 ^ 53 ->
  fmt_bytes_p_block s' = Z.quot (fmt_channels s' * fmt_bits_p_sample s') 8
  /\ fmt_bytes_p_sec s' = fmt_sample_rate s' * fmt_bytes_p_block s'.
Proof.
  intros Hr. destruct w as [s d c l]. cbv zeta. rewrite set_data_run, Hr.
  cbv zeta. rewrite calc_wave_count_run. cbn [self].
  destruct (data_samples _); [destruct (wave_size _); [destruct (_ =? 0)|]|];
    cbn [snd self]; intros _; split; reflexivity.
Qed.

Lemma set_data_derived_fields_witness :
  let a := mkArgs None None (Some 7) (Some 9) (Some 2) None None None None None true in
  let s' := self (snd (set_data a (world_of init None))) in
  fmt_bytes_p_block s' = 4 /\ fmt_bytes_p_sec s' = 352800.
Proof.
  cbv zeta.
  destruct (set_data_derived_fields
              (mkArgs None None (Some 7) (Some 9) (Some 2) None None None None None true)
              (world_of init None)) as [Hb Hs]; [reflexivity|reflexivity|].
  cbv zeta in Hb, Hs. rewrite Hs, Hb. split; reflexivity.
Defined.

(** X4.  The trigger test of [set_data] is a truth test, not a test for
    [None]: with [recalc=True] but every trigger argument ([fmt_bits_p_sample],
    [fmt_channels], [fmt_sample_rate], [wave_size]) absent or zero, nothing
    is recalculated.  The arguments are stored as given (a zero
    [wave_size] or [fmt_channels] included), no exception is raised, and
    block align, byte rate and wave count keep whatever the assignments
    left. *)
Theorem set_data_zero_triggers (a : set_data_args) (w : World) :
  truthy (arg_fmt_bits_p_sample a) = false ->
  truthy (arg_fmt_channels a) = false ->
  truthy (arg_fmt_sample_rate a) = false ->
  truthy (arg_wave_size a) = false ->
  set_data a w
  = (Returned tt,
     mkWorld (set_fields a (self w)) (disk w) (cursor w) (logged w)).
Proof.
  intros H1 H2 H3 H4. destruct w as [s d c l]. rewrite set_data_run.
  unfold recalc_requested. rewrite H1, H2, H3, H4, andb_false_r. reflexivity.
Qed.

Lemma set_data_zero_triggers_witness :
  let a := mkArgs None None None None (Some 0) None None None (Some 0) None true in
  let r := set_data a (world_of default_with_samples None) in
  fst r = Returned tt
  /\ wave_size (self (snd r)) = Some 0
  /\ fmt_channels (self (snd r)) = 0
  /\ fmt_bytes_p_block (self (snd r)) = 2
  /\ wave_count (self (snd r)) = None.
Proof.
  cbv zeta.
  rewrite (set_data_zero_triggers
             (mkArgs None None None None (Some 0) None None None (Some 0) None true)
             (world_of default_with_samples None));
    [|reflexivity|reflexivity|reflexivity|reflexivity].
  repeat split.
Defined.

(* ===================================================================== *)
(** ** WAVE decode: tags, sizes and malformed chunks *)
(* ===================================================================== *)

(** X5.  A file that starts with the tag [RIFF] but does not carry [WAVE]
    in its bytes 8 to 11 (a shorter file included) is given up at once:
    [wav_import] returns [True] after the warning, has read no further than
    those bytes and leaves every attribute of the record as it was. *)
Theorem wav_import_not_wave (s : Wavetable) (c : nat) (l : list (level * string))
    (rest : bytes) :
  bytes_eqb (firstn 4 (skipn 4 rest)) [x57; x41; x56; x45] = false ->
  let file := [x52; x49; x46; x46] ++ rest in
  wav_import (mkWorld s (Some file) c l)
  = (Returned true,
     mkWorld s (Some file) (8 + length (firstn 4 (skipn 4 rest)))
       (l ++ [(INFO, "Reading"%string);
              (INFO, "    Found 'riff' chunk."%string);
              (WARNING, "File not in WAVE format."%string)])).
Proof.
  intros Hm. cbv zeta. unfold wav_import.
  rewrite bind_log. unfold bind at 1. unfold open_rb at 1. cbn [disk self cursor logged].
  unfold bind at 1. cbn [contents disk].
  rewrite (wav_import_loop_chunk _ s _ 0 _ [x52; x49; x46; x46] rest);
    [|reflexivity|reflexivity].
  dispatch. rewrite bind_log. rewrite bind_seek_cur_forward by lia.
  unfold bind at 1. unfold read at 1. cbn [contents disk cursor self logged].
  change (skipn (0 + 4 + Z.to_nat 4) ([x52; x49; x46; x46] ++ rest))
    with (skipn 4 rest).
  change (Z.to_nat 4) with 4%nat.
  rewrite Hm. cbn [negb]. rewrite bind_log. unfold ret. cbn [Nat.add].
  rewrite <- !app_assoc. reflexivity.
Qed.

(** X6.  Four bytes that are none of the tags [RIFF], [fmt ], [clm ] and
    [data] move the import on by one byte and change nothing else: the
    size field of an unknown chunk is never used to skip its payload, which
    is searched for tags byte by byte.  [JUNK] is such a tag, for [is_junk]
    is never called. *)
Theorem wav_import_loop_resync (fuel : nat) (s : Wavetable) (d : list byte) (c : nat)
    (l : list (level * string)) (tag rest : bytes) :
  skipn c d = tag ++ rest -> length tag = 4%nat ->
  is_riff tag = false -> is_fmt tag = false ->
  is_clm tag = false -> is_data tag = false ->
  wav_import_loop (S fuel) (mkWorld s (Some d) c l)
  = wav_import_loop fuel (mkWorld s (Some d) (c + 1) l).
Proof.
  intros Hsk Htag Hr Hf Hc Hd.
  rewrite (wav_import_loop_chunk fuel s d c l tag rest Hsk Htag).
  unfold wav_parse_chunk. rewrite Hr, Hf, Hc, Hd.
  unfold bind, seek_cur, ret. cbn [cursor self disk logged].
  destruct (Z.ltb_spec (Z.of_nat (c + 4) + -3) 0) as [Hlt|Hge]; [lia|].
  replace (Z.to_nat (Z.of_nat (c + 4) + -3)) with (c + 1)%nat by lia.
  reflexivity.
Qed.

Lemma wav_import_loop_resync_witness :
  let junk := [x4a; x55; x4e; x4b] ++ [x02; x00; x00; x00] ++ [xaa; xbb] in
  is_junk (firstn 4 junk) = true
  /\ wav_import_loop 2 (mkWorld init (Some junk) 0 [])
     = wav_import_loop 1 (mkWorld init (Some junk) 1 []).
Proof.
  cbv zeta. split; [reflexivity|].
  apply (wav_import_loop_resync 1 init _ 0 []
           [x4a; x55; x4e; x4b] ([x02; x00; x00; x00] ++ [xaa; xbb]));
    reflexivity.
Defined.

(** X7.  The clm handler assigns as it parses.  When the bytes 3 to 6 of the
    payload read as an integer [ws] but byte 8 does not (or the payload
    ends before it), [int()] raises [ValueError] after [wave_size] has been
    set to [ws]: the record is left with the new wave size and the old
    interpolation and vendor, and the handle behind what was read of the
    chunk. *)
Theorem clm_chunk_half_read (s : Wavetable) (d : list byte) (c : nat)
    (l : list (level * string)) (sz body : bytes) (ws : Z) :
  skipn c d = sz ++ body -> length sz = 4%nat ->
  let clm_data := firstn (Z.to_nat (int_from_bytes sz)) body in
  int_of_bytes (slice clm_data 3 7) = Val ws ->
  int_of_bytes (slice clm_data 8 9) = Exc ValueError ->
  wav_parse_chunk [x63; x6c; x6d; x20] (mkWorld s (Some d) c l)
  = (Raised ValueError,
     mkWorld (set_wave_size (Some ws) s) (Some d) (c + 4 + length clm_data)
       (l ++ [(INFO, "    Found 'clm ' chunk."%string)])).
Proof.
  intros Hsk Hsz clm_data Hws Hwi.
  assert (Hrd : firstn 4 (skipn c d) = sz)
    by (rewrite Hsk, <- Hsz; apply firstn_app_length).
  assert (Hsk' : skipn (c + 4) d = body)
    by (rewrite (skipn_at _ _ _ _ Hsk), <- Hsz; apply skipn_app_length).
  dispatch. rewrite bind_log.
  unfold read_int. unfold bind at 1. unfold bind at 1. unfold read at 1.
  cbn [contents disk self cursor logged]. norm_nat. rewrite Hrd. unfold ret at 1.
  rewrite Hsz.
  unfold bind at 1. unfold read at 1. cbn [contents disk self cursor logged].
  rewrite Hsk'. fold clm_data. rewrite Hws. cbn [lift].
  unfold ret at 1. unfold bind at 1. unfold assign at 1.
  cbn [contents disk self cursor logged].
  rewrite Hwi. cbn [lift]. unfold bind at 1. unfold raise. reflexivity.
Qed.

Lemma clm_chunk_half_read_witness :
  let chunk := [x08; x00; x00; x00] ++ encode "<!>2048 " in
  let r := wav_parse_chunk [x63; x6c; x6d; x20] (mkWorld init (Some chunk) 0 []) in
  fst r = Raised ValueError
  /\ wave_size (self (snd r)) = Some 2048
  /\ wave_vendor (self (snd r)) = default_vendor.
Proof.
  cbv zeta.
  rewrite (clm_chunk_half_read init _ 0 [] [x08; x00; x00; x00]
             (encode "<!>2048 ") 2048);
    [repeat split|reflexivity|reflexivity|reflexivity|reflexivity].
Defined.

(** X8.  The size field of the first [data] chunk is not checked against
    the file: when it announces at least as many bytes as are left, the
    rest of the file becomes the samples, without any warning. *)
Theorem data_chunk_truncated (s : Wavetable) (d : list byte) (c : nat)
    (l : list (level * string)) (sz body : bytes) :
  no_samples (data_samples s) = true ->
  skipn c d = sz ++ body -> length sz = 4%nat ->
  len body <= int_from_bytes sz ->
  wav_parse_chunk [x64; x61; x74; x61] (mkWorld s (Some d) c l)
  = (Returned false,
     mkWorld (set_data_samples (Some body) s) (Some d) (c + 4 + length body)
       (l ++ [(INFO, "    Found 'data' chunk."%string)])).
Proof.
  intros Hno Hsk Hsz Hlen.
  assert (Hrd : firstn 4 (skipn c d) = sz)
    by (rewrite Hsk, <- Hsz; apply firstn_app_length).
  assert (Hsk' : skipn (c + 4) d = body)
    by (rewrite (skipn_at _ _ _ _ Hsk), <- Hsz; apply skipn_app_length).
  dispatch.
  unfold read_int. unfold bind at 1. unfold bind at 1. unfold read at 1.
  cbn [contents disk self cursor logged]. norm_nat. rewrite Hrd. unfold ret at 1.
  rewrite Hsz. rewrite bind_attr. cbn [self]. rewrite Hno.
  rewrite bind_log. unfold bind at 1. unfold read at 1.
  cbn [contents disk self cursor logged]. rewrite Hsk'.
  rewrite firstn_all2 by (unfold len in Hlen; lia).
  unfold bind, assign, ret. cbn [contents disk self cursor logged].
  reflexivity.
Qed.

Lemma data_chunk_truncated_witness :
  let chunk := [xff; xff; x00; x00] ++ [xaa; xbb] in
  wav_parse_chunk [x64; x61; x74; x61] (mkWorld init (Some chunk) 0 [])
  = (Returned false,
     mkWorld (set_data_samples (Some [xaa; xbb]) init) (Some chunk) 6
       [(INFO, "    Found 'data' chunk."%string)]).
Proof.
  cbv zeta.
  apply (data_chunk_truncated init _ 0 [] [xff; xff; x00; x00] [xaa; xbb]);
    [reflexivity|reflexivity|reflexivity|vm_compute; discriminate].
Defined.

Lemma wav_import_not_wave_witness :
  let file := [x52; x49; x46; x46] ++ [x04; x00; x00; x00] ++ encode "AVI " in
  wav_import (mkWorld init (Some file) 0 [])
  = (Returned true,
     mkWorld init (Some file) 12
       [(INFO, "Reading"%string);
        (INFO, "    Found 'riff' chunk."%string);
        (WARNING, "File not in WAVE format."%string)]).
Proof.
  cbv zeta.
  apply (wav_import_not_wave init 0 [] ([x04; x00; x00; x00] ++ encode "AVI ")).
  reflexivity.
Defined.

(* ===================================================================== *)
(** ** WT decode: what the header is used for *)
(* ===================================================================== *)

(** X9.  [wt_import] never looks at the four tag bytes, and once the flags
    are accepted and the wave size is not zero it does not keep the wave
    count of the header either: two files that differ only in the tag and
    in the count field give the same result, the same record (with the
    count recalculated from the samples) and the same log. *)
Theorem wt_import_ignores_tag_and_count (s : Wavetable) (c : nat)
    (l : list (level * string)) (tag tag' size count count' flags samples : bytes) :
  length tag = 4%nat -> length tag' = 4%nat -> length size = 4%nat ->
  length count = 2%nat -> length count' = 2%nat -> length flags = 2%nat ->
  int_from_bytes size <> 0 ->
  Z.testbit (int_from_bytes flags) 0 = false ->
  Z.testbit (int_from_bytes flags) 1 = false ->
  let r := wt_import (mkWorld s (Some (tag ++ size ++ count ++ flags ++ samples)) c l) in
  let r' := wt_import (mkWorld s (Some (tag' ++ size ++ count' ++ flags ++ samples)) c l) in
  fst r = Returned false /\ fst r' = Returned false
  /\ self (snd r) = self (snd r') /\ logged (snd r) = logged (snd r').
Proof.
  intros Ht Ht' Hs Hc Hc' Hf Hsz H0 H1. cbv zeta.
  rewrite !wt_import_closed by assumption.
  cbv zeta. rewrite H0, H1. cbn [orb].
  apply Z.eqb_neq in Hsz. rewrite Hsz. cbn [fst snd self logged].
  unfold wt_decoded. rewrite Hsz. auto.
Qed.

Lemma wt_import_ignores_tag_and_count_witness :
  let body := [x02; x00; x00; x00] in
  let flags := [x04; x00] in
  let smp := [x10; x20; x30; x40; x50; x60; x70; x80] in
  let r := wt_import (world_of init (Some (encode "vawt" ++ body ++ [x01; x00] ++ flags ++ smp))) in
  let r' := wt_import (world_of init (Some (encode "RIFF" ++ body ++ [x09; x09] ++ flags ++ smp))) in
  self (snd r) = self (snd r') /\ wave_count (self (snd r')) = Some 2.
Proof.
  cbv zeta.
  destruct (wt_import_ignores_tag_and_count init 0 [] (encode "vawt") (encode "RIFF")
              [x02; x00; x00; x00] [x01; x00] [x09; x09] [x04; x00]
              [x10; x20; x30; x40; x50; x60; x70; x80])
    as (_ & _ & Hself & _);
    [reflexivity|reflexivity|reflexivity|reflexivity|reflexivity|reflexivity
    |discriminate|reflexivity|reflexivity|].
  split; [exact Hself|reflexivity].
Defined.

(** X10.  A file of at most four bytes has no header fields: every read
    comes back empty, so the wave size, the count and the flags are read as
    zero, the samples as empty, and the recalculation of the wave count
    divides by zero.  [wt_import] raises [ZeroDivisionError] and leaves the
    record with a zero wave size, 32 bits and a block align of 4. *)
Theorem wt_import_short_file (s : Wavetable) (d : list byte) (c : nat)
    (l : list (level * string)) :
  (length d <= 4)%nat ->
  wt_import (mkWorld s (Some d) c l)
  = (Raised ZeroDivisionError,
     mkWorld (wt_decoded s 0 0 false []) (Some d) 4
       (l ++ [(INFO, "Reading"%string);
              (INFO, "Assume 'fmt ' chunk data, wave_interp = 0, and add wave_vendor b'wavetable (wavetabletools)'."%string)])).
Proof.
  intros Hd.
  assert (Hsk : forall n, (4 <= n)%nat -> skipn n d = []).
  { intros n Hn. apply skipn_all2. lia. }
  unfold wt_import. rewrite bind_log. unfold bind at 1. unfold open_rb at 1.
  cbn [disk self cursor logged].
  unfold bind at 1. unfold seek_set at 1. cbn [Z.ltb Z.compare disk self cursor logged].
  change (Z.to_nat 4) with 4%nat.
  unfold read_int.
  unfold bind at 1. unfold bind at 1. unfold read at 1.
  cbn [contents disk self cursor logged]. rewrite Hsk by lia.
  rewrite firstn_nil. cbn [length]. unfold ret at 1.
  unfold bind at 1. unfold assign at 1. cbn [contents disk self cursor logged].
  unfold bind at 1. unfold bind at 1. unfold read at 1.
  cbn [contents disk self cursor logged]. rewrite Hsk by lia.
  rewrite firstn_nil. cbn [length]. unfold ret at 1.
  unfold bind at 1. unfold assign at 1. cbn [contents disk self cursor logged].
  unfold bind at 1. unfold bind at 1. unfold read at 1.
  cbn [contents disk self cursor logged]. rewrite Hsk by lia.
  rewrite firstn_nil. cbn [length]. unfold ret at 1.
  rewrite <- !Nat.add_assoc. cbn [Nat.add].
  unfold bind at 1. rewrite wt_parse_flags_closed.
  change (int_from_bytes []) with 0.
  change (Z.testbit 0 0 || Z.testbit 0 1) with false. cbv iota.
  unfold bind at 1. unfold read_all at 1.
  cbn [contents disk self cursor logged]. rewrite Hsk by lia. cbn [length Nat.add].
  unfold bind at 1. unfold assign at 1. cbn [contents disk self cursor logged].
  rewrite bind_log. unfold bind at 1. rewrite set_data_run.
  change (recalc_requested wt_defaults) with true. cbv iota zeta.
  rewrite calc_wave_count_run. destruct s. rewrite <- app_assoc. reflexivity.
Qed.

Lemma wt_import_short_file_witness :
  fst (wt_import (world_of init (Some (encode "vawt")))) = Raised ZeroDivisionError.
Proof.
  unfold world_of. rewrite (wt_import_short_file init _ 0 []);
    [reflexivity|cbn; lia].
Defined.

(** X11.  [wt_write] takes the is-sample and is-looped flags from its
    caller and writes them without complaint, but [wt_import] refuses any
    file that carries one of them: a file written with either flag set is
    not read back.  The import returns [True] and the samples of the
    importing record stay as they were. *)
Theorem wt_flagged_file_rejected (sample looped full_range : bool)
    (s : Wavetable) d c l (z cnt : Z) (smp : bytes)
    (s0 : Wavetable) (c0 : nat) (l0 : list (level * string)) :
  fmt_channels s = 1 -> wave_size s = Some z -> bad_wave_size z = false ->
  0 <= z < 2 ^ 32 -> wave_count s = Some cnt -> 0 <= cnt < 2 ^ 16 ->
  data_samples s = Some smp ->
  sample || looped = true ->
  let w := snd (wt_write sample looped full_range (mkWorld s d c l)) in
  let r := wt_import (mkWorld s0 (disk w) c0 l0) in
  fst r = Returned true /\ data_samples (self (snd r)) = data_samples s0.
Proof.
  intros Hch Hws Hbad Hz Hwc Hcnt Hsmp Hflag. cbv zeta.
  rewrite (wt_write_written sample looped full_range s d c l z cnt smp
             Hch Hws Hbad Hz Hwc Hcnt Hsmp).
  cbn [snd disk]. unfold wt_container.
  rewrite wt_import_closed by (try apply length_le_bytes; reflexivity).
  cbv zeta.
  destruct (wt_set_flag_testbits s sample looped full_range) as (_ & _ & H1 & H0 & Hr).
  cbv zeta in H1, H0, Hr.
  rewrite (int_from_le_bytes 2) by (change (256 ^ Z.of_nat 2) with 65536; lia).
  rewrite H0, H1, Hflag. cbn [fst snd self]. split; reflexivity.
Qed.

Lemma wt_flagged_file_rejected_witness :
  let w := snd (wt_write true false true (world_of one_cycle None)) in
  fst (wt_import (world_of init (disk w))) = Returned true.
Proof.
  cbv zeta.
  destruct (wt_flagged_file_rejected true false true one_cycle None 0 [] 2 1
              [x01; x02; x03; x04] init 0 [])
    as [Hr _];
    [reflexivity|reflexivity|reflexivity|lia|reflexivity|lia|reflexivity
    |reflexivity|].
  exact Hr.
Defined.

(* ===================================================================== *)
(** ** WAVE encode: when it returns and what it leaves *)
(* ===================================================================== *)

Lemma int_range_dec (x : Z) (n : nat) :
  {0 <= x < 256 ^ Z.of_nat n} + {~ 0 <= x < 256 ^ Z.of_nat n}.
Proof.
  destruct (Z_le_dec 0 x); [|right; lia].
  destruct (Z_lt_dec x (256 ^ Z.of_nat n)); [left|right]; lia.
Qed.

Lemma int_to_bytes_overflow (x : Z) (n : nat) :
  ~ 0 <= x < 256 ^ Z.of_nat n -> int_to_bytes x n = Exc OverflowError.
Proof.
  intros Hx. unfold int_to_bytes.
  destruct (Z.ltb_spec x 0); [reflexivity|].
  destruct (Z.leb_spec (256 ^ Z.of_nat n) x); [reflexivity|lia].
Qed.

Lemma bind_write_int_overflow {B} (x : Z) (n : nat) (k : unit -> Py B) (w : World) :
  ~ 0 <= x < 256 ^ Z.of_nat n ->
  bind (write_int x n) k w = (Raised OverflowError, w).
Proof.
  intros Hx. unfold write_int, bind.
  rewrite int_to_bytes_overflow by exact Hx. reflexivity.
Qed.

(** The file-size patch at the end of [wav_write] on a file [d]. *)
Lemma backpatch_returns s (d : list byte) c l :
  fst ((seek_end ;; p <- tell ;; seek_set 4 ;; write_int (p - 8) 4)
         (mkWorld s (Some d) c l)) = Returned tt
  <-> 0 <= len d - 8 < 2 ^ 32.
Proof.
  unfold bind at 1. unfold seek_end at 1. cbn [contents disk self cursor logged].
  unfold bind at 1. unfold tell at 1. cbn [cursor].
  unfold bind at 1. unfold seek_set at 1. cbn [Z.ltb Z.compare self disk cursor logged].
  change (Z.of_nat (length d)) with (len d).
  destruct (int_range_dec (len d - 8) 4) as [Hr|Hr].
  - unfold write_int, bind. rewrite int_to_bytes_ok by exact Hr.
    cbn [lift]. unfold ret, write. cbn [fst].
    change (256 ^ Z.of_nat 4) with (2 ^ 32) in Hr. tauto.
  - unfold write_int, bind. rewrite int_to_bytes_overflow by exact Hr.
    cbn [lift]. unfold raise. cbn [fst].
    change (256 ^ Z.of_nat 4) with (2 ^ 32) in Hr.
    split; [discriminate|tauto].
Qed.

(** X12.  The clm payload that [wav_write] builds has an even number of
    bytes for every record, whatever the wave size, the interpolation and
    the vendor comment are. *)
Theorem clm_payload_even (s : Wavetable) : len (clm_payload s) mod 2 = 0.
Proof.
  unfold clm_payload. cbv zeta.
  set (clm_data := _ ++ wave_vendor s).
  destruct (Z.eqb_spec (len clm_data mod 2) 1) as [E|E].
  - unfold len in *. rewrite length_app. cbn [length].
    rewrite Nat2Z.inj_add. change (Z.of_nat 1) with 1.
    rewrite Z.add_mod by lia. rewrite E. reflexivity.
  - pose proof (Z.mod_pos_bound (len clm_data) 2). lia.
Qed.

Ltac write_int_or_fail :=
  match goal with
  | |- context [bind (write_int ?x ?n) _ _] =>
      let H := fresh "Hfit" in
      destruct (int_range_dec x n) as [H|H];
      [rewrite (bind_write_int_end x n) by exact H
      |rewrite (bind_write_int_overflow x n) by exact H;
       cbn [fst]; discriminate]
  end.

(** X13.  [wav_write] returns exactly when the record holds samples, each of
    the six format fields fits its field of the [fmt ] chunk (two or four
    bytes, unsigned) and the length of the whole file less 8 fits the four
    bytes of the RIFF size field. *)
Theorem wav_write_returns_iff (w : World) :
  fst (wav_write w) = Returned tt
  <-> exists smp,
        data_samples (self w) = Some smp /\ fmt_fits (self w)
        /\ 44 + len (clm_payload (self w)) + len smp < 2 ^ 32.
Proof.
  destruct w as [s d c l]. cbn [self]. split.
  - assert (Hclm0 : 0 <= len (clm_payload s)) by (unfold len; lia).
    unfold wav_write.
    rewrite bind_attr. cbn [self].
    rewrite bind_log, bind_open_wb.
    rewrite bind_log, !bind_write_end.
    rewrite bind_log, !bind_write_end.
    do 6 (rewrite bind_attr; cbn [self]; write_int_or_fail).
    rewrite bind_log, bind_write_end.
    write_int_or_fail.
    rewrite bind_write_end.
    rewrite bind_log, bind_write_end.
    rewrite bind_attr. cbn [self].
    destruct (data_samples s) as [smp|]; [|discriminate].
    unfold bind at 1. unfold ret at 1.
    write_int_or_fail.
    rewrite bind_write_end, bind_log.
    intros Hret. apply backpatch_returns in Hret.
    exists smp. split; [reflexivity|]. split.
    { unfold fmt_fits. change (2 ^ 16) with (256 ^ Z.of_nat 2).
      change (2 ^ 32) with (256 ^ Z.of_nat 4). tauto. }
    revert Hret. unfold len. cbn [app length].
    repeat (rewrite length_app || rewrite length_le_bytes || cbn [length]). lia.
  - intros (smp & Hs & Hfit & Htot).
    assert (Hclm0 : 0 <= len (clm_payload s)) by (unfold len; lia).
    assert (Hsmp0 : 0 <= len smp) by (unfold len; lia).
    rewrite (wav_write_written s d c l smp Hs Hfit) by lia. reflexivity.
Qed.

(** X14.  On a record without samples [wav_write] fails late: the header,
    the [fmt ] and [clm ] chunks and the [data] tag are on disk when
    [len(None)] raises [TypeError].  Whatever the file held before is gone,
    and what is left has no data payload and a zero size field. *)
Theorem wav_write_without_samples (s : Wavetable) d c l :
  data_samples s = None -> fmt_fits s -> len (clm_payload s) < 2 ^ 32 ->
  wav_write (mkWorld s d c l)
  = (Raised TypeError,
     mkWorld s (Some (wav_unfinished s)) (length (wav_unfinished s))
       (l ++ firstn 5 wav_write_log)).
Proof.
  intros Hs (Haf & Hch & Hsr & Hps & Hblk & Hbits) Hclm.
  assert (Hclm0 : 0 <= len (clm_payload s)) by (unfold len; lia).
  unfold wav_write.
  rewrite bind_attr. cbn [self].
  rewrite bind_log, bind_open_wb.
  rewrite bind_log, !bind_write_end.
  rewrite bind_log, !bind_write_end.
  do 6 (rewrite bind_attr; cbn [self]; rewrite bind_write_int_end by assumption).
  rewrite bind_log, bind_write_end.
  rewrite bind_write_int_end by (change (256 ^ Z.of_nat 4) with (2 ^ 32); lia).
  rewrite bind_write_end.
  rewrite bind_log, bind_write_end.
  rewrite bind_attr. cbn [self]. rewrite Hs.
  unfold bind at 1. unfold raise.
  unfold wav_unfinished, wav_write_log. cbn [firstn].
  rewrite <- !app_assoc. reflexivity.
Qed.

Lemma wav_write_without_samples_witness :
  let r := wav_write (world_of init (Some [x01; x02; x03])) in
  fst r = Raised TypeError /\ disk (snd r) = Some (wav_unfinished init).
Proof.
  cbv zeta. unfold world_of.
  rewrite (wav_write_without_samples init _ 0 []);
    [split; reflexivity|reflexivity| |vm_compute; reflexivity].
  unfold fmt_fits. cbn. lia.
Defined.

(** X15.  In the file that a complete [wav_write] leaves, the size field of
    the RIFF header (bytes 4 to 7) holds the length of the file less 8, and
    the file has 52 bytes besides the clm payload and the samples. *)
Theorem wav_write_riff_size (s : Wavetable) d c l (smp : bytes) :
  data_samples s = Some smp -> fmt_fits s ->
  44 + len (clm_payload s) + len smp < 2 ^ 32 ->
  exists file,
    disk (snd (wav_write (mkWorld s d c l))) = Some file
    /\ len file = 52 + len (clm_payload s) + len smp
    /\ int_from_bytes (slice file 4 8) = len file - 8.
Proof.
  intros Hs Hfit Htot.
  assert (Hclm0 : 0 <= len (clm_payload s)) by (unfold len; lia).
  assert (Hsmp0 : 0 <= len smp) by (unfold len; lia).
  rewrite (wav_write_written s d c l smp Hs Hfit) by lia.
  cbn [snd disk]. eexists. split; [reflexivity|].
  assert (Hlen : len (wav_container s smp) = 52 + len (clm_payload s) + len smp).
  { unfold wav_container, len. cbn [app length].
    repeat (rewrite length_app || rewrite length_le_bytes || cbn [length]). lia. }
  split; [exact Hlen|].
  rewrite Hlen. unfold wav_container, slice.
  change (Z.to_nat 8 - Z.to_nat 4)%nat with 4%nat.
  change (Z.to_nat 4) with (length [x52; x49; x46; x46]).
  rewrite skipn_app_length.
  set (size := le_bytes 4 _).
  change 4%nat with (length size) at 1.
  rewrite firstn_app_length. unfold size.
  rewrite (int_from_le_bytes 4) by (change (256 ^ Z.of_nat 4) with (2 ^ 32); lia).
  lia.
Qed.

Lemma wav_write_riff_size_witness :
  exists file,
    disk (snd (wav_write (world_of default_with_samples None))) = Some file
    /\ len file = 52 + 44 + 8
    /\ int_from_bytes (slice file 4 8) = len file - 8.
Proof.
  apply (wav_write_riff_size default_with_samples None 0 []
           [x01; x02; x03; x04; x05; x06; x07; x08]);
    [reflexivity| |vm_compute; reflexivity].
  unfold fmt_fits. cbn. lia.
Defined.

(* ===================================================================== *)
(** ** trim and the slicer at its edges *)
(* ===================================================================== *)

Lemma trim_run (s : Wavetable) d c l :
  trim (mkWorld s d c l) =
    match wave_count s, wave_size s, data_samples s with
    | Some n, Some z, Some smp =>
        (Returned tt,
         mkWorld (set_data_samples (Some (slice_to smp (n * z * fmt_bytes_p_block s))) s)
           d c l)
    | _, _, _ => (Raised TypeError, mkWorld s d c l)
    end.
Proof.
  unfold trim. rewrite !bind_attr. cbn [self].
  destruct (wave_count s) as [n|], (wave_size s) as [z|], (data_samples s) as [smp|];
    reflexivity.
Qed.

(** X16.  After the wave count has been recalculated for a positive cycle
    length [B = wave_size * block_align], [trim] keeps the whole cycles and
    nothing else: the samples are split into what is kept and what is cut,
    the kept part has [wave_count * B] bytes and less than one cycle is
    cut.  No other attribute changes. *)
Theorem trim_whole_cycles (s : Wavetable) d c l (smp : bytes) (ws : Z) :
  data_samples s = Some smp -> wave_size s = Some ws ->
  0 < ws * fmt_bytes_p_block s ->
  wave_count s = Some (len smp / (ws * fmt_bytes_p_block s)) ->
  exists kept cut,
    trim (mkWorld s d c l)
    = (Returned tt, mkWorld (set_data_samples (Some kept) s) d c l)
    /\ smp = kept ++ cut
    /\ len kept = len smp / (ws * fmt_bytes_p_block s) * (ws * fmt_bytes_p_block s)
    /\ len cut < ws * fmt_bytes_p_block s.
Proof.
  intros Hs Hws HB Hwc.
  set (B := ws * fmt_bytes_p_block s) in *.
  set (N := len smp / B) in *.
  assert (Hlen : 0 <= len smp) by (unfold len; lia).
  assert (HN : 0 <= N) by (apply Z.div_pos; lia).
  assert (Hdm : len smp = B * N + len smp mod B) by (apply Z.div_mod; lia).
  pose proof (Z.mod_pos_bound (len smp) B HB) as Hmod.
  assert (Hk : N * ws * fmt_bytes_p_block s = N * B) by (unfold B; lia).
  exists (firstn (Z.to_nat (N * B)) smp), (skipn (Z.to_nat (N * B)) smp).
  split; [|split; [|split]].
  - rewrite trim_run, Hwc, Hws, Hs, Hk. unfold slice_to.
    destruct (Z.ltb_spec (N * B) 0) as [Hneg|_]; [nia|]. reflexivity.
  - symmetry. apply firstn_skipn.
  - unfold len in *. rewrite length_firstn. nia.
  - unfold len in *. rewrite length_skipn. nia.
Qed.

Lemma trim_whole_cycles_witness :
  exists kept cut,
    trim (world_of (set_wave_count (Some 2) two_cycles_and_rest) None)
    = (Returned tt,
       world_of (set_data_samples (Some kept)
                   (set_wave_count (Some 2) two_cycles_and_rest)) None)
    /\ [x01; x02; x03; x04; x05; x06; x07; x08; x09; x0a] = kept ++ cut
    /\ len kept = 2 * 4
    /\ len cut < 4.
Proof.
  destruct (trim_whole_cycles (set_wave_count (Some 2) two_cycles_and_rest) None 0 []
              [x01; x02; x03; x04; x05; x06; x07; x08; x09; x0a] 2)
    as (kept & cut & H1 & H2 & H3 & H4);
    [reflexivity|reflexivity|reflexivity|reflexivity|].
  exists kept, cut. repeat split; assumption.
Defined.

(** X17.  With a wave count, wave size and block align whose product is not
    negative, trimming twice is trimming once. *)
Theorem trim_idempotent (s : Wavetable) d c l (smp : bytes) (n z : Z) :
  data_samples s = Some smp -> wave_count s = Some n -> wave_size s = Some z ->
  0 <= n * z * fmt_bytes_p_block s ->
  (trim ;; trim) (mkWorld s d c l) = trim (mkWorld s d c l).
Proof.
  intros Hs Hn Hz Hk. unfold bind.
  rewrite trim_run, Hn, Hz, Hs. rewrite trim_run.
  cbn [wave_count wave_size data_samples fmt_bytes_p_block set_data_samples].
  rewrite Hn, Hz. unfold slice_to.
  destruct (Z.ltb_spec (n * z * fmt_bytes_p_block s) 0) as [Hneg|_]; [lia|].
  rewrite firstn_firstn, Nat.min_id.
  destruct s. reflexivity.
Qed.

Lemma trim_idempotent_witness :
  let w := world_of (set_wave_count (Some 2) two_cycles_and_rest) None in
  (trim ;; trim) w = trim w.
Proof.
  cbv zeta.
  apply (trim_idempotent (set_wave_count (Some 2) two_cycles_and_rest) None 0 []
           [x01; x02; x03; x04; x05; x06; x07; x08; x09; x0a] 2 2);
    [reflexivity|reflexivity|reflexivity|cbn; lia].
Defined.

(** X18.  The slicer does not check the cycle length
    [wave_size * block_align] (an absent wave size counting as 2048).  When
    it is zero, [range] raises [ValueError]; when it is negative, the range
    of offsets is empty and the slicer returns no slice at all, however
    many samples there are. *)
Theorem slicer_nonpositive_cycle (w : World) (smp : bytes) :
  data_samples (self w) = Some smp ->
  cycle_bytes (self w) <= 0 ->
  fst (slicer w)
  = if cycle_bytes (self w) =? 0 then Raised ValueError else Returned [].
Proof.
  intros Hs HB. rewrite slicer_run, Hs. unfold range.
  assert (Hlen : 0 <= len smp) by (unfold len; lia).
  destruct (Z.eqb_spec (cycle_bytes (self w)) 0) as [E|E]; [reflexivity|].
  destruct (Z.ltb_spec 0 (cycle_bytes (self w))) as [Hpos|_]; [lia|].
  destruct (Z.ltb_spec (len smp) 0) as [Hneg|_]; [lia|].
  reflexivity.
Qed.

Lemma slicer_nonpositive_cycle_witness :
  fst (slicer (world_of negative_wave_size None)) = Returned []
  /\ fst (slicer (world_of (set_wave_size (Some 0) default_with_samples) None))
     = Raised ValueError.
Proof.
  split.
  - rewrite (slicer_nonpositive_cycle (world_of negative_wave_size None) [x01; x02]);
      [reflexivity|reflexivity|cbn; lia].
  - rewrite (slicer_nonpositive_cycle
               (world_of (set_wave_size (Some 0) default_with_samples) None)
               [x01; x02; x03; x04; x05; x06; x07; x08]);
      [reflexivity|reflexivity|cbn; lia].
Defined.

(* ===================================================================== *)
(** ** choose_channel *)
(* ===================================================================== *)

Lemma skipn_app_plus {A} (x rest : list A) (m : nat) :
  skipn (length x + m) (x ++ rest) = skipn m rest.
Proof.
  rewrite Nat.add_comm, <- skipn_skipn, skipn_app_length. reflexivity.
Qed.

(** Cutting the join of blocks of [b] bytes into pieces of [b] bytes gives
    the blocks back. *)
Lemma chunks_of_concat (b : nat) (blocks : list bytes) (start : nat) :
  Forall (fun x => length x = b) blocks ->
  map (fun k => firstn b (skipn ((k - start) * b) (concat blocks)))
    (seq start (length blocks)) = blocks.
Proof.
  intros Hb. revert start. induction Hb as [|x blocks Hx Hb IH]; intros start.
  - reflexivity.
  - cbn [length seq map concat]. f_equal.
    + rewrite Nat.sub_diag. cbn [Nat.mul skipn]. rewrite <- Hx.
      apply firstn_app_length.
    + rewrite <- (IH (S start)) at 2. apply map_ext_in.
      intros k Hk. apply in_seq in Hk.
      replace ((k - start) * b)%nat with (length x + (k - S start) * b)%nat by nia.
      rewrite skipn_app_plus. reflexivity.
Qed.

Lemma concat_pairs_flat frames : concat (pairs_flat frames) = interleaved frames.
Proof.
  unfold pairs_flat, interleaved. induction frames as [|p fr IH]; [reflexivity|].
  cbn [flat_map app concat]. rewrite IH, app_nil_r || rewrite IH.
  rewrite <- ?app_assoc. reflexivity.
Qed.

Lemma length_pairs_flat frames : length (pairs_flat frames) = (2 * length frames)%nat.
Proof.
  unfold pairs_flat. induction frames as [|p fr IH]; [reflexivity|].
  cbn [flat_map app length]. rewrite IH. lia.
Qed.

Lemma nth_error_pairs_flat frames (k : nat) :
  nth_error (pairs_flat frames) (2 * k) = option_map fst (nth_error frames k)
  /\ nth_error (pairs_flat frames) (2 * k + 1) = option_map snd (nth_error frames k).
Proof.
  revert k. induction frames as [|p fr IH]; intros k.
  - destruct k; cbn; rewrite ?nth_error_nil; split; reflexivity.
  - destruct k as [|k].
    + split; reflexivity.
    + replace (2 * S k)%nat with (S (S (2 * k))) by lia.
      replace (S (S (2 * k)) + 1)%nat with (S (S (2 * k + 1))) by lia.
      cbn [pairs_flat flat_map app nth_error]. apply IH.
Qed.

Lemma pick_all {A B} (f : A -> B) (l : list A) (start : nat) :
  flat_map (fun k => match option_map f (nth_error l (k - start)) with
                     | Some x => [x]
                     | None => []
                     end) (seq start (length l))
  = map f l.
Proof.
  revert start. induction l as [|a l IH]; intros start; [reflexivity|].
  cbn [length seq flat_map map]. rewrite Nat.sub_diag. cbn [nth_error option_map app].
  f_equal. rewrite <- (IH (S start)).
  rewrite !flat_map_concat_map. f_equal. apply map_ext_in.
  intros k Hk. apply in_seq in Hk.
  replace (k - start)%nat with (S (k - S start)) by lia. reflexivity.
Qed.

Lemma len_interleaved (b : nat) frames :
  frames_of b frames -> len (interleaved frames) = 2 * Z.of_nat (length frames) * Z.of_nat b.
Proof.
  unfold frames_of, interleaved, len. induction 1 as [|p fr [Hl Hr] _ IH]; [reflexivity|].
  cbn [flat_map length]. rewrite !length_app, Hl, Hr. lia.
Qed.

Lemma len_channel (b : nat) (right : bool) frames :
  frames_of b frames -> len (channel right frames) = Z.of_nat (length frames) * Z.of_nat b.
Proof.
  unfold frames_of, channel, len. induction 1 as [|p fr [Hl Hr] _ IH]; [reflexivity|].
  cbn [flat_map length]. rewrite !length_app. destruct right; lia.
Qed.

Lemma frames_of_pairs_flat (b : nat) frames :
  frames_of b frames -> Forall (fun x => length x = b) (pairs_flat frames).
Proof.
  unfold frames_of, pairs_flat. induction 1 as [|p fr [Hl Hr] _ IH]; [constructor|].
  cbn [flat_map app]. auto.
Qed.

(** The list [samples_list] of [choose_channel] on interleaved frames. *)
Lemma stereo_samples_list (b : nat) frames :
  (0 < b)%nat -> frames_of b frames ->
  exists block_nums,
    range 0 (Z.quot (len (interleaved frames)) (Z.of_nat b)) 1 = Val block_nums
    /\ map (fun k => slice (interleaved frames) (k * Z.of_nat b) ((k + 1) * Z.of_nat b))
         block_nums
       = pairs_flat frames.
Proof.
  intros Hb Hfr.
  rewrite (len_interleaved b frames Hfr).
  rewrite Z.quot_mul by lia.
  rewrite range_from_0 by lia.
  eexists. split; [reflexivity|].
  rewrite map_map.
  replace (Z.to_nat ((2 * Z.of_nat (length frames) + 1 - 1) / 1))
    with (length (pairs_flat frames))
    by (rewrite length_pairs_flat, Z.div_1_r; lia).
  rewrite <- (chunks_of_concat b (pairs_flat frames) 0 (frames_of_pairs_flat b frames Hfr)) at 2.
  rewrite concat_pairs_flat. apply map_ext. intros k.
  unfold slice. rewrite Nat.sub_0_r. f_equal; [|f_equal]; nia.
Qed.

Lemma slice_step_pairs_flat frames :
  slice_step (pairs_flat frames) 0 2 = map fst frames
  /\ slice_step (pairs_flat frames) 1 2 = map snd frames.
Proof.
  unfold slice_step, len. rewrite length_pairs_flat. split.
  - rewrite range_from_0 by lia.
    replace (Z.to_nat ((Z.of_nat (2 * length frames) + 2 - 1) / 2)) with (length frames).
    2:{ replace (Z.of_nat (2 * length frames) + 2 - 1) with (1 + Z.of_nat (length frames) * 2) by lia.
        rewrite Z.div_add by lia. change (1 / 2) with 0. lia. }
    rewrite flat_map_concat_map, map_map, <- flat_map_concat_map.
    rewrite <- (pick_all fst frames 0).
    rewrite !flat_map_concat_map. f_equal. apply map_ext. intros k.
    replace (Z.to_nat (0 + Z.of_nat k * 2)) with (2 * k)%nat by lia.
    rewrite Nat.sub_0_r. rewrite (proj1 (nth_error_pairs_flat frames k)).
    reflexivity.
  - unfold range. cbn [Z.eqb Z.ltb Z.compare].
    replace (Z.to_nat (if 1 <? Z.of_nat (2 * length frames)
                       then (Z.of_nat (2 * length frames) - 1 + 2 - 1) / 2 else 0))
      with (length frames).
    2:{ destruct (Z.ltb_spec 1 (Z.of_nat (2 * length frames))) as [H|H]; [|lia].
        replace (Z.of_nat (2 * length frames) - 1 + 2 - 1) with (0 + Z.of_nat (length frames) * 2) by lia.
        rewrite Z.div_add by lia. change (0 / 2) with 0. lia. }
    rewrite flat_map_concat_map, map_map, <- flat_map_concat_map.
    rewrite <- (pick_all snd frames 0).
    rewrite !flat_map_concat_map. f_equal. apply map_ext. intros k.
    replace (Z.to_nat (1 + Z.of_nat k * 2)) with (2 * k + 1)%nat by lia.
    rewrite Nat.sub_0_r. rewrite (proj2 (nth_error_pairs_flat frames k)).
    reflexivity.
Qed.

Lemma concat_map_channel (right : bool) frames :
  concat (map (if right then snd else fst) frames) = channel right frames.
Proof.
  unfold channel. rewrite flat_map_concat_map. f_equal.
  apply map_ext. intros p. destruct right; reflexivity.
Qed.

Lemma set_data_to_mono (s : Wavetable) d c l (smp : bytes) (ws : Z) :
  data_samples s = Some smp -> wave_size s = Some ws ->
  ws * Z.quot (fmt_bits_p_sample s) 8 <> 0 ->
  set_data to_mono (mkWorld s d c l)
  = (Returned tt,
     mkWorld (made_mono s (Z.quot (len smp) (ws * Z.quot (fmt_bits_p_sample s) 8)))
       d c l).
Proof.
  intros Hs Hws Hrec. apply Z.eqb_neq in Hrec.
  rewrite set_data_run.
  change (recalc_requested to_mono) with true. cbv iota zeta.
  rewrite calc_wave_count_run.
  destruct s as [ds af bits blk sec ch rate wc wi wsz v].
  cbn in Hs, Hws, Hrec. subst ds wsz.
  unfold set_fields, to_mono, with_block_recalculated, made_mono.
  cbn [self data_samples wave_size fmt_bytes_p_block fmt_channels fmt_bits_p_sample
       fmt_sample_rate given
       arg_fmt_audio_format arg_fmt_bits_p_sample arg_fmt_bytes_p_block
       arg_fmt_bytes_p_sec arg_fmt_channels arg_fmt_sample_rate arg_wave_count
       arg_wave_interp arg_wave_size arg_wave_vendor
       set_fmt_channels set_fmt_bytes_p_block set_fmt_bytes_p_sec set_wave_count].
  replace (1 * bits) with bits by lia.
  rewrite Hrec. reflexivity.
Qed.

(** X19.  [choose_channel] takes interleaved stereo apart.  Take a record
    with two channels and a block align of [2 * b] bytes, [0 < b], whose
    samples are frames of a left and a right sample of [b] bytes each; let
    it have a wave size [ws] with [ws * int(bits / 8)] not zero, so that the
    two recalculations of [set_data] do not divide by zero; and let the
    block align, the bits per sample and the length of the samples be below
    2^53 in absolute value, where the three [int(a / b)] of the method are
    exact.  Then [choose_channel] returns [None] and leaves the samples of
    the chosen channel, joined in order: the left ones by default, the
    right ones for [right=True].  The record has become mono, with block
    align [int(bits / 8)], byte rate and wave count recalculated from the
    bits per sample and the new samples, and one line is logged. *)
Theorem choose_channel_deinterleaves (right : bool) (s : Wavetable) d c l
    (b : nat) (frames : list (bytes * bytes)) (ws : Z) :
  fmt_channels s = 2 ->
  fmt_bytes_p_block s = 2 * Z.of_nat b -> (0 < b)%nat ->
  frames_of b frames ->
  data_samples s = Some (interleaved frames) ->
  wave_size s = Some ws ->
  ws * Z.quot (fmt_bits_p_sample s) 8 <> 0 ->
  fmt_bytes_p_block s < 2 ^ 53 ->
  Z.abs (fmt_bits_p_sample s) < 2 ^ 53 ->
  len (interleaved frames) < 2 ^ 53 ->
  let r := choose_channel right (mkWorld s d c l) in
  let s' := self (snd r) in
  fst r = Returned false
  /\ data_samples s' = Some (channel right frames)
  /\ fmt_channels s' = 1
  /\ fmt_bytes_p_block s' = Z.quot (fmt_bits_p_sample s) 8
  /\ fmt_bytes_p_sec s' = fmt_sample_rate s * Z.quot (fmt_bits_p_sample s) 8
  /\ wave_count s'
     = Some (Z.quot (len (channel right frames)) (ws * Z.quot (fmt_bits_p_sample s) 8))
  /\ logged (snd r)
     = l ++ [(INFO, if right then "Keep right channel data."%string
                    else "Keep left channel data."%string)].
Proof.
  intros Hch Hblk Hb Hfr Hs Hws Hrec _ _ _.
  destruct (stereo_samples_list b frames Hb Hfr) as (block_nums & Hrange & Hlist).
  destruct (slice_step_pairs_flat frames) as [Hleft Hright].
  assert (Hrun : exists s',
    choose_channel right (mkWorld s d c l)
    = (Returned false,
       mkWorld s' d c
         (l ++ [(INFO, if right then "Keep right channel data."%string
                       else "Keep left channel data."%string)]))
    /\ data_samples s' = Some (channel right frames)
    /\ fmt_channels s' = 1
    /\ fmt_bytes_p_block s' = Z.quot (fmt_bits_p_sample s) 8
    /\ fmt_bytes_p_sec s' = fmt_sample_rate s * Z.quot (fmt_bits_p_sample s) 8
    /\ wave_count s'
       = Some (Z.quot (len (channel right frames))
                 (ws * Z.quot (fmt_bits_p_sample s) 8))).
  { eexists. split.
    - unfold choose_channel.
      rewrite bind_attr. cbn [self]. rewrite Hch. cbn [Z.eqb Pos.eqb].
      rewrite bind_attr. cbn [self]. rewrite Hblk.
      unfold int_truediv at 1. cbn [Z.eqb]. rewrite (Z.mul_comm 2), Z.quot_mul by lia.
      cbn [lift]. unfold bind at 1. unfold ret at 1.
      rewrite bind_attr. cbn [self]. rewrite Hs.
      unfold bind at 1. unfold ret at 1.
      unfold int_truediv at 1.
      destruct (Z.eqb_spec (Z.of_nat b) 0) as [E|_]; [lia|].
      cbn [lift]. unfold bind at 1. unfold ret at 1.
      rewrite Hrange. cbn [lift]. unfold bind at 1. unfold ret at 1.
      change (range 0 2 1) with (Val [0; 1]). cbn [lift].
      unfold bind at 1. unfold ret at 1. cbv zeta.
      rewrite Hlist. cbn [map nth_error]. unfold bytes in *. rewrite Hleft, Hright.
      unfold bind at 1.
      rewrite (set_data_to_mono s d c l (interleaved frames) ws Hs Hws Hrec).
      rewrite (concat_map_channel true), (concat_map_channel false).
      set (s1 := made_mono s _).
      assert (Hs2 : forall smp, set_data to_mono
                (mkWorld (set_data_samples (Some smp) s1) d c
                   (l ++ [(INFO, if right then "Keep right channel data."%string
                                 else "Keep left channel data."%string)]))
              = (Returned tt,
                 mkWorld (made_mono (set_data_samples (Some smp) s1)
                            (Z.quot (len smp) (ws * Z.quot (fmt_bits_p_sample s) 8)))
                   d c
                   (l ++ [(INFO, if right then "Keep right channel data."%string
                                 else "Keep left channel data."%string)]))).
      { intros smp.
        rewrite (set_data_to_mono (set_data_samples (Some smp) s1) d c _ smp ws);
          [reflexivity|reflexivity|exact Hws|exact Hrec]. }
      destruct right.
      + unfold bind at 1. unfold bind at 1. unfold assign at 1.
        cbn [self disk cursor logged]. unfold log_msg at 1.
        cbn [self disk cursor logged]. unfold bind at 1. rewrite Hs2.
        unfold ret. reflexivity.
      + unfold bind at 1. unfold bind at 1. unfold assign at 1.
        cbn [self disk cursor logged]. unfold log_msg at 1.
        cbn [self disk cursor logged]. unfold bind at 1. rewrite Hs2.
        unfold ret. reflexivity.
    - repeat split. }
  destruct Hrun as (s' & Hrun & H1 & H2 & H3 & H4 & H5).
  cbv zeta. rewrite Hrun. cbn [fst snd self logged]. tauto.
Qed.

Lemma choose_channel_deinterleaves_witness :
  let frames := [([x01; x02], [xa1; xa2]); ([x03; x04], [xa3; xa4])] in
  let s := set_fmt_bytes_p_block 4
             (set_fmt_channels 2 (set_data_samples (Some (interleaved frames)) init)) in
  let r := choose_channel true (world_of s None) in
  fst r = Returned false
  /\ data_samples (self (snd r)) = Some [xa1; xa2; xa3; xa4]
  /\ fmt_bytes_p_block (self (snd r)) = 2.
Proof.
  cbv zeta.
  destruct (choose_channel_deinterleaves true
              (set_fmt_bytes_p_block 4
                 (set_fmt_channels 2
                    (set_data_samples
                       (Some (interleaved [([x01; x02], [xa1; xa2]); ([x03; x04], [xa3; xa4])]))
                       init)))
              None 0 [] 2 [([x01; x02], [xa1; xa2]); ([x03; x04], [xa3; xa4])] 2048)
    as (H1 & H2 & _ & H4 & _);
    [reflexivity|reflexivity|lia|repeat constructor|reflexivity|reflexivity
    |cbn; discriminate|reflexivity|reflexivity|reflexivity|].
  split; [exact H1|]. split; [exact H2|exact H4].
Defined.

(* ===================================================================== *)
(** ** The deduplicator, run twice *)
(* ===================================================================== *)

Lemma cycle_count_nil (b : nat) : (0 < b)%nat -> (len (@nil byte) + Z.of_nat b - 1) / Z.of_nat b = 0.
Proof. intros Hb. apply Z.div_small. unfold len. cbn [length]. lia. Qed.

Lemma cycle_count_cons (b : nat) (smp : bytes) :
  (0 < b)%nat -> smp <> [] ->
  Z.to_nat ((len smp + Z.of_nat b - 1) / Z.of_nat b)
  = S (Z.to_nat ((len (skipn b smp) + Z.of_nat b - 1) / Z.of_nat b)).
Proof.
  intros Hb Hne. unfold len. rewrite length_skipn.
  assert (Hl : (0 < length smp)%nat) by (destruct smp; [contradiction|cbn; lia]).
  destruct (Nat.le_gt_cases (length smp) b) as [Hle|Hgt].
  - replace (length smp - b)%nat with 0%nat by lia.
    change (Z.of_nat 0) with 0. rewrite (Z.div_small (0 + Z.of_nat b - 1)) by lia.
    replace (Z.of_nat (length smp) + Z.of_nat b - 1)
      with (Z.of_nat (length smp) - 1 + 1 * Z.of_nat b) by lia.
    rewrite Z.div_add by lia. rewrite Z.div_small by lia. reflexivity.
  - replace (Z.of_nat (length smp) + Z.of_nat b - 1)
      with (Z.of_nat (length smp - b) + Z.of_nat b - 1 + 1 * Z.of_nat b) by lia.
    rewrite Z.div_add by lia.
    assert (0 <= (Z.of_nat (length smp - b) + Z.of_nat b - 1) / Z.of_nat b)
      by (apply Z.div_pos; lia).
    lia.
Qed.

Lemma cycles_of_nil (b : nat) : (0 < b)%nat -> cycles_of b [] = [].
Proof. intros Hb. unfold cycles_of. rewrite cycle_count_nil by exact Hb. reflexivity. Qed.

Lemma cycles_of_cons (b : nat) (smp : bytes) :
  (0 < b)%nat -> smp <> [] ->
  cycles_of b smp = firstn b smp :: cycles_of b (skipn b smp).
Proof.
  intros Hb Hne. unfold cycles_of.
  rewrite (cycle_count_cons b smp Hb Hne). cbn [seq map]. f_equal.
  rewrite <- seq_shift, map_map. apply map_ext. intros k.
  rewrite skipn_skipn. f_equal. f_equal. lia.
Qed.

Lemma cycles_of_chunked (b : nat) (smp : bytes) :
  (0 < b)%nat -> chunked b (cycles_of b smp).
Proof.
  intros Hb. remember (length smp) as n eqn:Hn.
  revert smp Hn. induction n as [n IH] using lt_wf_ind. intros smp Hn.
  destruct smp as [|x smp']; [rewrite cycles_of_nil by exact Hb; exact I|].
  rewrite cycles_of_cons by (exact Hb || discriminate).
  set (smp := x :: smp') in *.
  destruct (skipn b smp) as [|y rest'] eqn:Hsk.
  - rewrite cycles_of_nil by exact Hb. cbn [chunked].
    rewrite length_firstn. subst smp. cbn [length] in *. lia.
  - assert (Hlen : (b < length smp)%nat).
    { apply (f_equal (@length byte)) in Hsk. rewrite length_skipn in Hsk.
      cbn [length] in Hsk. lia. }
    assert (Hrest : chunked b (cycles_of b (y :: rest'))).
    { apply (IH (length (y :: rest'))); [|reflexivity].
      rewrite <- Hsk, length_skipn. lia. }
    rewrite cycles_of_cons in Hrest |- * by (exact Hb || discriminate).
    cbn [chunked]. split; [|exact Hrest].
    rewrite length_firstn. lia.
Qed.

Lemma chunked_cycles_of (b : nat) (cycles : list bytes) :
  (0 < b)%nat -> chunked b cycles -> cycles_of b (concat cycles) = cycles.
Proof.
  intros Hb. induction cycles as [|x rest IH]; intros Hc.
  - apply cycles_of_nil. exact Hb.
  - destruct rest as [|y rest'].
    + cbn [chunked] in Hc. cbn [concat]. rewrite app_nil_r.
      rewrite cycles_of_cons by (exact Hb || (destruct x; [cbn in Hc; lia|discriminate])).
      rewrite firstn_all2 by lia. rewrite skipn_all2 by lia.
      rewrite cycles_of_nil by exact Hb. reflexivity.
    + destruct Hc as [Hx Hc]. change (concat (x :: y :: rest')) with (x ++ concat (y :: rest')).
      rewrite cycles_of_cons;
        [|exact Hb|destruct x; [cbn in Hx; lia|discriminate]].
      replace (firstn b (x ++ concat (y :: rest'))) with x
        by (rewrite <- Hx; symmetry; apply firstn_app_length).
      replace (skipn b (x ++ concat (y :: rest'))) with (concat (y :: rest'))
        by (rewrite <- Hx; symmetry; apply skipn_app_length).
      f_equal. apply IH. exact Hc.
Qed.

Lemma keep_after_chunked (b : nat) (rest : list bytes) (first : bytes) :
  chunked b (first :: rest) -> chunked b (first :: keep_after first rest).
Proof.
  revert first. induction rest as [|c cs IH]; intros first Hc; [exact Hc|].
  destruct Hc as [Hf Hc]. cbn [keep_after].
  destruct (list_eq_dec byte_eq_dec c first) as [E|E].
  - subst c. apply IH. exact Hc.
  - specialize (IH c Hc). split; assumption.
Qed.

Lemma keep_after_idempotent (rest : list bytes) (first : bytes) :
  keep_after first (keep_after first rest) = keep_after first rest.
Proof.
  revert first. induction rest as [|c cs IH]; intros first; [reflexivity|].
  cbn [keep_after].
  destruct (list_eq_dec byte_eq_dec c first) as [E|E]; [apply IH|].
  cbn [keep_after].
  destruct (list_eq_dec byte_eq_dec c first) as [E'|_]; [contradiction|].
  rewrite IH. reflexivity.
Qed.

Lemma cycle_bytes_defaulted (w : World) :
  cycle_bytes (self (wave_size_defaulted w)) = cycle_bytes (self w).
Proof.
  unfold wave_size_defaulted, cycle_bytes.
  destruct (wave_size (self w)) eqn:E; [rewrite E; reflexivity|reflexivity].
Qed.

Lemma data_samples_defaulted (w : World) :
  data_samples (self (wave_size_defaulted w)) = data_samples (self w).
Proof.
  unfold wave_size_defaulted. destruct (wave_size (self w)); reflexivity.
Qed.

Lemma slicer_cycles_of (w : World) (smp : bytes) :
  data_samples (self w) = Some smp -> 0 < cycle_bytes (self w) ->
  slicer w
  = (Returned (cycles_of (Z.to_nat (cycle_bytes (self w))) smp), wave_size_defaulted w).
Proof.
  intros Hs HB. rewrite (slicer_positive w smp Hs HB). unfold cycles_of.
  rewrite Z2Nat.id by lia. reflexivity.
Qed.

(** The deduplicator on a record whose samples are cycles without a
    repetition: nothing to do. *)
Lemma deduplicator_nothing_to_do (w : World) (first : bytes) (rest : list bytes) :
  data_samples (self w) = Some (concat (first :: keep_after first rest)) ->
  0 < cycle_bytes (self w) ->
  chunked (Z.to_nat (cycle_bytes (self w))) (first :: keep_after first rest) ->
  fst (deduplicator w) = Returned true
  /\ data_samples (self (snd (deduplicator w))) = data_samples (self w).
Proof.
  intros Hs HB Hc.
  rewrite deduplicator_run, (slicer_cycles_of w _ Hs HB).
  rewrite chunked_cycles_of by (exact Hc || lia).
  cbv zeta. rewrite keep_after_idempotent, Nat.eqb_refl.
  cbn [fst snd self]. split; [reflexivity|apply data_samples_defaulted].
Qed.

(** X20.  Deduplicating is idempotent.  On a record with samples and a
    positive cycle length, whatever a first run of the deduplicator did, a
    second run finds nothing to drop: it returns [True] ("No duplicates
    found.") and leaves the samples as the first run left them. *)
Theorem deduplicator_idempotent (w : World) (smp : bytes) :
  data_samples (self w) = Some smp -> smp <> [] -> 0 < cycle_bytes (self w) ->
  let w1 := snd (deduplicator w) in
  fst (deduplicator w1) = Returned true
  /\ data_samples (self (snd (deduplicator w1))) = data_samples (self w1).
Proof.
  intros Hs Hne HB. cbv zeta.
  assert (Hb : (0 < Z.to_nat (cycle_bytes (self w)))%nat) by lia.
  pose proof (cycles_of_chunked (Z.to_nat (cycle_bytes (self w))) smp Hb) as Hc.
  pose proof (cycles_of_cons (Z.to_nat (cycle_bytes (self w))) smp Hb Hne) as Hcons.
  set (first := firstn _ smp) in Hcons.
  set (rest := cycles_of _ (skipn _ smp)) in Hcons.
  rewrite Hcons in Hc.
  rewrite (deduplicator_run w), (slicer_cycles_of w smp Hs HB), Hcons.
  cbv zeta.
  match goal with
  | |- context [if ?test then _ else _] => destruct test eqn:E
  end; cbn [snd].
  - set (w1 := mkWorld _ _ _ _).
    assert (Hs1 : data_samples (self w1) = Some smp)
      by (unfold w1; cbn [self]; rewrite data_samples_defaulted; exact Hs).
    assert (HB1 : cycle_bytes (self w1) = cycle_bytes (self w))
      by (unfold w1; cbn [self]; apply cycle_bytes_defaulted).
    rewrite (deduplicator_run w1), (slicer_cycles_of w1 smp Hs1) by lia.
    rewrite HB1, Hcons. cbv zeta. rewrite E. cbn [fst snd self].
    split; [reflexivity|]. rewrite data_samples_defaulted. reflexivity.
  - set (w1 := mkWorld _ _ _ _).
    assert (HB1 : cycle_bytes (self w1) = cycle_bytes (self w)).
    { unfold w1. cbn [self]. rewrite <- cycle_bytes_defaulted.
      destruct (self (wave_size_defaulted w)). reflexivity. }
    apply (deduplicator_nothing_to_do w1 first rest).
    + unfold w1. cbn [self]. destruct (self (wave_size_defaulted w)). reflexivity.
    + lia.
    + rewrite HB1. apply keep_after_chunked. exact Hc.
Qed.

Lemma deduplicator_idempotent_witness :
  let w1 := snd (deduplicator (world_of three_alike_one_other None)) in
  fst (deduplicator w1) = Returned true
  /\ data_samples (self (snd (deduplicator w1))) = data_samples (self w1)
  /\ data_samples (self w1)
     = Some ([x01; x02; x03; x04; x05; x06; x07; x08]
             ++ [x11; x12; x13; x14; x15; x16; x17; x18]).
Proof.
  cbv zeta.
  destruct (deduplicator_idempotent (world_of three_alike_one_other None)
              ([x01; x02; x03; x04; x05; x06; x07; x08]
               ++ [x01; x02; x03; x04; x05; x06; x07; x08]
               ++ [x01; x02; x03; x04; x05; x06; x07; x08]
               ++ [x11; x12; x13; x14; x15; x16; x17; x18]))
    as [H1 H2]; [reflexivity|discriminate|reflexivity|].
  split; [exact H1|]. split; [exact H2|]. vm_compute. reflexivity.
Defined.

(* ===================================================================== *)
(** ** wav_export_cycles *)
(* ===================================================================== *)

Ltac write_int_cases :=
  match goal with
  | |- context [bind (write_int ?x ?n) _ _] =>
      let H := fresh "Hfit" in
      destruct (int_range_dec x n) as [H|H];
      [rewrite (bind_write_int_end x n) by exact H
      |rewrite (bind_write_int_overflow x n) by exact H; reflexivity]
  end.

(** [wav_write] assigns no attribute. *)
Lemma wav_write_keeps_self (w : World) : self (snd (wav_write w)) = self w.
Proof.
  destruct w as [s d c l]. cbn [self].
  unfold wav_write.
  rewrite bind_attr. cbn [self].
  rewrite bind_log, bind_open_wb.
  rewrite bind_log, !bind_write_end.
  rewrite bind_log, !bind_write_end.
  do 6 (rewrite bind_attr; cbn [self]; write_int_cases).
  rewrite bind_log, bind_write_end.
  write_int_cases.
  rewrite bind_write_end.
  rewrite bind_log, bind_write_end.
  rewrite bind_attr. cbn [self].
  destruct (data_samples s) as [smp|]; [|reflexivity].
  unfold bind at 1. unfold ret at 1.
  write_int_cases.
  rewrite bind_write_end, bind_log.
  unfold bind at 1. unfold seek_end at 1. cbn [contents disk self cursor logged].
  unfold bind at 1. unfold tell at 1. cbn [cursor].
  unfold bind at 1. unfold seek_set at 1. cbn [Z.ltb Z.compare self disk cursor logged].
  unfold write_int, bind.
  destruct (int_to_bytes _ 4); reflexivity.
Qed.

Lemma wav_export_loop_files (s : Wavetable) (cycles : list bytes) :
  fmt_fits s ->
  Forall (fun cyc => 44 + len (clm_payload s) + len cyc < 2 ^ 32) cycles ->
  forall ds d c l, exists ds' d' c' l',
    wav_export_loop cycles (mkWorld (set_data_samples ds s) d c l)
    = (Returned (map (fun cyc => Some (wav_container s cyc)) cycles),
       mkWorld (set_data_samples ds' s) d' c' l').
Proof.
  intros Hfit Hall. induction Hall as [|cyc cycles Hcyc _ IH]; intros ds d c l.
  - exists ds, d, c, l. reflexivity.
  - cbn [wav_export_loop map].
    unfold bind at 1. unfold assign at 1. cbn [self disk cursor logged].
    change (set_data_samples (Some cyc) (set_data_samples ds s))
      with (set_data_samples (Some cyc) s).
    unfold bind at 1.
    assert (Hclm0 : 0 <= len (clm_payload s)) by (unfold len; lia).
    assert (Hcyc0 : 0 <= len cyc) by (unfold len; lia).
    rewrite (wav_write_written (set_data_samples (Some cyc) s) d c l cyc);
      [|reflexivity|exact Hfit
       |change (clm_payload (set_data_samples (Some cyc) s)) with (clm_payload s); lia
       |lia
       |change (clm_payload (set_data_samples (Some cyc) s)) with (clm_payload s); lia].
    unfold bind at 1. unfold written at 1. cbn [disk].
    destruct (IH (Some cyc) (Some (wav_container (set_data_samples (Some cyc) s) cyc))
                8%nat (l ++ wav_write_log)) as (ds' & d' & c' & l' & Hloop).
    unfold bind at 1. rewrite Hloop. unfold ret.
    exists ds', d', c', l'. reflexivity.
Qed.

Lemma cycles_of_short (b : nat) (smp cyc : bytes) :
  In cyc (cycles_of b smp) -> len cyc <= len smp.
Proof.
  unfold cycles_of. intros Hin. apply in_map_iff in Hin.
  destruct Hin as (k & Hk & _). subst cyc. unfold len.
  rewrite length_firstn, length_skipn. lia.
Qed.

Lemma wav_export_cycles_run (w : World) (smp : bytes) :
  data_samples (self w) = Some smp -> 0 < cycle_bytes (self w) ->
  fmt_fits (self w) ->
  44 + len (clm_payload (self (wave_size_defaulted w))) + len smp < 2 ^ 32 ->
  exists w',
    wav_export_cycles w
    = (Returned (map (fun cyc => Some (wav_container (self (wave_size_defaulted w)) cyc))
                   (cycles_of (Z.to_nat (cycle_bytes (self w))) smp)), w')
    /\ self w' = self (wave_size_defaulted w).
Proof.
  intros Hs HB Hfit Htot.
  pose proof (data_samples_defaulted w) as Hd.
  assert (Hfit1 : fmt_fits (self (wave_size_defaulted w))).
  { unfold wave_size_defaulted. destruct (wave_size (self w)); exact Hfit. }
  unfold wav_export_cycles. rewrite bind_attr. unfold bind at 1.
  rewrite (slicer_cycles_of w smp Hs HB).
  destruct (wave_size_defaulted w) as [s' d c l]. cbn [self] in *.
  assert (Hall : Forall (fun cyc => 44 + len (clm_payload s') + len cyc < 2 ^ 32)
                   (cycles_of (Z.to_nat (cycle_bytes (self w))) smp)).
  { apply Forall_forall. intros cyc Hin. apply cycles_of_short in Hin. lia. }
  replace (mkWorld s' d c l)
    with (mkWorld (set_data_samples (data_samples s') s') d c l)
    by (destruct s'; reflexivity).
  destruct (wav_export_loop_files s' _ Hfit1 Hall (data_samples s') d c l)
    as (ds' & d' & c' & l' & Hloop).
  unfold bind at 1. rewrite Hloop.
  unfold bind, assign, ret. cbn [fst snd self].
  eexists. split; [reflexivity|]. cbn [self]. rewrite <- Hd.
  destruct s'. reflexivity.
Qed.

(** X21.  [wav_export_cycles] writes one WAVE file for each slice of the
    slicer, in the order of the slices, each of them the complete container
    of the record with that slice as its samples; afterwards the record
    holds its full samples again.  (The format fields must fit the [fmt ]
    chunk and the file size its field, as for [wav_write].) *)
Theorem wav_export_cycles_files (w : World) (smp : bytes) :
  data_samples (self w) = Some smp -> 0 < cycle_bytes (self w) ->
  fmt_fits (self w) ->
  44 + len (clm_payload (self (wave_size_defaulted w))) + len smp < 2 ^ 32 ->
  let s1 := self (wave_size_defaulted w) in
  let r := wav_export_cycles w in
  exists cycles,
    fst (slicer w) = Returned cycles
    /\ fst r = Returned (map (fun cyc => Some (wav_container s1 cyc)) cycles)
    /\ self (snd r) = s1.
Proof.
  intros Hs HB Hfit Htot. cbv zeta.
  destruct (wav_export_cycles_run w smp Hs HB Hfit Htot) as (w' & Hrun & Hself).
  rewrite Hrun.
  exists (cycles_of (Z.to_nat (cycle_bytes (self w))) smp).
  rewrite (slicer_cycles_of w smp Hs HB).
  split; [reflexivity|]. split; [reflexivity|exact Hself].
Qed.

Lemma wav_export_cycles_files_witness :
  let r := wav_export_cycles (world_of two_cycles_and_rest None) in
  fst r
  = Returned [Some (wav_container two_cycles_and_rest [x01; x02; x03; x04]);
              Some (wav_container two_cycles_and_rest [x05; x06; x07; x08]);
              Some (wav_container two_cycles_and_rest [x09; x0a])]
  /\ self (snd r) = two_cycles_and_rest.
Proof.
  cbv zeta.
  destruct (wav_export_cycles_files (world_of two_cycles_and_rest None)
              [x01; x02; x03; x04; x05; x06; x07; x08; x09; x0a])
    as (cycles & Hsl & H1 & H2); [reflexivity|reflexivity| |vm_compute; reflexivity|].
  { unfold fmt_fits. cbn. lia. }
  vm_compute in Hsl. injection Hsl as <-.
  split; [exact H1|exact H2].
Defined.

(** X22.  [wav_export_cycles] restores the samples only at its end.  When
    [wav_write] raises on the first slice, the exception leaves the method
    with the record holding that one slice as its samples: the full
    samples are lost to the caller. *)
Theorem wav_export_cycles_not_restored (s : Wavetable) d c l (ws : Z)
    (first : bytes) (rest : list bytes) (e : exn) :
  wave_size s = Some ws ->
  fst (slicer (mkWorld s d c l)) = Returned (first :: rest) ->
  fst (wav_write (mkWorld (set_data_samples (Some first) s) d c l)) = Raised e ->
  let r := wav_export_cycles (mkWorld s d c l) in
  fst r = Raised e /\ data_samples (self (snd r)) = Some first.
Proof.
  intros Hws Hsl Hwr. cbv zeta.
  assert (Hrun : slicer (mkWorld s d c l) = (Returned (first :: rest), mkWorld s d c l)).
  { revert Hsl. rewrite slicer_run. unfold wave_size_defaulted. cbn [self].
    rewrite Hws. destruct (data_samples s); [|discriminate].
    destruct (range _ _ _); cbn [fst]; [|discriminate].
    intros H. rewrite H. reflexivity. }
  pose proof (wav_write_keeps_self (mkWorld (set_data_samples (Some first) s) d c l))
    as Hkeep.
  assert (Hexp : exists w',
    wav_export_cycles (mkWorld s d c l) = (Raised e, w')
    /\ data_samples (self w') = Some first).
  { unfold wav_export_cycles. rewrite bind_attr. unfold bind at 1. rewrite Hrun.
    unfold bind at 1. cbn [wav_export_loop].
    unfold bind at 1. unfold assign at 1. cbn [self disk cursor logged].
    unfold bind at 1.
    destruct (wav_write _) as [o w2]. cbn [fst snd self] in *. subst o.
    eexists. split; [reflexivity|]. rewrite Hkeep. reflexivity. }
  destruct Hexp as (w' & Hexp & Hd). rewrite Hexp. split; [reflexivity|exact Hd].
Qed.

Lemma wav_export_cycles_not_restored_witness :
  let s := set_fmt_channels (-1) two_cycles in
  let r := wav_export_cycles (world_of s None) in
  fst r = Raised OverflowError
  /\ data_samples (self (snd r)) = Some [x01; x02; x03; x04].
Proof.
  cbv zeta.
  apply (wav_export_cycles_not_restored (set_fmt_channels (-1) two_cycles) None 0 [] 2
           [x01; x02; x03; x04] [[x05; x06; x07; x08]] OverflowError);
    vm_compute; reflexivity.
Defined.

(* ===================================================================== *)
(** ** What a successful import guarantees *)
(* ===================================================================== *)

(** X23.  [wav_import] returns [None] (not [True]) only through the final
    recalculation of the wave count.  So whenever it does, the record holds
    samples and a wave size, the cycle length [wave_size * block_align] is
    not zero, and the wave count is [int(len(samples) / cycle length)] for
    the fields as the file left them. *)
Theorem wav_import_success (w : World) :
  fst (wav_import w) = Returned false ->
  let s' := self (snd (wav_import w)) in
  exists smp ws,
    data_samples s' = Some smp /\ wave_size s' = Some ws
    /\ ws * fmt_bytes_p_block s' <> 0
    /\ wave_count s' = Some (Z.quot (len smp) (ws * fmt_bytes_p_block s')).
Proof.
  cbv zeta. remember (wav_import w) as r eqn:Hr.
  destruct w as [s d c l]. unfold wav_import in Hr.
  rewrite bind_log in Hr. unfold bind at 1 in Hr. unfold open_rb at 1 in Hr.
  cbn [disk] in Hr.
  destruct d as [d|]; [|subst r; discriminate].
  cbn [self disk cursor logged] in Hr. unfold bind at 1 in Hr.
  destruct (wav_import_loop _ _) as [[[|]|e|] w2];
    try (subst r; discriminate).
  unfold bind in Hr. rewrite calc_wave_count_run in Hr.
  destruct w2 as [s2 d2 c2 l2]. cbn [self] in Hr.
  destruct (data_samples s2) as [smp|] eqn:Hs; [|subst r; discriminate].
  destruct (wave_size s2) as [ws|] eqn:Hws; [|subst r; discriminate].
  destruct (Z.eqb_spec (ws * fmt_bytes_p_block s2) 0) as [E|E];
    [subst r; discriminate|].
  unfold assign, ret in Hr. cbn [self disk cursor logged] in Hr. subst r.
  intros _. cbn [snd self]. exists smp, ws.
  destruct s2. cbn in *. subst. auto.
Qed.

Lemma wav_import_success_witness :
  let w := world_of init (Some (wav_container default_with_samples
                                  [x01; x02; x03; x04; x05; x06; x07; x08])) in
  exists smp ws,
    data_samples (self (snd (wav_import w))) = Some smp
    /\ wave_size (self (snd (wav_import w))) = Some ws
    /\ ws * fmt_bytes_p_block (self (snd (wav_import w))) <> 0
    /\ wave_count (self (snd (wav_import w)))
       = Some (Z.quot (len smp) (ws * fmt_bytes_p_block (self (snd (wav_import w))))).
Proof.
  cbv zeta.
  apply (wav_import_success
           (world_of init (Some (wav_container default_with_samples
                                   [x01; x02; x03; x04; x05; x06; x07; x08])))).
  vm_compute. reflexivity.
Defined.

Lemma wt_import_ways_out (w : World) :
  returns_or_raises [FileNotFoundError; ZeroDivisionError] (fst (wt_import w)).
Proof.
  destruct w as [s d c l]. destruct d as [d|]; [|cbn; auto].
  unfold wt_import.
  cbv [bind ret raise lift attr assign log_msg open_rb read read_all read_int
       seek_set contents self disk cursor logged].
  cbn [Z.ltb Z.compare].
  rewrite wt_parse_flags_closed.
  destruct (Z.testbit _ 0 || Z.testbit _ 1); [exact I|].
  cbv [bind ret raise lift attr assign log_msg open_rb read read_all read_int
       seek_set contents self disk cursor logged].
  rewrite set_data_run.
  change (recalc_requested wt_defaults) with true. cbv iota zeta.
  rewrite calc_wave_count_run.
  destruct s as [ds af bits blk sec ch rate wc wi wsz v].
  cbn [self data_samples wave_size
    with_block_recalculated set_fields given wt_defaults
    arg_fmt_audio_format arg_fmt_bits_p_sample arg_fmt_bytes_p_block
    arg_fmt_bytes_p_sec arg_fmt_channels arg_fmt_sample_rate arg_wave_count
    arg_wave_interp arg_wave_size arg_wave_vendor
    set_data_samples set_fmt_audio_format set_fmt_bits_p_sample
    set_fmt_bytes_p_block set_fmt_bytes_p_sec set_fmt_channels
    set_fmt_sample_rate set_wave_count set_wave_interp set_wave_size
    set_wave_vendor].
  destruct (_ =? 0); cbn; auto.
Qed.

(** X24.  [wt_import] has three ways out: it returns, it raises
    [FileNotFoundError] when there is no file, or it raises
    [ZeroDivisionError] in the recalculation of the wave count.  No file
    content makes it raise anything else: neither the tag nor the length of
    the file is checked. *)
Theorem wt_import_outcomes (w : World) :
  (exists b, fst (wt_import w) = Returned b)
  \/ fst (wt_import w) = Raised FileNotFoundError
  \/ fst (wt_import w) = Raised ZeroDivisionError.
Proof.
  pose proof (wt_import_ways_out w) as H.
  destruct (fst (wt_import w)) as [b|e|]; cbn in H.
  - left. exists b. reflexivity.
  - destruct H as [<-|[<-|[]]]; auto.
  - contradiction.
Qed.

(** X25.  The WAVE decoder asks for no header.  Take a file that is
    nothing but one [data] chunk, with neither [RIFF]/[WAVE] nor a [fmt ]
    chunk, whose size field is the length of its payload, and import it
    into a record that holds no samples yet (none, or empty ones) and has
    a wave size [ws] with [ws * block_align] not zero.  Then [wav_import]
    returns [None]: the payload becomes the samples, every other attribute
    keeps the value the record had, and the wave count is recalculated
    from them. *)
Theorem wav_import_headerless (s : Wavetable) (c : nat) (l : list (level * string))
    (sz payload : bytes) (ws : Z) :
  no_samples (data_samples s) = true ->
  length sz = 4%nat -> int_from_bytes sz = len payload ->
  wave_size s = Some ws -> ws * fmt_bytes_p_block s <> 0 ->
  let file := [x64; x61; x74; x61] ++ sz ++ payload in
  wav_import (mkWorld s (Some file) c l)
  = (Returned false,
     mkWorld
       (set_wave_count (Some (Z.quot (len payload) (ws * fmt_bytes_p_block s)))
          (set_data_samples (Some payload) s))
       (Some file) (length file)
       (l ++ [(INFO, "Reading"%string); (INFO, "    Found 'data' chunk."%string)])).
Proof.
  intros Hno Hsz Hlen Hws HB. cbv zeta.
  unfold wav_import. rewrite bind_log.
  unfold bind at 1. unfold open_rb at 1. cbn [disk self cursor logged contents].
  unfold bind at 1. cbn [contents disk].
  set (file := [x64; x61; x74; x61] ++ sz ++ payload).
  assert (Hfuel : exists n, length file = (4 + n)%nat).
  { unfold file. cbn [app length]. eexists. reflexivity. }
  destruct Hfuel as [n Hn]. rewrite Hn. cbn [Nat.add].
  erewrite (wav_import_loop_chunk _ _ _ _ _ [x64; x61; x74; x61]);
    [|unfold file; cbn [skipn]; reflexivity|reflexivity].
  erewrite (wav_parse_chunk_data_first _ _ _ _ sz payload []);
    [|exact Hno
     |unfold file; cbn [skipn app Nat.add]; rewrite app_nil_r; reflexivity
     |exact Hsz
     |exact Hlen].
  assert (Hcur : (0 + 4 + (4 + length payload))%nat = length file).
  { unfold file. cbn [app length]. rewrite length_app. lia. }
  rewrite Hcur, wav_import_loop_end by apply skipn_all.
  unfold bind at 1. rewrite calc_wave_count_run.
  destruct s as [smp' af bits blk sec ch rate wc wi wsz v].
  cbn [wave_size fmt_bytes_p_block] in *. subst wsz.
  cbn [self data_samples wave_size fmt_bytes_p_block set_data_samples].
  destruct (Z.eqb_spec (ws * blk) 0) as [E|_]; [contradiction|].
  unfold bind, assign, ret. cbn [self disk cursor logged set_wave_count set_data_samples
    data_samples fmt_audio_format fmt_bits_p_sample fmt_bytes_p_block
    fmt_bytes_p_sec fmt_channels fmt_sample_rate wave_count wave_interp
    wave_size wave_vendor].
  rewrite Nat.add_0_r, Hn, <- app_assoc. reflexivity.
Qed.

Lemma wav_import_headerless_witness :
  let file := [x64; x61; x74; x61] ++ [x04; x00; x00; x00] ++ [x01; x02; x03; x04] in
  let r := wav_import (mkWorld (set_wave_size (Some 1) init) (Some file) 0 []) in
  fst r = Returned false
  /\ data_samples (self (snd r)) = Some [x01; x02; x03; x04]
  /\ fmt_sample_rate (self (snd r)) = 88200
  /\ wave_count (self (snd r)) = Some 2.
Proof.
  cbv zeta.
  rewrite (wav_import_headerless (set_wave_size (Some 1) init) 0 []
             [x04; x00; x00; x00] [x01; x02; x03; x04] 1);
    [repeat split|reflexivity|reflexivity|reflexivity|reflexivity|cbn; discriminate].
Defined.

(* ===================================================================== *)
(** ** Exported cycles, read back *)
(* ===================================================================== *)

(** X26.  The files of [wav_export_cycles] read back to the slices.  For a
    record whose wave size has four digits and whose interpolation has one
    (so that the clm chunk reads back), with fitting format fields and a
    positive block align, [wav_import] of the [k]-th exported file into a
    fresh record succeeds and yields the [k]-th slice of the slicer as its
    samples. *)
Theorem exported_cycles_read_back (w : World) (smp : bytes) (ws : Z) :
  data_samples (self w) = Some smp ->
  wave_size (self w) = Some ws -> 1000 <= ws <= 9999 ->
  0 <= wave_interp (self w) <= 9 ->
  fmt_fits (self w) -> 0 < fmt_bytes_p_block (self w) ->
  44 + len (clm_payload (self w)) + len smp < 2 ^ 32 ->
  exists cycles files,
    fst (slicer w) = Returned cycles
    /\ fst (wav_export_cycles w) = Returned files
    /\ length files = length cycles
    /\ forall k cyc file,
         nth_error cycles k = Some cyc -> nth_error files k = Some file ->
         let r := wav_import (mkWorld init file 0 []) in
         fst r = Returned false /\ data_samples (self (snd r)) = Some cyc.
Proof.
  intros Hs Hws Hr Hi Hfit Hblk Htot.
  assert (Hdef : wave_size_defaulted w = w)
    by (unfold wave_size_defaulted; rewrite Hws; reflexivity).
  assert (HB : 0 < cycle_bytes (self w))
    by (unfold cycle_bytes; rewrite Hws; nia).
  destruct (wav_export_cycles_run w smp Hs HB Hfit) as (w' & Hrun & _);
    [rewrite Hdef; exact Htot|].
  rewrite Hdef in Hrun.
  exists (cycles_of (Z.to_nat (cycle_bytes (self w))) smp). eexists.
  rewrite (slicer_cycles_of w smp Hs HB), Hrun. cbn [fst].
  split; [reflexivity|]. split; [reflexivity|]. split; [apply length_map|].
  intros k cyc file Hc Hf. cbv zeta.
  rewrite nth_error_map, Hc in Hf. cbn [option_map] in Hf.
  injection Hf as <-.
  assert (Hshort : len cyc <= len smp)
    by (apply (cycles_of_short (Z.to_nat (cycle_bytes (self w)))), (nth_error_In _ _ Hc)).
  assert (Hclm0 : 0 <= len (clm_payload (self w))) by (unfold len; lia).
  assert (Hcyc0 : 0 <= len cyc) by (unfold len; lia).
  rewrite (wav_import_container init (self w) 0 [] cyc ws Hws Hr Hi Hfit)
    by (reflexivity || lia).
  split; reflexivity.
Qed.

Lemma exported_cycles_read_back_witness :
  exists cycles files,
    fst (slicer (world_of (with_wave_size 1024) None)) = Returned cycles
    /\ fst (wav_export_cycles (world_of (with_wave_size 1024) None)) = Returned files
    /\ length files = length cycles
    /\ forall k cyc file,
         nth_error cycles k = Some cyc -> nth_error files k = Some file ->
         let r := wav_import (mkWorld init file 0 []) in
         fst r = Returned false /\ data_samples (self (snd r)) = Some cyc.
Proof.
  apply (exported_cycles_read_back (world_of (with_wave_size 1024) None)
           [x01; x02; x03; x04; x05; x06; x07; x08] 1024);
    [reflexivity|reflexivity|lia|cbn; lia| |reflexivity|vm_compute; reflexivity].
  unfold fmt_fits. cbn. lia.
Defined.
